(** * YUV 4:2:0 to RGB conversion kernel: model and verification

    Shallow embedding of [native_image_processor.cpp] and [yuv_to_rgb.h].

    Modelling conventions.
    - [uint8_t] is [Byte.byte]; [int] is [Z].  Signed [int] overflow is
      undefined in C++, so the [int] expressions of the kernel are evaluated
      in [Z]: the kernel model describes the executions in which every
      index fits 32 bits.  At the entry point the size of the output
      buffer is computed from the caller's integers with nothing checked,
      and there the two's-complement wrap-around that the compiled code
      performs is written out with [wrap32].
    - [float] is IEEE-754 binary32, through the parameterised operations of
      [SpecFloat] at precision 24 and maximal exponent 128.
    - A NEON register is the list of its lanes, lowest lane first.  The
      16-bit lanes are integers in [-32768, 32767] and every lane operation
      writes its two's-complement wrap-around out with [wrap16].
    - An input plane ([const uint8_t*]) is a finite map from the offset
      relative to the pointer to the byte stored there.  An offset with no
      entry is not addressable; reading it is undefined behaviour, which the
      model renders as the result [None].
    - The output buffer ([uint8_t*]) is a finite map from offset to the byte
      written there; an offset with no entry has not been written. *)

From Stdlib Require Import ZArith Lia List Bool.
From Stdlib Require Import Floats.SpecFloat.
From Stdlib Require Import Strings.Byte.
From stdpp Require Import base option list list_numbers strings gmap.

Local Open Scope Z_scope.

(* ================================================================== *)
(** * Machine data *)
(* ================================================================== *)

Abbreviation byte := Init.Byte.byte.

#[local] Instance byte_inhabited : Inhabited byte := populate Byte.x00.

#[local] Instance byte_eq_decision : EqDecision byte := Byte.byte_eq_dec.

(** Integer promotion of a [uint8_t]. *)
Definition u8_to_Z (b : byte) : Z := Z.of_N (Byte.to_N b).

(** [static_cast<uint8_t>] of an [int]: reduction modulo 256. *)
Definition u8_of_Z (z : Z) : byte :=
  default Byte.x00 (Byte.of_N (Z.to_N (z mod 256))).

(** Two's-complement reduction of an integer to a signed 16-bit lane. *)
Definition wrap16 (z : Z) : Z := (z + 32768) mod 65536 - 32768.

Definition in_int16 (z : Z) : Prop := -32768 <= z <= 32767.

(** Two's-complement reduction of an integer to a 32-bit [int]. *)
Definition wrap32 (z : Z) : Z := (z + 2147483648) mod 4294967296 - 2147483648.

(** ** binary32 *)

Definition prec32 : Z := 24.
Definition emax32 : Z := 128.

(** Conversion [int -> float] (exact for the small integers used here). *)
Definition f32_of_int (z : Z) : spec_float :=
  binary_normalize prec32 emax32 z 0 false.

Definition f32_mul : spec_float -> spec_float -> spec_float :=
  SFmul prec32 emax32.

(** A decimal literal [num/den] with the [f] suffix denotes the binary32
    number nearest to it; [num] and [den] are below 2^24, hence exact, and
    the division is correctly rounded. *)
Definition f32_lit (num den : Z) : spec_float :=
  SFdiv prec32 emax32 (f32_of_int num) (f32_of_int den).

(** Conversion [(int)x]: the fractional part is discarded (truncation
    toward zero). *)
Definition f32_to_int (x : spec_float) : Z :=
  match x with
  | S754_finite s m e =>
      let a := match e with
               | Z0 => Zpos m
               | Zpos _ => Z.shiftl (Zpos m) e
               | Zneg p => Z.shiftr (Zpos m) (Zpos p)
               end in
      if s then - a else a
  | _ => 0
  end.

(** The four literals of the scalar code. *)
Definition c_1_402f : spec_float := f32_lit 1402 1000.
Definition c_0_344136f : spec_float := f32_lit 344136 1000000.
Definition c_0_714136f : spec_float := f32_lit 714136 1000000.
Definition c_1_772f : spec_float := f32_lit 1772 1000.

(* ================================================================== *)
(** * yuv_to_rgb.h *)
(* ================================================================== *)

(** [inline uint8_t clamp255(int value)] *)
Definition clamp255 (value : Z) : byte :=
  u8_of_Z (if value <? 0 then 0 else if value >? 255 then 255 else value).

(* ================================================================== *)
(** * Memory *)
(* ================================================================== *)

(** [p[i]] for a [const uint8_t* p], promoted to [int]. *)
Definition load (p : gmap Z byte) (i : Z) : option Z := u8_to_Z <$> p !! i.

(** Counting loop [for (int i = lo; i < hi; i++) body], [n] iterations
    from [i]; the body threads a state and may be undefined. *)
Fixpoint for_loop {S : Type} (n : nat) (i : Z) (body : Z -> S -> option S)
    (s : S) : option S :=
  match n with
  | O => Some s
  | Datatypes.S n' =>
      match body i s with
      | Some s' => for_loop n' (i + 1) body s'
      | None => None
      end
  end.

Definition for_range {S : Type} (lo hi : Z) (body : Z -> S -> option S)
    (s : S) : option S :=
  for_loop (Z.to_nat (hi - lo)) lo body s.

(* ================================================================== *)
(** * arm_neon.h: the intrinsics the kernel uses *)
(* ================================================================== *)

(** [vdupq_n_s16]: the same value in all eight lanes. *)
Definition vdupq_n_s16 (c : Z) : list Z := replicate 8 (wrap16 c).

(** [vld1_u8(&p[off])]: eight consecutive bytes. *)
Definition vld1_u8 (p : gmap Z byte) (off : Z) : option (list byte) :=
  mapM (fun j => p !! (off + j)) (seqZ 0 8).

(** [vmovl_u8]: zero extension to unsigned 16-bit lanes. *)
Definition vmovl_u8 (a : list byte) : list Z := u8_to_Z <$> a.

(** [vreinterpretq_s16_u16]: the same bits read as signed lanes. *)
Definition vreinterpretq_s16_u16 (a : list Z) : list Z := wrap16 <$> a.

Definition vaddq_s16 (a b : list Z) : list Z :=
  zip_with (fun x y => wrap16 (x + y)) a b.

Definition vsubq_s16 (a b : list Z) : list Z :=
  zip_with (fun x y => wrap16 (x - y)) a b.

(** [vmulq_s16]: the low 16 bits of each product. *)
Definition vmulq_s16 (a b : list Z) : list Z :=
  zip_with (fun x y => wrap16 (x * y)) a b.

(** [vshrq_n_s16]: arithmetic shift right of each lane. *)
Definition vshrq_n_s16 (a : list Z) (n : Z) : list Z :=
  (fun x => Z.shiftr x n) <$> a.

(** [vqmovun_s16]: signed lanes narrowed to unsigned bytes, saturating. *)
Definition vqmovun_s16 (a : list Z) : list byte :=
  (fun x => u8_of_Z (Z.max 0 (Z.min 255 x))) <$> a.

(** [vst3_u8(&out[base], rgb)]: lane [j] of the three registers goes to
    offsets [base + 3j], [base + 3j + 1], [base + 3j + 2]. *)
Fixpoint vst3_u8 (out : gmap Z byte) (base : Z) (r g b : list byte)
    : gmap Z byte :=
  match r, g, b with
  | r0 :: r', g0 :: g', b0 :: b' =>
      vst3_u8 (<[base + 2 := b0]> (<[base + 1 := g0]> (<[base := r0]> out)))
              (base + 3) r' g' b'
  | _, _, _ => out
  end.

(* ================================================================== *)
(** * native_image_processor.cpp: the conversion kernel *)
(* ================================================================== *)

Section Kernel.

Variables yPlane uPlane vPlane : gmap Z byte.
Variables width height yRowStride uvRowStride uvPixelStride : Z.

(** ** Scalar path *)

(** Body of the inner loop of [convertYuv420ToRgbScalar]; the state is
    the running [rgbIndex] and the output buffer. *)
Definition scalar_body (row col : Z) (st : Z * gmap Z byte)
    : option (Z * gmap Z byte) :=
  let '(rgbIndex, rgbOutput) := st in
  let yIndex := row * yRowStride + col in
  let uvRow := Z.quot row 2 in
  let uvCol := Z.quot col 2 in
  let uvIndex := uvRow * uvRowStride + uvCol * uvPixelStride in
  y0 ← load yPlane yIndex;
  u0 ← load uPlane uvIndex;
  v0 ← load vPlane uvIndex;
  let y := Z.land y0 255 in
  let u := Z.land u0 255 in
  let v := Z.land v0 255 in
  let r := y + f32_to_int (f32_mul c_1_402f (f32_of_int (v - 128))) in
  let g := y - f32_to_int (f32_mul c_0_344136f (f32_of_int (u - 128)))
             - f32_to_int (f32_mul c_0_714136f (f32_of_int (v - 128))) in
  let b := y + f32_to_int (f32_mul c_1_772f (f32_of_int (u - 128))) in
  let rgbOutput := <[rgbIndex := clamp255 r]> rgbOutput in
  let rgbOutput := <[rgbIndex + 1 := clamp255 g]> rgbOutput in
  let rgbOutput := <[rgbIndex + 2 := clamp255 b]> rgbOutput in
  Some (rgbIndex + 3, rgbOutput).

Definition convertYuv420ToRgbScalar (rgbOutput : gmap Z byte)
    : option (gmap Z byte) :=
  snd <$> for_range 0 height
            (fun row => for_range 0 width (fun col => scalar_body row col))
            (0, rgbOutput).

(** ** NEON path *)

Definition v_c1 : list Z := vdupq_n_s16 359.
Definition v_c2 : list Z := vdupq_n_s16 88.
Definition v_c3 : list Z := vdupq_n_s16 183.
Definition v_c4 : list Z := vdupq_n_s16 454.
Definition v_128 : list Z := vdupq_n_s16 128.

(** The loop that fills [u_vals] and [v_vals].  The two arrays start
  uninitialised; each of their four slots is written before it is read,
  so the bytes the model starts them with are immaterial. *)
Definition load_chroma (uvRowOffset col i : Z) (st : list byte * list byte)
    : option (list byte * list byte) :=
  let '(u_vals, v_vals) := st in
  let uvIndex := uvRowOffset + (Z.quot col 2 + i) * uvPixelStride in
  ub ← uPlane !! uvIndex;
  vb ← vPlane !! uvIndex;
  Some (<[Z.to_nat i := ub]> u_vals, <[Z.to_nat i := vb]> v_vals).

(** Body of the eight-pixel loop. *)
Definition neon_body (yRowOffset uvRowOffset rgbRowOffset col : Z)
    (rgbOutput : gmap Z byte) : option (gmap Z byte) :=
  y8 ← vld1_u8 yPlane (yRowOffset + col);
  let y := vreinterpretq_s16_u16 (vmovl_u8 y8) in
  '(u_vals, v_vals) ← for_range 0 4 (load_chroma uvRowOffset col)
                        (replicate 4 Byte.x00, replicate 4 Byte.x00);
  let u8 := [u_vals !!! 0%nat; u_vals !!! 0%nat; u_vals !!! 1%nat;
             u_vals !!! 1%nat; u_vals !!! 2%nat; u_vals !!! 2%nat;
             u_vals !!! 3%nat; u_vals !!! 3%nat] in
  let v8 := [v_vals !!! 0%nat; v_vals !!! 0%nat; v_vals !!! 1%nat;
             v_vals !!! 1%nat; v_vals !!! 2%nat; v_vals !!! 2%nat;
             v_vals !!! 3%nat; v_vals !!! 3%nat] in
  let u := vreinterpretq_s16_u16 (vmovl_u8 u8) in
  let v := vreinterpretq_s16_u16 (vmovl_u8 v8) in
  let u_shifted := vsubq_s16 u v_128 in
  let v_shifted := vsubq_s16 v v_128 in
  let r_contrib := vshrq_n_s16 (vmulq_s16 v_c1 v_shifted) 8 in
  let r := vaddq_s16 y r_contrib in
  let g_contrib1 := vshrq_n_s16 (vmulq_s16 v_c2 u_shifted) 8 in
  let g_contrib2 := vshrq_n_s16 (vmulq_s16 v_c3 v_shifted) 8 in
  let g := vsubq_s16 (vsubq_s16 y g_contrib1) g_contrib2 in
  let b_contrib := vshrq_n_s16 (vmulq_s16 v_c4 u_shifted) 8 in
  let b := vaddq_s16 y b_contrib in
  let r8 := vqmovun_s16 r in
  let g8 := vqmovun_s16 g in
  let b8 := vqmovun_s16 b in
  Some (vst3_u8 rgbOutput (rgbRowOffset + col * 3) r8 g8 b8).

(** [for (; col + 8 <= width; col += 8)]: returns the final [col] with the
    buffer; [None] also when the fuel does not reach the loop exit. *)
Fixpoint neon_lanes (fuel : nat) (yRowOffset uvRowOffset rgbRowOffset : Z)
    (col : Z) (rgbOutput : gmap Z byte) : option (Z * gmap Z byte) :=
  if bool_decide (col + 8 <= width) then
    match fuel with
    | O => None
    | S fuel' =>
        match neon_body yRowOffset uvRowOffset rgbRowOffset col rgbOutput with
        | Some rgbOutput' =>
            neon_lanes fuel' yRowOffset uvRowOffset rgbRowOffset
                       (col + 8) rgbOutput'
        | None => None
        end
    end
  else Some (col, rgbOutput).

(** Body of the scalar loop over the remaining columns. *)
Definition neon_tail_body (yRowOffset uvRowOffset rgbRowOffset col : Z)
    (rgbOutput : gmap Z byte) : option (gmap Z byte) :=
  let yIndex := yRowOffset + col in
  let uvIndex := uvRowOffset + Z.quot col 2 * uvPixelStride in
  y_val ← load yPlane yIndex;
  u_val ← load uPlane uvIndex;
  v_val ← load vPlane uvIndex;
  let r := y_val + f32_to_int (f32_mul c_1_402f (f32_of_int (v_val - 128))) in
  let g := y_val
           - f32_to_int (f32_mul c_0_344136f (f32_of_int (u_val - 128)))
           - f32_to_int (f32_mul c_0_714136f (f32_of_int (v_val - 128))) in
  let b_val :=
    y_val + f32_to_int (f32_mul c_1_772f (f32_of_int (u_val - 128))) in
  let rgbIdx := rgbRowOffset + col * 3 in
  let rgbOutput := <[rgbIdx := clamp255 r]> rgbOutput in
  let rgbOutput := <[rgbIdx + 1 := clamp255 g]> rgbOutput in
  let rgbOutput := <[rgbIdx + 2 := clamp255 b_val]> rgbOutput in
  Some rgbOutput.

(** Body of the row loop of [convertYuv420ToRgbNeon]. *)
Definition neon_row (row : Z) (rgbOutput : gmap Z byte)
    : option (gmap Z byte) :=
  let uvRow := Z.quot row 2 in
  let rgbRowOffset := row * width * 3 in
  let yRowOffset := row * yRowStride in
  let uvRowOffset := uvRow * uvRowStride in
  '(col, rgbOutput) ← neon_lanes (Z.to_nat width) yRowOffset uvRowOffset
                        rgbRowOffset 0 rgbOutput;
  for_range col width
    (neon_tail_body yRowOffset uvRowOffset rgbRowOffset) rgbOutput.

Definition convertYuv420ToRgbNeon (rgbOutput : gmap Z byte)
    : option (gmap Z byte) :=
  for_range 0 height neon_row rgbOutput.

(** ** Dispatch: [USE_NEON] is fixed when the library is compiled. *)
Definition convertYuv420ToRgb (USE_NEON : bool) (rgbOutput : gmap Z byte)
    : option (gmap Z byte) :=
  if USE_NEON then convertYuv420ToRgbNeon rgbOutput
  else convertYuv420ToRgbScalar rgbOutput.

End Kernel.

(* ================================================================== *)
(** * native_image_processor.cpp: the JNI entry point *)
(* ================================================================== *)

(** What the entry point does to its environment, in program order. *)
Inductive jni_effect : Type :=
  | LOGE (msg : string)
  | new_uint8_array (size : Z)
  | NewByteArray (size : Z)
  | SetByteArrayRegion (start len : Z)
  | delete_array.

(** Outcome of a call that returns: the returned [jbyteArray] ([None] is
    [nullptr]; a cell of the array is [Some b] for a byte the conversion
    wrote and [None] for a byte of the fresh buffer that was never written,
    whose value is whatever the heap held), the effects, and the native
    output buffer as it was when released ([None] when no buffer was ever
    allocated). *)
Record jni_outcome : Type := {
  jni_result : option (list (option byte));
  jni_effects : list jni_effect;
  jni_buffer : option (gmap Z byte)
}.

(** How a call ends: it returns; or [new] throws and the exception leaves
    the native function (the effects up to there are kept); or the
    behaviour is undefined (the kernel read outside a plane or wrote
    outside the allocated buffer). *)
Inductive jni_return : Type :=
  | jni_returns (outcome : jni_outcome)
  | jni_throws (effects : list jni_effect)
  | jni_undefined.

(** Every byte the conversion wrote lies in the [n] bytes allocated. *)
Definition writes_within (rgbOutput : gmap Z byte) (n : Z) : bool :=
  forallb (fun k => (0 <=? k) && (k <? n)) (map_to_list rgbOutput).*1.

(** [GetDirectBufferAddress] yields the plane behind a direct buffer, or a
    null pointer: a buffer argument is [Some plane] or [None].
    [int rgbSize = width * height * 3] is computed in 32 bits.  A negative
    size makes [new] throw; an allocation of a non-negative size is taken
    to succeed and holds no written byte.  [SetByteArrayRegion] copies the
    [rgbSize] cells of the buffer, written or not. *)
Definition convertYuvToRgb (USE_NEON : bool)
    (yBuffer uBuffer vBuffer : option (gmap Z byte))
    (width height yRowStride uvRowStride uvPixelStride : Z)
    : jni_return :=
  match yBuffer, uBuffer, vBuffer with
  | Some yPlane, Some uPlane, Some vPlane =>
      let rgbSize := wrap32 (wrap32 (width * height) * 3) in
      if rgbSize <? 0 then jni_throws [new_uint8_array rgbSize] else
      match convertYuv420ToRgb yPlane uPlane vPlane width height
              yRowStride uvRowStride uvPixelStride USE_NEON ∅ with
      | None => jni_undefined
      | Some rgbOutput =>
          if writes_within rgbOutput rgbSize then
            let result := (fun k => rgbOutput !! k) <$> seqZ 0 rgbSize in
            jni_returns
              {| jni_result := Some result;
                 jni_effects := [new_uint8_array rgbSize;
                                 NewByteArray rgbSize;
                                 SetByteArrayRegion 0 rgbSize; delete_array];
                 jni_buffer := Some rgbOutput |}
          else jni_undefined
      end
  | _, _, _ =>
      jni_returns {| jni_result := None;
                     jni_effects := [LOGE "Error: buffers inválidos"];
                     jni_buffer := None |}
  end.

(** The array a call returns, if it returns one. *)
Definition jni_array (r : jni_return) : option (list (option byte)) :=
  match r with
  | jni_returns outcome => jni_result outcome
  | _ => None
  end.

(** [isNeonSupported] *)
Definition isNeonSupported (USE_NEON : bool) : bool := USE_NEON.

(* ================================================================== *)
(** * Vocabulary of the specification *)
(* ================================================================== *)

(** Sample indices as the specification words them (floor division). *)
Definition spec_luma_index (yRowStride row col : Z) : Z :=
  row * yRowStride + col.

Definition spec_chroma_index (uvRowStride uvPixelStride row col : Z) : Z :=
  (row / 2) * uvRowStride + (col / 2) * uvPixelStride.

(** Saturation to the closed interval [0, 255]. *)
Definition spec_saturate (x : Z) : Z :=
  if x <? 0 then 0 else if 255 <? x then 255 else x.

(** The product of the decimal coefficient [num/den] with [k], in exact
    arithmetic, truncated toward zero. *)
Definition spec_trunc (num den k : Z) : Z := Z.quot (num * k) den.

Definition spec_R (y v : Z) : Z :=
  spec_saturate (y + spec_trunc 1402 1000 (v - 128)).

Definition spec_G (y u v : Z) : Z :=
  spec_saturate (y - spec_trunc 344136 1000000 (u - 128)
                   - spec_trunc 714136 1000000 (v - 128)).

Definition spec_B (y u : Z) : Z :=
  spec_saturate (y + spec_trunc 1772 1000 (u - 128)).

(** Offset of channel [c] of pixel [(row, col)] in the output buffer. *)
Definition spec_rgb_offset (width row col c : Z) : Z :=
  (row * width + col) * 3 + c.

(** ** Channel values the code computes, before saturation *)

Definition scalar_r (y v : Z) : Z :=
  y + f32_to_int (f32_mul c_1_402f (f32_of_int (v - 128))).

Definition scalar_g (y u v : Z) : Z :=
  y - f32_to_int (f32_mul c_0_344136f (f32_of_int (u - 128)))
    - f32_to_int (f32_mul c_0_714136f (f32_of_int (v - 128))).

Definition scalar_b (y u : Z) : Z :=
  y + f32_to_int (f32_mul c_1_772f (f32_of_int (u - 128))).

(** One lane of [vshrq_n_s16 (vmulq_s16 (vdupq_n_s16 k) (vsubq_s16 c v_128)) 8]
    for a widened chroma byte [c]. *)
Definition lane_contrib (k c : Z) : Z :=
  Z.shiftr (wrap16 (wrap16 k * wrap16 (wrap16 c - wrap16 128))) 8.

Definition neon_r (y v : Z) : Z := wrap16 (wrap16 y + lane_contrib 359 v).

Definition neon_g (y u v : Z) : Z :=
  wrap16 (wrap16 (wrap16 y - lane_contrib 88 u) - lane_contrib 183 v).

Definition neon_b (y u : Z) : Z := wrap16 (wrap16 y + lane_contrib 454 u).

(** The byte each path stores for channel [c] (0 = R, 1 = G, 2 = B). *)
Definition channel_value (r g b c : Z) : Z :=
  if c =? 0 then r else if c =? 1 then g else b.

Definition scalar_pixel (y u v c : Z) : byte :=
  clamp255 (channel_value (scalar_r y v) (scalar_g y u v) (scalar_b y u) c).

Definition neon_pixel (y u v c : Z) : byte :=
  u8_of_Z (Z.max 0 (Z.min 255
    (channel_value (neon_r y v) (neon_g y u v) (neon_b y u) c))).

(** Columns below [8 * (width / 8)] belong to the eight-pixel loop, the
    others to the scalar loop that follows it. *)
Definition neon_path_pixel (width col y u v c : Z) : byte :=
  if bool_decide (col < 8 * (width / 8)) then neon_pixel y u v c
  else scalar_pixel y u v c.

(** The exact product a lane of [vmulq_s16] is meant to hold. *)
Definition lane_product (k c : Z) : Z := k * (c - 128).

(** ** Frames *)

Section Frames.

Variables yPlane uPlane vPlane : gmap Z byte.
Variables width height yRowStride uvRowStride uvPixelStride : Z.

(** The three samples of pixel [(row, col)]. *)
Definition sampled (row col y u v : Z) : Prop :=
  load yPlane (spec_luma_index yRowStride row col) = Some y /\
  load uPlane (spec_chroma_index uvRowStride uvPixelStride row col) = Some u /\
  load vPlane (spec_chroma_index uvRowStride uvPixelStride row col) = Some v.

(** Every pixel of the image has its three samples in the planes, and the
    samples satisfy [P]. *)
Definition frame_samples (P : Z -> Z -> Z -> Prop) : Prop :=
  forall row col, 0 <= row < height -> 0 <= col < width ->
    exists y u v, sampled row col y u v /\ P y u v.

Definition frame_readable : Prop := frame_samples (fun _ _ _ => True).

(** Executable counterpart of [frame_samples]. *)
Definition frame_samplesb (P : Z -> Z -> Z -> bool) : bool :=
  forallb (fun row =>
    forallb (fun col =>
      match load yPlane (spec_luma_index yRowStride row col),
            load uPlane (spec_chroma_index uvRowStride uvPixelStride row col),
            load vPlane (spec_chroma_index uvRowStride uvPixelStride row col)
      with
      | Some y, Some u, Some v => P y u v
      | _, _, _ => false
      end) (seqZ 0 width)) (seqZ 0 height).

(** [out'] is [out] with the whole image written: channel [c] of pixel
    [(row, col)] holds [pixel col y u v c], where [y], [u], [v] are the
    samples of that pixel, and nothing outside the image region changed. *)
Definition image_written (pixel : Z -> Z -> Z -> Z -> Z -> byte)
    (out out' : gmap Z byte) : Prop :=
  (forall row col c y u v,
      0 <= row < height -> 0 <= col < width -> 0 <= c < 3 ->
      sampled row col y u v ->
      out' !! spec_rgb_offset width row col c = Some (pixel col y u v c)) /\
  (forall k, k < 0 \/ width * height * 3 <= k -> out' !! k = out !! k).

End Frames.

(** Two frames hold the same logical image: at every pixel the sample found
    through the first frame's strides is the sample found through the
    second frame's strides. *)
Definition same_image (yPlane1 uPlane1 vPlane1 yPlane2 uPlane2 vPlane2
    : gmap Z byte)
    (width height yRowStride1 uvRowStride1 yRowStride2 uvRowStride2
     uvPixelStride : Z) : Prop :=
  forall row col, 0 <= row < height -> 0 <= col < width ->
    yPlane1 !! spec_luma_index yRowStride1 row col
      = yPlane2 !! spec_luma_index yRowStride2 row col /\
    uPlane1 !! spec_chroma_index uvRowStride1 uvPixelStride row col
      = uPlane2 !! spec_chroma_index uvRowStride2 uvPixelStride row col /\
    vPlane1 !! spec_chroma_index uvRowStride1 uvPixelStride row col
      = vPlane2 !! spec_chroma_index uvRowStride2 uvPixelStride row col.

Definition same_imageb (yPlane1 uPlane1 vPlane1 yPlane2 uPlane2 vPlane2
    : gmap Z byte)
    (width height yRowStride1 uvRowStride1 yRowStride2 uvRowStride2
     uvPixelStride : Z) : bool :=
  forallb (fun row =>
    forallb (fun col =>
      bool_decide
        (yPlane1 !! spec_luma_index yRowStride1 row col
           = yPlane2 !! spec_luma_index yRowStride2 row col /\
         uPlane1 !! spec_chroma_index uvRowStride1 uvPixelStride row col
           = uPlane2 !! spec_chroma_index uvRowStride2 uvPixelStride row col /\
         vPlane1 !! spec_chroma_index uvRowStride1 uvPixelStride row col
           = vPlane2 !! spec_chroma_index uvRowStride2 uvPixelStride row col))
      (seqZ 0 width)) (seqZ 0 height).

(** The channel value a path computes for column [col], before the
    saturating store: the NEON path uses its lanes below [8 * (width / 8)]
    and the scalar formulas in the remaining columns. *)
Definition path_channel_value (USE_NEON : bool) (width col y u v c : Z) : Z :=
  if USE_NEON && (col <? 8 * (width / 8))
  then channel_value (neon_r y v) (neon_g y u v) (neon_b y u) c
  else channel_value (scalar_r y v) (scalar_g y u v) (scalar_b y u) c.

(** The first [n] bytes of two buffers are written and differ by at most
    [d k] at offset [k]. *)
Definition within (d : Z -> Z) (n : Z) (out1 out2 : gmap Z byte) : Prop :=
  forall k, 0 <= k < n ->
    exists a b, load out1 k = Some a /\ load out2 k = Some b /\
                Z.abs (b - a) <= d k.

(** ** Concrete frames used in the examples *)

(** The plane whose bytes at offsets 0, 1, 2, ... are the given values. *)
Definition packed (l : list Z) : gmap Z byte :=
  list_to_map (zip (seqZ 0 (Z.of_nat (length l))) (u8_of_Z <$> l)).

(** A plane of [n] bytes running through the whole byte range. *)
Definition ramp_plane (n : Z) : gmap Z byte :=
  packed ((fun i => (i * 37 + 11) mod 256) <$> seqZ 0 n).

(** The NEON path, run from an empty buffer on a tightly packed
    [width] x [height] frame of ramps, populates exactly the offsets of
    [0, width * height * 3). *)
Definition neon_populates (width height : Z) : bool :=
  let cw := (width + 1) / 2 in
  let ch := (height + 1) / 2 in
  match convertYuv420ToRgbNeon (ramp_plane (width * height))
          (ramp_plane (cw * ch)) (ramp_plane (cw * ch)) width height
          width cw 1 ∅ with
  | Some out =>
      forallb (fun k => bool_decide (is_Some (out !! k)))
        (seqZ 0 (width * height * 3))
      && bool_decide (size out = Z.to_nat (width * height * 3))
  | None => false
  end.

(** ** Vocabulary of the further properties *)

(** The Q8 product of the constant [k] with the centred chroma byte [c],
    rescaled by the floor shift: what a lane of
    [vshrq_n_s16 (vmulq_s16 k (c - 128)) 8] is meant to hold. *)
Definition q8 (k c : Z) : Z := (k * (c - 128)) / 256.

(** What the lane holds: the product loses a multiple of 65536 when it
    leaves the signed 16-bit range, the rescaled value a multiple of 256. *)
Definition q8_wrapped (k c : Z) : Z :=
  q8 k c + (if 32767 <? k * (c - 128) then -256
            else if k * (c - 128) <? -32768 then 256 else 0).

(** The plane has a byte at every offset of [0, n). *)
Definition plane_covers (p : gmap Z byte) (n : Z) : Prop :=
  forall i, 0 <= i < n -> is_Some (p !! i).

Definition plane_coversb (p : gmap Z byte) (n : Z) : bool :=
  forallb (fun i => bool_decide (is_Some (p !! i))) (seqZ 0 n).

(* ================================================================== *)
(** * Verification *)
(* ================================================================== *)

(** ** Bytes and lanes *)

Lemma u8_to_Z_range (b : byte) : 0 <= u8_to_Z b < 256.
Proof.
  unfold u8_to_Z. pose proof (Byte.to_N_bounded b). lia.
Qed.

Lemma u8_to_of_Z (z : Z) : 0 <= z < 256 -> u8_to_Z (u8_of_Z z) = z.
Proof.
  intros Hz. unfold u8_of_Z, u8_to_Z.
  rewrite Z.mod_small by lia.
  destruct (Byte.of_N (Z.to_N z)) as [b|] eqn:E.
  - simpl. apply Byte.to_of_N in E. lia.
  - apply Byte.of_N_None_iff in E. lia.
Qed.

Lemma u8_of_to_Z (b : byte) : u8_of_Z (u8_to_Z b) = b.
Proof.
  pose proof (u8_to_Z_range b) as Hb. unfold u8_of_Z.
  rewrite Z.mod_small by lia. unfold u8_to_Z.
  rewrite N2Z.id, Byte.of_to_N. reflexivity.
Qed.

Lemma land_255_byte (z : Z) : 0 <= z < 256 -> Z.land z 255 = z.
Proof.
  intros Hz. change 255 with (Z.ones 8).
  rewrite Z.land_ones by lia. apply Z.mod_small. lia.
Qed.

Lemma wrap16_small (z : Z) : in_int16 z -> wrap16 z = z.
Proof.
  unfold in_int16, wrap16. intros Hz. rewrite Z.mod_small; lia.
Qed.

Lemma wrap16_range (z : Z) : in_int16 (wrap16 z).
Proof.
  unfold in_int16, wrap16.
  pose proof (Z.mod_pos_bound (z + 32768) 65536). lia.
Qed.

Lemma spec_saturate_range (x : Z) : 0 <= spec_saturate x <= 255.
Proof.
  unfold spec_saturate.
  destruct (Z.ltb_spec x 0); [lia|]. destruct (Z.ltb_spec 255 x); lia.
Qed.

Lemma clamp255_saturates (x : Z) : u8_to_Z (clamp255 x) = spec_saturate x.
Proof.
  unfold clamp255, spec_saturate.
  destruct (Z.ltb_spec x 0); [reflexivity|].
  rewrite Z.gtb_ltb.
  destruct (Z.ltb_spec 255 x); [reflexivity|].
  apply u8_to_of_Z. lia.
Qed.

Lemma vqmovun_lane_saturates (x : Z) :
  u8_to_Z (u8_of_Z (Z.max 0 (Z.min 255 x))) = spec_saturate x.
Proof.
  rewrite u8_to_of_Z by lia. unfold spec_saturate.
  destruct (Z.ltb_spec x 0); [lia|]. destruct (Z.ltb_spec 255 x); lia.
Qed.

Lemma spec_saturate_lipschitz (x y d : Z) :
  Z.abs (x - y) <= d -> Z.abs (spec_saturate x - spec_saturate y) <= d.
Proof.
  unfold spec_saturate.
  destruct (Z.ltb_spec x 0); destruct (Z.ltb_spec 255 x);
    destruct (Z.ltb_spec y 0); destruct (Z.ltb_spec 255 y); lia.
Qed.

Lemma forallb_seqZ (P : Z -> bool) (lo n : Z) :
  forallb P (seqZ lo n) = true ->
  forall k, lo <= k < lo + n -> P k = true.
Proof.
  intros H k Hk. rewrite forallb_forall in H. apply H.
  apply list_elem_of_In, elem_of_seqZ. lia.
Qed.

(** ** The scalar products: binary32 against exact decimals *)

Lemma scalar_product_table :
  forallb (fun k =>
    (f32_to_int (f32_mul c_1_402f (f32_of_int k)) =? spec_trunc 1402 1000 k)
    && (f32_to_int (f32_mul c_0_344136f (f32_of_int k))
          =? spec_trunc 344136 1000000 k)
    && (f32_to_int (f32_mul c_0_714136f (f32_of_int k))
          =? spec_trunc 714136 1000000 k)
    && (f32_to_int (f32_mul c_1_772f (f32_of_int k)) =? spec_trunc 1772 1000 k))
    (seqZ (-128) 256) = true.
Proof. vm_compute. reflexivity. Qed.

Lemma scalar_products_exact (k : Z) :
  -128 <= k <= 127 ->
  f32_to_int (f32_mul c_1_402f (f32_of_int k)) = spec_trunc 1402 1000 k /\
  f32_to_int (f32_mul c_0_344136f (f32_of_int k))
    = spec_trunc 344136 1000000 k /\
  f32_to_int (f32_mul c_0_714136f (f32_of_int k))
    = spec_trunc 714136 1000000 k /\
  f32_to_int (f32_mul c_1_772f (f32_of_int k)) = spec_trunc 1772 1000 k.
Proof.
  intros Hk.
  pose proof (forallb_seqZ _ _ _ scalar_product_table k ltac:(lia)) as H.
  cbv beta in H. rewrite !andb_true_iff, !Z.eqb_eq in H. tauto.
Qed.

Lemma literal_bits :
  c_1_402f = S754_finite false 11760828 (-23) /\
  c_0_344136f = S754_finite false 11547288 (-25) /\
  c_0_714136f = S754_finite false 11981214 (-24) /\
  c_1_772f = S754_finite false 14864613 (-23).
Proof. vm_compute. repeat split. Qed.

Lemma scalar_channels_spec (y u v : Z) :
  0 <= u < 256 -> 0 <= v < 256 ->
  spec_saturate (scalar_r y v) = spec_R y v /\
  spec_saturate (scalar_g y u v) = spec_G y u v /\
  spec_saturate (scalar_b y u) = spec_B y u.
Proof.
  intros Hu Hv.
  destruct (scalar_products_exact (u - 128) ltac:(lia)) as (_ & Hu2 & _ & Hu4).
  destruct (scalar_products_exact (v - 128) ltac:(lia)) as (Hv1 & _ & Hv3 & _).
  unfold scalar_r, scalar_g, scalar_b, spec_R, spec_G, spec_B.
  rewrite Hu2, Hu4, Hv1, Hv3. auto.
Qed.

(** ** The lanes of the NEON registers *)

Lemma lane_contrib_range (k c : Z) : -128 <= lane_contrib k c <= 127.
Proof.
  unfold lane_contrib.
  pose proof (wrap16_range (wrap16 k * wrap16 (wrap16 c - wrap16 128))) as H.
  unfold in_int16 in H. rewrite Z.shiftr_div_pow2 by lia.
  change (2 ^ 8) with 256.
  generalize dependent (wrap16 (wrap16 k * wrap16 (wrap16 c - wrap16 128))).
  intros x Hx. Z.div_mod_to_equations. lia.
Qed.

Lemma lane_contrib_exact (k c : Z) :
  in_int16 k -> 0 <= c < 256 -> in_int16 (lane_product k c) ->
  lane_contrib k c = lane_product k c / 256.
Proof.
  unfold lane_contrib, lane_product. intros Hk Hc Hp.
  rewrite (wrap16_small k) by assumption.
  rewrite (wrap16_small c) by (unfold in_int16; lia).
  rewrite (wrap16_small 128) by (unfold in_int16; lia).
  rewrite (wrap16_small (c - 128)) by (unfold in_int16; lia).
  rewrite wrap16_small by assumption.
  rewrite Z.shiftr_div_pow2 by lia. reflexivity.
Qed.

Lemma neon_channels_no_wrap (y u v : Z) :
  0 <= y < 256 ->
  neon_r y v = y + lane_contrib 359 v /\
  neon_g y u v = y - lane_contrib 88 u - lane_contrib 183 v /\
  neon_b y u = y + lane_contrib 454 u.
Proof.
  intros Hy. unfold neon_r, neon_g, neon_b.
  pose proof (lane_contrib_range 359 v). pose proof (lane_contrib_range 88 u).
  pose proof (lane_contrib_range 183 v). pose proof (lane_contrib_range 454 u).
  rewrite (wrap16_small y) by (unfold in_int16; lia).
  rewrite (wrap16_small (y + _)) by (unfold in_int16; lia).
  rewrite (wrap16_small (y + _)) by (unfold in_int16; lia).
  rewrite (wrap16_small (y - _)) by (unfold in_int16; lia).
  rewrite (wrap16_small (y - _ - _)) by (unfold in_int16; lia). auto.
Qed.

Lemma lane_vs_scalar_table :
  forallb (fun c =>
    let k := c - 128 in
    (negb ((37 <=? c) && (c <=? 219))
      || (Z.abs (lane_contrib 359 c - spec_trunc 1402 1000 k) <=? 2))
    && (Z.abs (lane_contrib 88 c - spec_trunc 344136 1000000 k) <=? 1)
    && (Z.abs (lane_contrib 183 c - spec_trunc 714136 1000000 k) <=? 2)
    && (negb ((56 <=? c) && (c <=? 200))
      || (Z.abs (lane_contrib 454 c - spec_trunc 1772 1000 k) <=? 2)))
    (seqZ 0 256) = true.
Proof. vm_compute. reflexivity. Qed.

Lemma lane_vs_scalar (c : Z) :
  0 <= c < 256 ->
  (37 <= c <= 219 ->
     Z.abs (lane_contrib 359 c - spec_trunc 1402 1000 (c - 128)) <= 2) /\
  Z.abs (lane_contrib 88 c - spec_trunc 344136 1000000 (c - 128)) <= 1 /\
  Z.abs (lane_contrib 183 c - spec_trunc 714136 1000000 (c - 128)) <= 2 /\
  (56 <= c <= 200 ->
     Z.abs (lane_contrib 454 c - spec_trunc 1772 1000 (c - 128)) <= 2).
Proof.
  intros Hc.
  pose proof (forallb_seqZ _ _ _ lane_vs_scalar_table c ltac:(lia)) as H.
  cbv beta zeta in H.
  rewrite !andb_true_iff, !orb_true_iff, !negb_true_iff, !andb_false_iff,
    !Z.leb_le, !Z.leb_gt in H.
  destruct H as (((H1 & H2) & H3) & H4). repeat split; try assumption.
  - intros Hr. destruct H1 as [[?|?]|?]; [lia|lia|assumption].
  - intros Hr. destruct H4 as [[?|?]|?]; [lia|lia|assumption].
Qed.

Lemma lane_product_359_in_range (c : Z) :
  in_int16 (lane_product 359 c) <-> 37 <= c <= 219.
Proof. unfold in_int16, lane_product. lia. Qed.

Lemma lane_product_454_in_range (c : Z) :
  in_int16 (lane_product 454 c) <-> 56 <= c <= 200.
Proof. unfold in_int16, lane_product. lia. Qed.

Lemma lane_product_88_183_in_range (c : Z) :
  0 <= c < 256 ->
  in_int16 (lane_product 88 c) /\ in_int16 (lane_product 183 c).
Proof. unfold in_int16, lane_product. lia. Qed.

(** ** Loops *)

Lemma for_range_empty {S : Type} (lo hi : Z) (body : Z -> S -> option S)
    (s : S) :
  hi <= lo -> for_range lo hi body s = Some s.
Proof.
  intros H. unfold for_range. replace (Z.to_nat (hi - lo)) with O by lia.
  reflexivity.
Qed.

(** Invariant rule: an invariant indexed by the number of completed
    iterations, established by every iteration, holds at the exit, and the
    loop is defined. *)
Lemma for_loop_invariant {S : Type} (Inv : Z -> S -> Prop) (n : nat) (i : Z)
    (body : Z -> S -> option S) (s : S) :
  Inv 0 s ->
  (forall j t, 0 <= j < Z.of_nat n -> Inv j t ->
     exists t', body (i + j) t = Some t' /\ Inv (j + 1) t') ->
  exists s', for_loop n i body s = Some s' /\ Inv (Z.of_nat n) s'.
Proof.
  revert Inv i s. induction n as [|n IH]; intros Inv i s H0 Hstep.
  - exists s. split; [reflexivity | exact H0].
  - destruct (Hstep 0 s ltac:(lia) H0) as (t & Hb & Ht).
    rewrite Z.add_0_r in Hb. simpl. rewrite Hb.
    destruct (IH (fun j => Inv (j + 1)) (i + 1) t Ht) as (s' & Hs' & Hinv).
    + intros j t0 Hj Hinv.
      destruct (Hstep (j + 1) t0 ltac:(lia) Hinv) as (t' & Hb' & Ht').
      exists t'. split; [|exact Ht'].
      rewrite <- Hb'. f_equal. lia.
    + exists s'. split; [exact Hs'|].
      replace (Z.of_nat (Datatypes.S n)) with (Z.of_nat n + 1) by lia.
      exact Hinv.
Qed.

Lemma for_range_invariant {S : Type} (Inv : Z -> S -> Prop) (lo hi : Z)
    (body : Z -> S -> option S) (s : S) :
  lo <= hi ->
  Inv lo s ->
  (forall j t, lo <= j < hi -> Inv j t ->
     exists t', body j t = Some t' /\ Inv (j + 1) t') ->
  exists s', for_range lo hi body s = Some s' /\ Inv hi s'.
Proof.
  intros Hle H0 Hstep. unfold for_range.
  destruct (for_loop_invariant (fun j => Inv (lo + j)) (Z.to_nat (hi - lo))
              lo body s) as (s' & Hs' & Hinv).
  - rewrite Z.add_0_r. exact H0.
  - intros j t Hj Hinv.
    destruct (Hstep (lo + j) t ltac:(lia) Hinv) as (t' & Hb & Ht').
    exists t'. split; [exact Hb|].
    replace (lo + (j + 1)) with (lo + j + 1) by lia. exact Ht'.
  - exists s'. split; [exact Hs'|].
    replace (lo + Z.of_nat (Z.to_nat (hi - lo))) with hi in Hinv by lia.
    exact Hinv.
Qed.

(** Bodies that agree on the iterated range give the same loop. *)
Lemma for_loop_ext {S : Type} (n : nat) (i : Z)
    (body1 body2 : Z -> S -> option S) (s : S) :
  (forall j t, i <= j < i + Z.of_nat n -> body1 j t = body2 j t) ->
  for_loop n i body1 s = for_loop n i body2 s.
Proof.
  revert i s. induction n as [|n IH]; intros i s H; [reflexivity|].
  simpl. rewrite (H i s) by lia.
  destruct (body2 i s) as [t|]; [|reflexivity].
  apply IH. intros j t' Hj. apply H. lia.
Qed.

Lemma for_range_ext {S : Type} (lo hi : Z)
    (body1 body2 : Z -> S -> option S) (s : S) :
  (forall j t, lo <= j < hi -> body1 j t = body2 j t) ->
  for_range lo hi body1 s = for_range lo hi body2 s.
Proof.
  intros H. unfold for_range. apply for_loop_ext.
  intros j t Hj. apply H. lia.
Qed.

Ltac lookup_inserts :=
  repeat (rewrite lookup_insert; case_decide; try lia).

Ltac split_channel c :=
  let H := fresh in
  assert (H : c = 0 \/ c = 1 \/ c = 2) by lia;
  destruct H as [-> | [-> | ->]].

(** ** The scalar path, loop by loop *)

Section ScalarRun.

Variables yPlane uPlane vPlane : gmap Z byte.
Variables width height yRowStride uvRowStride uvPixelStride : Z.

Lemma load_byte (p : gmap Z byte) (i z : Z) :
  load p i = Some z -> 0 <= z < 256.
Proof.
  unfold load. destruct (p !! i) as [b|]; simpl; [|discriminate].
  intros [= <-]. apply u8_to_Z_range.
Qed.

Lemma sampled_bytes (row col y u v : Z) :
  sampled yPlane uPlane vPlane yRowStride uvRowStride uvPixelStride
    row col y u v -> 0 <= y < 256 /\ 0 <= u < 256 /\ 0 <= v < 256.
Proof.
  intros (Hy & Hu & Hv).
  split; [|split]; eapply load_byte; eassumption.
Qed.

Lemma sampled_fun (row col y u v y' u' v' : Z) :
  sampled yPlane uPlane vPlane yRowStride uvRowStride uvPixelStride
    row col y u v ->
  sampled yPlane uPlane vPlane yRowStride uvRowStride uvPixelStride
    row col y' u' v' ->
  y' = y /\ u' = u /\ v' = v.
Proof.
  intros (Hy & Hu & Hv) (Hy' & Hu' & Hv'). repeat split; congruence.
Qed.

Lemma scalar_body_run (row col idx : Z) (out : gmap Z byte) (y u v : Z) :
  0 <= row -> 0 <= col ->
      sampled yPlane uPlane vPlane yRowStride uvRowStride uvPixelStride
        row col y u v ->
  scalar_body yPlane uPlane vPlane yRowStride uvRowStride uvPixelStride
    row col (idx, out)
  = Some (idx + 3,
          <[idx + 2 := scalar_pixel y u v 2]>
            (<[idx + 1 := scalar_pixel y u v 1]>
               (<[idx := scalar_pixel y u v 0]> out))).
Proof.
  intros Hrow Hcol Hs.
  destruct (sampled_bytes _ _ _ _ _ Hs) as (By & Bu & Bv).
  destruct Hs as (Hy & Hu & Hv).
  unfold spec_luma_index, spec_chroma_index in *.
  unfold scalar_body.
  rewrite !Z.quot_div_nonneg by lia.
  rewrite Hy, Hu, Hv. cbn [mbind option_bind].
  rewrite !land_255_byte by assumption. reflexivity.
Qed.

Lemma scalar_cols_run (row idx0 : Z) (out : gmap Z byte) :
  0 <= row -> 0 <= width ->
  (forall col, 0 <= col < width -> exists y u v,
      sampled yPlane uPlane vPlane yRowStride uvRowStride uvPixelStride
        row col y u v) ->
  exists out',
    for_range 0 width
      (scalar_body yPlane uPlane vPlane yRowStride uvRowStride uvPixelStride
         row) (idx0, out)
    = Some (idx0 + 3 * width, out') /\
    (forall col c y u v, 0 <= col < width -> 0 <= c < 3 ->
       sampled yPlane uPlane vPlane yRowStride uvRowStride uvPixelStride
         row col y u v ->
       out' !! (idx0 + 3 * col + c) = Some (scalar_pixel y u v c)) /\
    (forall k, k < idx0 \/ idx0 + 3 * width <= k -> out' !! k = out !! k).
Proof.
  intros Hrow Hw Hread.
  destruct (for_range_invariant
    (fun j (st : Z * gmap Z byte) =>
       st.1 = idx0 + 3 * j /\
       (forall col c y u v, 0 <= col < j -> 0 <= c < 3 ->
          sampled yPlane uPlane vPlane yRowStride uvRowStride uvPixelStride
            row col y u v ->
          st.2 !! (idx0 + 3 * col + c) = Some (scalar_pixel y u v c)) /\
       (forall k, k < idx0 \/ idx0 + 3 * j <= k -> st.2 !! k = out !! k))
    0 width
    (scalar_body yPlane uPlane vPlane yRowStride uvRowStride uvPixelStride row)
    (idx0, out) Hw) as ([idx' out'] & Hrun & Hidx & Hpix & Hframe).
  - simpl. split; [lia|]. split; [intros; lia | reflexivity].
  - intros j [idx out1] Hj (Hidx & Hpix & Hframe). simpl in *. subst idx.
    destruct (Hread j Hj) as (y & u & v & Hs).
    eexists. split; [apply scalar_body_run; [lia | lia | exact Hs]|].
    simpl. split; [lia|]. split.
    + intros col c y' u' v' Hcol Hc Hs'.
      destruct (decide (col = j)) as [->|Hne].
      * destruct (sampled_fun _ _ _ _ _ _ _ _ Hs Hs') as (-> & -> & ->).
        split_channel c; lookup_inserts; reflexivity.
      * lookup_inserts. apply Hpix; [lia | lia | exact Hs'].
    + intros k Hk. lookup_inserts. apply Hframe. lia.
  - simpl in *. subst idx'. exists out'. auto.
Qed.

Lemma scalar_image (out : gmap Z byte) :
  0 <= width -> 0 <= height ->
  frame_readable yPlane uPlane vPlane width height yRowStride uvRowStride
    uvPixelStride ->
  exists out',
    convertYuv420ToRgbScalar yPlane uPlane vPlane width height yRowStride
      uvRowStride uvPixelStride out = Some out' /\
    image_written yPlane uPlane vPlane width height yRowStride uvRowStride
      uvPixelStride (fun _ => scalar_pixel) out out'.
Proof.
  intros Hw Hh Hread. unfold convertYuv420ToRgbScalar.
  destruct (for_range_invariant
    (fun i (st : Z * gmap Z byte) =>
       st.1 = 3 * width * i /\
       (forall row col c y u v, 0 <= row < i -> 0 <= col < width ->
          0 <= c < 3 ->
              sampled yPlane uPlane vPlane yRowStride uvRowStride uvPixelStride
                row col y u v ->
          st.2 !! spec_rgb_offset width row col c
            = Some (scalar_pixel y u v c)) /\
       (forall k, k < 0 \/ 3 * width * i <= k -> st.2 !! k = out !! k))
    0 height
    (fun row => for_range 0 width
       (fun col => scalar_body yPlane uPlane vPlane yRowStride uvRowStride
          uvPixelStride row col))
    (0, out) Hh) as ([idx' out'] & Hrun & Hidx & Hpix & Hframe).
  - simpl. split; [lia|]. split; [intros; lia | reflexivity].
  - intros i [idx out1] Hi (Hidx & Hpix & Hframe). simpl in *. subst idx.
    destruct (scalar_cols_run i (3 * width * i) out1 ltac:(lia) Hw)
      as (out2 & Hrun & Hpix2 & Hframe2).
    { intros col Hcol. destruct (Hread i col Hi Hcol) as (y & u & v & Hs & _).
      eauto. }
    exists (3 * width * i + 3 * width, out2). split; [exact Hrun|].
    simpl. split; [lia|]. split.
    + intros row col c y u v Hrow Hcol Hc Hs.
      destruct (decide (row = i)) as [->|Hne].
      * replace (spec_rgb_offset width i col c)
          with (3 * width * i + 3 * col + c)
          by (unfold spec_rgb_offset; lia).
        apply Hpix2; assumption.
      * rewrite Hframe2.
        { apply Hpix; [lia | assumption..]. }
        left. unfold spec_rgb_offset. nia.
    + intros k Hk. rewrite Hframe2 by nia. apply Hframe. nia.
  - rewrite Hrun. simpl in *. exists out'. split; [reflexivity|].
    split; [exact Hpix|].
    intros k Hk. apply Hframe. lia.
Qed.

End ScalarRun.

(** ** Registers and stores of the NEON path *)

Lemma mapM_seqZ_lookup {A : Type} (f : Z -> option A) (lo n : Z) :
  (forall j, lo <= j < lo + n -> is_Some (f j)) ->
  exists l, mapM f (seqZ lo n) = Some l /\
            length l = Z.to_nat n /\
            forall j : nat, Z.of_nat j < n -> l !! j = f (lo + Z.of_nat j).
Proof.
  intros Hf.
  destruct (mapM_is_Some_2 f (seqZ lo n)) as [l Hl].
  { apply Forall_seqZ. intros j Hj. apply Hf. lia. }
  exists l. split; [exact Hl|].
  apply mapM_Some_1 in Hl. split.
  - rewrite <- (Forall2_length _ _ _ Hl). apply length_seqZ.
  - intros j Hj.
    destruct (Forall2_lookup_l _ _ _ j (lo + Z.of_nat j) Hl)
      as (b & Hb & Hfb).
    { apply lookup_seqZ_lt. exact Hj. }
    rewrite Hb, Hfb. reflexivity.
Qed.

Lemma vst3_u8_frame (r g b : list byte) (out : gmap Z byte) (base k : Z) :
  k < base \/ base + 3 * Z.of_nat (length r) <= k ->
  vst3_u8 out base r g b !! k = out !! k.
Proof.
  revert g b out base.
  induction r as [|r0 r IH]; intros g b out base Hk; [reflexivity|].
  destruct g as [|g0 g]; [reflexivity|]. destruct b as [|b0 b]; [reflexivity|].
  simpl in *. rewrite IH by lia. lookup_inserts. reflexivity.
Qed.

Lemma vst3_u8_lookup (r g b : list byte) (out : gmap Z byte) (base : Z)
    (j : nat) (rb gb bb : byte) :
  r !! j = Some rb -> g !! j = Some gb -> b !! j = Some bb ->
  vst3_u8 out base r g b !! (base + 3 * Z.of_nat j) = Some rb /\
  vst3_u8 out base r g b !! (base + 3 * Z.of_nat j + 1) = Some gb /\
  vst3_u8 out base r g b !! (base + 3 * Z.of_nat j + 2) = Some bb.
Proof.
  revert g b out base j.
  induction r as [|r0 r IH]; intros g b out base j Hr Hg Hb; [discriminate|].
  destruct g as [|g0 g]; [discriminate|].
  destruct b as [|b0 b]; [discriminate|].
  destruct j as [|j]; simpl in *.
  - injection Hr as ->. injection Hg as ->. injection Hb as ->.
    rewrite !vst3_u8_frame by lia.
    repeat split; lookup_inserts; reflexivity.
  - destruct (IH g b
      (<[base + 2 := b0]> (<[base + 1 := g0]> (<[base := r0]> out)))
      (base + 3) j Hr Hg Hb) as (H0 & H1 & H2).
    replace (base + 3 * Z.of_nat (S j)) with (base + 3 + 3 * Z.of_nat j)
      by lia.
    auto.
Qed.

(** Lane [j] of the three result registers, from lane [j] of the inputs. *)
Lemma neon_lane_lookup (y8 u8 v8 : list byte) (j : nat) (yb ub vb : byte) :
  (j < 8)%nat ->
  y8 !! j = Some yb -> u8 !! j = Some ub -> v8 !! j = Some vb ->
  let y := vreinterpretq_s16_u16 (vmovl_u8 y8) in
  let u := vreinterpretq_s16_u16 (vmovl_u8 u8) in
  let v := vreinterpretq_s16_u16 (vmovl_u8 v8) in
  let u_shifted := vsubq_s16 u v_128 in
  let v_shifted := vsubq_s16 v v_128 in
  vqmovun_s16 (vaddq_s16 y (vshrq_n_s16 (vmulq_s16 v_c1 v_shifted) 8)) !! j
    = Some (neon_pixel (u8_to_Z yb) (u8_to_Z ub) (u8_to_Z vb) 0) /\
  vqmovun_s16
    (vsubq_s16 (vsubq_s16 y (vshrq_n_s16 (vmulq_s16 v_c2 u_shifted) 8))
       (vshrq_n_s16 (vmulq_s16 v_c3 v_shifted) 8)) !! j
    = Some (neon_pixel (u8_to_Z yb) (u8_to_Z ub) (u8_to_Z vb) 1) /\
  vqmovun_s16 (vaddq_s16 y (vshrq_n_s16 (vmulq_s16 v_c4 u_shifted) 8)) !! j
    = Some (neon_pixel (u8_to_Z yb) (u8_to_Z ub) (u8_to_Z vb) 2).
Proof.
  intros Hj Hy Hu Hv. cbv zeta.
  unfold vqmovun_s16, vaddq_s16, vsubq_s16, vshrq_n_s16, vmulq_s16,
    vreinterpretq_s16_u16, vmovl_u8, v_c1, v_c2, v_c3, v_c4, v_128,
    vdupq_n_s16.
  repeat split;
    repeat (rewrite ?list_lookup_fmap, ?lookup_zip_with, ?Hy, ?Hu, ?Hv,
              ?lookup_replicate_2 by exact Hj; cbn [fmap option_fmap option_map
              mbind option_bind]);
    reflexivity.
Qed.

(** ** The NEON path, loop by loop *)

Section NeonRun.

Variables yPlane uPlane vPlane : gmap Z byte.
Variables width height yRowStride uvRowStride uvPixelStride : Z.

Lemma load_chroma_run (uvRowOffset col : Z) (ub vb : Z -> byte) :
  (forall i, 0 <= i < 4 ->
     uPlane !! (uvRowOffset + (Z.quot col 2 + i) * uvPixelStride)
       = Some (ub i) /\
     vPlane !! (uvRowOffset + (Z.quot col 2 + i) * uvPixelStride)
       = Some (vb i)) ->
  for_range 0 4 (load_chroma uPlane vPlane uvPixelStride uvRowOffset col)
    (replicate 4 Byte.x00, replicate 4 Byte.x00)
  = Some ([ub 0; ub 1; ub 2; ub 3], [vb 0; vb 1; vb 2; vb 3]).
Proof.
  intros H.
  destruct (H 0 ltac:(lia)) as (U0 & V0).
  destruct (H 1 ltac:(lia)) as (U1 & V1).
  destruct (H 2 ltac:(lia)) as (U2 & V2).
  destruct (H 3 ltac:(lia)) as (U3 & V3).
  unfold for_range. change (Z.to_nat (4 - 0)) with 4%nat.
  cbn [for_loop]. unfold load_chroma.
  change (0 + 1) with 1. change (1 + 1) with 2. change (2 + 1) with 3.
  rewrite U0, V0. cbn [mbind option_bind].
  rewrite U1, V1. cbn [mbind option_bind].
  rewrite U2, V2. cbn [mbind option_bind].
  rewrite U3, V3. cbn [mbind option_bind].
  reflexivity.
Qed.

Lemma quot_8q (q : Z) : 0 <= q -> Z.quot (8 * q) 2 = 4 * q.
Proof.
  intros Hq. rewrite Z.quot_div_nonneg by lia.
  replace (8 * q) with (4 * q * 2) by lia. apply Z.div_mul. lia.
Qed.

Lemma chroma_col_8q (q j : Z) :
  0 <= q -> 0 <= j -> (8 * q + j) / 2 = 4 * q + j / 2.
Proof.
  intros Hq Hj. replace (8 * q + j) with (j + 4 * q * 2) by lia.
  rewrite Z.div_add by lia. lia.
Qed.

Lemma neon_body_run (row q rgbRowOffset : Z) (out : gmap Z byte) :
  0 <= row -> 0 <= q ->
  (forall j, 0 <= j < 8 -> exists y u v,
      sampled yPlane uPlane vPlane yRowStride uvRowStride uvPixelStride
        row (8 * q + j) y u v) ->
  exists out',
    neon_body yPlane uPlane vPlane uvPixelStride (row * yRowStride)
      (Z.quot row 2 * uvRowStride) rgbRowOffset (8 * q) out = Some out' /\
    (forall j c y u v, 0 <= j < 8 -> 0 <= c < 3 ->
       sampled yPlane uPlane vPlane yRowStride uvRowStride uvPixelStride
         row (8 * q + j) y u v ->
       out' !! (rgbRowOffset + 8 * q * 3 + 3 * j + c)
         = Some (neon_pixel y u v c)) /\
    (forall k, k < rgbRowOffset + 8 * q * 3 \/
               rgbRowOffset + 8 * q * 3 + 24 <= k ->
       out' !! k = out !! k).
Proof.
  intros Hrow Hq Hread.
  assert (Hrow2 : Z.quot row 2 = row / 2) by (apply Z.quot_div_nonneg; lia).
  (* the eight luma bytes *)
  destruct (mapM_seqZ_lookup
              (fun j => yPlane !! (row * yRowStride + 8 * q + j)) 0 8)
    as (y8 & Hy8 & Hlen & Hlook).
  { intros j Hj. destruct (Hread j ltac:(lia)) as (y & u & v & Hy & _).
    unfold load, spec_luma_index in Hy.
    replace (row * yRowStride + 8 * q + j)
      with (row * yRowStride + (8 * q + j)) by lia.
    destruct (yPlane !! _); [eauto | discriminate]. }
  (* the four chroma pairs *)
  set (uvidx := fun i =>
         Z.quot row 2 * uvRowStride + (Z.quot (8 * q) 2 + i) * uvPixelStride).
  set (ub := fun i => default Byte.x00 (uPlane !! uvidx i)).
  set (vb := fun i => default Byte.x00 (vPlane !! uvidx i)).
  assert (Huv : forall i, 0 <= i < 4 ->
            uPlane !! uvidx i = Some (ub i) /\
            vPlane !! uvidx i = Some (vb i)).
  { intros i Hi.
    destruct (Hread (2 * i) ltac:(lia)) as (y & u & v & _ & Hu & Hv).
    unfold load, spec_chroma_index in Hu, Hv.
    rewrite chroma_col_8q in Hu, Hv by lia.
    replace (2 * i / 2) with i in Hu, Hv
      by (rewrite Z.mul_comm, Z.div_mul; lia).
    unfold ub, vb, uvidx. rewrite quot_8q, Hrow2 by lia.
    destruct (uPlane !! _); [|discriminate].
    destruct (vPlane !! _); [|discriminate]. auto. }
  unfold neon_body, vld1_u8. rewrite Hy8. cbn [mbind option_bind].
  rewrite (load_chroma_run _ _ ub vb Huv). cbn [mbind option_bind].
  eexists. split; [reflexivity|]. split.
  - intros j c y u v Hj Hc (Hy & Hu & Hv).
    unfold load, spec_luma_index, spec_chroma_index in Hy, Hu, Hv.
    rewrite chroma_col_8q in Hu, Hv by lia.
    assert (Hyb : y8 !! Z.to_nat j
                  = yPlane !! (row * yRowStride + (8 * q + j))).
    { rewrite Hlook by lia. f_equal. lia. }
    destruct (y8 !! Z.to_nat j) as [yb|] eqn:Eyb;
      [|rewrite <- Hyb in Hy; discriminate].
    rewrite <- Hyb in Hy. injection Hy as <-.
    destruct (Huv (j / 2) ltac:(Z.div_mod_to_equations; lia)) as (Hub & Hvb).
    unfold uvidx in Hub, Hvb. rewrite quot_8q, Hrow2 in Hub, Hvb by lia.
    rewrite Hub in Hu. rewrite Hvb in Hv.
    injection Hu as <-. injection Hv as <-.
    destruct (neon_lane_lookup y8
      [ub 0; ub 0; ub 1; ub 1; ub 2; ub 2; ub 3; ub 3]
      [vb 0; vb 0; vb 1; vb 1; vb 2; vb 2; vb 3; vb 3]
      (Z.to_nat j) yb (ub (j / 2)) (vb (j / 2)) ltac:(lia) Eyb)
      as (Lr & Lg & Lb).
    { assert (Hc8 : j = 0 \/ j = 1 \/ j = 2 \/ j = 3 \/ j = 4 \/ j = 5 \/
                    j = 6 \/ j = 7) by lia.
      decompose [or] Hc8; subst j; reflexivity. }
    { assert (Hc8 : j = 0 \/ j = 1 \/ j = 2 \/ j = 3 \/ j = 4 \/ j = 5 \/
                    j = 6 \/ j = 7) by lia.
      decompose [or] Hc8; subst j; reflexivity. }
    cbv zeta in Lr, Lg, Lb.
    destruct (vst3_u8_lookup _ _ _ out (rgbRowOffset + 8 * q * 3)
                (Z.to_nat j) _ _ _ Lr Lg Lb) as (S0 & S1 & S2).
    rewrite Z2Nat.id in S0, S1, S2 by lia.
    split_channel c.
    + rewrite Z.add_0_r. exact S0.
    + exact S1.
    + exact S2.
  - intros k Hk. apply vst3_u8_frame.
    unfold vqmovun_s16, vaddq_s16. rewrite length_fmap, length_zip_with.
    unfold vreinterpretq_s16_u16, vmovl_u8. rewrite !length_fmap, Hlen.
    simpl. lia.
Qed.

Lemma neon_lanes_run (row rgbRowOffset : Z) (fuel : nat) (q : Z)
    (out : gmap Z byte) :
  0 <= row -> 0 <= q -> 8 * q <= width -> width - 8 * q <= Z.of_nat fuel ->
  (forall col, 8 * q <= col < 8 * (width / 8) ->
     exists y u v,
         sampled yPlane uPlane vPlane yRowStride uvRowStride uvPixelStride
           row col y u v) ->
  exists out',
    neon_lanes yPlane uPlane vPlane width uvPixelStride fuel
      (row * yRowStride) (Z.quot row 2 * uvRowStride) rgbRowOffset (8 * q) out
    = Some (8 * (width / 8), out') /\
    (forall col c y u v, 8 * q <= col < 8 * (width / 8) -> 0 <= c < 3 ->
       sampled yPlane uPlane vPlane yRowStride uvRowStride uvPixelStride
         row col y u v ->
       out' !! (rgbRowOffset + col * 3 + c) = Some (neon_pixel y u v c)) /\
    (forall k, k < rgbRowOffset + 8 * q * 3 \/
               rgbRowOffset + 8 * (width / 8) * 3 <= k ->
       out' !! k = out !! k).
Proof.
  intros Hrow.
  assert (Hw8 : 8 * (width / 8) <= width < 8 * (width / 8) + 8)
    by (Z.div_mod_to_equations; lia).
  revert Hw8. generalize (width / 8). intros w8 Hw8.
  revert q out.
  induction fuel as [|fuel IH]; intros q out Hq Hle Hfuel Hread;
    cbn [neon_lanes]; case_bool_decide as Hcond.
  - lia.
  - assert (w8 = q) as -> by lia.
    exists out. split; [reflexivity|]. split; [intros; lia | reflexivity].
  - destruct (neon_body_run row q rgbRowOffset out Hrow Hq)
      as (out1 & Hbody & Hpix1 & Hframe1).
    { intros j Hj. apply Hread. lia. }
    rewrite Hbody.
    replace (8 * q + 8) with (8 * (q + 1)) by lia.
    destruct (IH (q + 1) out1 ltac:(lia) ltac:(lia) ltac:(lia))
      as (out' & Hrun & Hpix & Hframe).
    { intros col Hcol. apply Hread. lia. }
    exists out'. split; [exact Hrun|]. split.
    + intros col c y u v Hcol Hc Hs.
      destruct (decide (col < 8 * (q + 1))) as [Hlt|Hge].
      * rewrite Hframe by lia.
        replace (rgbRowOffset + col * 3 + c)
          with (rgbRowOffset + 8 * q * 3 + 3 * (col - 8 * q) + c) by lia.
        apply Hpix1; [lia | lia |].
        replace (8 * q + (col - 8 * q)) with col by lia. exact Hs.
      * apply Hpix; [lia | lia | exact Hs].
    + intros k Hk. rewrite Hframe by lia. apply Hframe1. lia.
  - assert (w8 = q) as -> by lia.
    exists out. split; [reflexivity|]. split; [intros; lia | reflexivity].
Qed.

Lemma neon_tail_body_run (row col rgbRowOffset : Z) (out : gmap Z byte)
    (y u v : Z) :
  0 <= row -> 0 <= col ->
      sampled yPlane uPlane vPlane yRowStride uvRowStride uvPixelStride
        row col y u v ->
  neon_tail_body yPlane uPlane vPlane uvPixelStride (row * yRowStride)
    (Z.quot row 2 * uvRowStride) rgbRowOffset col out
  = Some (<[rgbRowOffset + col * 3 + 2 := scalar_pixel y u v 2]>
            (<[rgbRowOffset + col * 3 + 1 := scalar_pixel y u v 1]>
               (<[rgbRowOffset + col * 3 := scalar_pixel y u v 0]> out))).
Proof.
  intros Hrow Hcol (Hy & Hu & Hv).
  unfold spec_luma_index, spec_chroma_index in *.
  unfold neon_tail_body.
  rewrite !Z.quot_div_nonneg by lia.
  rewrite Hy, Hu, Hv. reflexivity.
Qed.

Lemma neon_tail_run (row col0 rgbRowOffset : Z) (out : gmap Z byte) :
  0 <= row -> 0 <= col0 <= width ->
  (forall col, col0 <= col < width -> exists y u v,
      sampled yPlane uPlane vPlane yRowStride uvRowStride uvPixelStride
        row col y u v) ->
  exists out',
    for_range col0 width
      (neon_tail_body yPlane uPlane vPlane uvPixelStride (row * yRowStride)
         (Z.quot row 2 * uvRowStride) rgbRowOffset) out = Some out' /\
    (forall col c y u v, col0 <= col < width -> 0 <= c < 3 ->
       sampled yPlane uPlane vPlane yRowStride uvRowStride uvPixelStride
         row col y u v ->
       out' !! (rgbRowOffset + col * 3 + c) = Some (scalar_pixel y u v c)) /\
    (forall k, k < rgbRowOffset + col0 * 3 \/ rgbRowOffset + width * 3 <= k ->
       out' !! k = out !! k).
Proof.
  intros Hrow Hcol0 Hread.
  destruct (for_range_invariant
    (fun j (out1 : gmap Z byte) =>
       (forall col c y u v, col0 <= col < j -> 0 <= c < 3 ->
          sampled yPlane uPlane vPlane yRowStride uvRowStride uvPixelStride
            row col y u v ->
          out1 !! (rgbRowOffset + col * 3 + c) = Some (scalar_pixel y u v c)) /\
       (forall k, k < rgbRowOffset + col0 * 3 \/ rgbRowOffset + j * 3 <= k ->
          out1 !! k = out !! k))
    col0 width
    (neon_tail_body yPlane uPlane vPlane uvPixelStride (row * yRowStride)
       (Z.quot row 2 * uvRowStride) rgbRowOffset)
    out ltac:(lia)) as (out' & Hrun & Hpix & Hframe).
  - split; [intros; lia | reflexivity].
  - intros j out1 Hj (Hpix & Hframe).
    destruct (Hread j Hj) as (y & u & v & Hs).
    eexists. split; [apply neon_tail_body_run; [lia | lia | exact Hs]|].
    split.
    + intros col c y' u' v' Hcol Hc Hs'.
      destruct (decide (col = j)) as [->|Hne].
      * destruct (sampled_fun _ _ _ _ _ _ _ _ _ _ _ _ _ _ Hs Hs')
          as (-> & -> & ->).
        split_channel c; lookup_inserts; reflexivity.
      * lookup_inserts. apply Hpix; [lia | lia | exact Hs'].
    + intros k Hk. lookup_inserts. apply Hframe. lia.
  - exists out'. auto.
Qed.

Lemma neon_row_run (row : Z) (out : gmap Z byte) :
  0 <= row -> 0 <= width ->
  (forall col, 0 <= col < width -> exists y u v,
      sampled yPlane uPlane vPlane yRowStride uvRowStride uvPixelStride
        row col y u v) ->
  exists out',
    neon_row yPlane uPlane vPlane width yRowStride uvRowStride uvPixelStride
      row out = Some out' /\
    (forall col c y u v, 0 <= col < width -> 0 <= c < 3 ->
       sampled yPlane uPlane vPlane yRowStride uvRowStride uvPixelStride
         row col y u v ->
       out' !! (row * width * 3 + col * 3 + c)
         = Some (neon_path_pixel width col y u v c)) /\
    (forall k, k < row * width * 3 \/ row * width * 3 + width * 3 <= k ->
       out' !! k = out !! k).
Proof.
  intros Hrow Hw Hread.
  assert (Hw8 : 0 <= 8 * (width / 8) <= width)
    by (Z.div_mod_to_equations; lia).
  destruct (neon_lanes_run row (row * width * 3) (Z.to_nat width) 0 out
              Hrow ltac:(lia) ltac:(lia) ltac:(lia))
    as (out1 & Hlanes & Hpix1 & Hframe1).
  { intros col Hcol. apply Hread. lia. }
  destruct (neon_tail_run row (8 * (width / 8)) (row * width * 3) out1
              Hrow Hw8) as (out2 & Htail & Hpix2 & Hframe2).
  { intros col Hcol. apply Hread. lia. }
  change (8 * 0) with 0 in Hlanes.
  unfold neon_row. cbv zeta. rewrite Hlanes. cbn [mbind option_bind].
  exists out2. split; [exact Htail|]. split.
  - intros col c y u v Hcol Hc Hs. unfold neon_path_pixel.
    case_bool_decide as Hlane.
    + rewrite Hframe2 by lia. apply Hpix1; [lia | lia | exact Hs].
    + apply Hpix2; [lia | lia | exact Hs].
  - intros k Hk. rewrite Hframe2 by lia. apply Hframe1. lia.
Qed.

Lemma neon_image (out : gmap Z byte) :
  0 <= width -> 0 <= height ->
  frame_readable yPlane uPlane vPlane width height yRowStride uvRowStride
    uvPixelStride ->
  exists out',
    convertYuv420ToRgbNeon yPlane uPlane vPlane width height yRowStride
      uvRowStride uvPixelStride out = Some out' /\
    image_written yPlane uPlane vPlane width height yRowStride uvRowStride
      uvPixelStride (neon_path_pixel width) out out'.
Proof.
  intros Hw Hh Hread. unfold convertYuv420ToRgbNeon.
  destruct (for_range_invariant
    (fun i (out1 : gmap Z byte) =>
       (forall row col c y u v, 0 <= row < i -> 0 <= col < width ->
          0 <= c < 3 ->
              sampled yPlane uPlane vPlane yRowStride uvRowStride uvPixelStride
                row col y u v ->
          out1 !! spec_rgb_offset width row col c
            = Some (neon_path_pixel width col y u v c)) /\
       (forall k, k < 0 \/ 3 * width * i <= k -> out1 !! k = out !! k))
    0 height
    (neon_row yPlane uPlane vPlane width yRowStride uvRowStride uvPixelStride)
    out Hh) as (out' & Hrun & Hpix & Hframe).
  - split; [intros; lia | reflexivity].
  - intros i out1 Hi (Hpix & Hframe).
    destruct (neon_row_run i out1 ltac:(lia) Hw)
      as (out2 & Hrun & Hpix2 & Hframe2).
    { intros col Hcol. destruct (Hread i col Hi Hcol) as (y & u & v & Hs & _).
      eauto. }
    exists out2. split; [exact Hrun|]. split.
    + intros row col c y u v Hrow Hcol Hc Hs.
      destruct (decide (row = i)) as [->|Hne].
      * replace (spec_rgb_offset width i col c)
          with (i * width * 3 + col * 3 + c)
          by (unfold spec_rgb_offset; lia).
        apply Hpix2; assumption.
      * rewrite Hframe2.
        { apply Hpix; [lia | assumption..]. }
        left. unfold spec_rgb_offset. nia.
    + intros k Hk. rewrite Hframe2 by nia. apply Hframe. nia.
  - exists out'. split; [exact Hrun|]. split; [exact Hpix|].
    intros k Hk. apply Hframe. lia.
Qed.

End NeonRun.

(** ** Degenerate geometry *)

Lemma for_loop_id {S : Type} (n : nat) (i : Z) (body : Z -> S -> option S)
    (s : S) :
  (forall j, body j s = Some s) -> for_loop n i body s = Some s.
Proof.
  intros H. revert i. induction n as [|n IH]; intros i; [reflexivity|].
  simpl. rewrite H. apply IH.
Qed.

Lemma scalar_degenerate (yPlane uPlane vPlane : gmap Z byte)
    (width height yRowStride uvRowStride uvPixelStride : Z)
    (out : gmap Z byte) :
  width <= 0 \/ height <= 0 ->
  convertYuv420ToRgbScalar yPlane uPlane vPlane width height yRowStride
    uvRowStride uvPixelStride out = Some out.
Proof.
  intros H. unfold convertYuv420ToRgbScalar.
  destruct (decide (height <= 0)) as [Hh|Hh].
  - rewrite for_range_empty by lia. reflexivity.
  - unfold for_range at 1. rewrite for_loop_id; [reflexivity|].
    intros j. apply for_range_empty. lia.
Qed.

Lemma neon_degenerate (yPlane uPlane vPlane : gmap Z byte)
    (width height yRowStride uvRowStride uvPixelStride : Z)
    (out : gmap Z byte) :
  width <= 0 \/ height <= 0 ->
  convertYuv420ToRgbNeon yPlane uPlane vPlane width height yRowStride
    uvRowStride uvPixelStride out = Some out.
Proof.
  intros H. unfold convertYuv420ToRgbNeon.
  destruct (decide (height <= 0)) as [Hh|Hh].
  - apply for_range_empty. lia.
  - unfold for_range at 1. apply for_loop_id.
    intros j. unfold neon_row. cbv zeta.
    replace (Z.to_nat width) with O by lia. cbn [neon_lanes].
    rewrite bool_decide_eq_false_2 by lia. cbn [mbind option_bind].
    apply for_range_empty. lia.
Qed.

(** ** Offsets of the output region *)

Lemma rgb_offset_decompose (width height k : Z) :
  0 <= width -> 0 <= height -> 0 <= k < width * height * 3 ->
  exists row col c,
    0 <= row < height /\ 0 <= col < width /\ 0 <= c < 3 /\
    k = spec_rgb_offset width row col c.
Proof.
  intros Hw Hh Hk.
  assert (Hw0 : 0 < width) by nia.
  exists (k / 3 / width), (k / 3 mod width), (k mod 3).
  pose proof (Z.div_mod k 3 ltac:(lia)) as Hk3.
  pose proof (Z.mod_pos_bound k 3 ltac:(lia)) as Hc.
  pose proof (Z.div_mod (k / 3) width ltac:(lia)) as Hp.
  pose proof (Z.mod_pos_bound (k / 3) width Hw0) as Hcol.
  assert (Hp0 : 0 <= k / 3 < width * height)
    by (split; [apply Z.div_pos; lia | apply Z.div_lt_upper_bound; lia]).
  assert (Hrow : 0 <= k / 3 / width < height).
  { split; [apply Z.div_pos; lia | apply Z.div_lt_upper_bound; lia]. }
  unfold spec_rgb_offset. repeat split; try lia.
Qed.

Lemma rgb_offset_in_region (width height row col c : Z) :
  0 <= row < height -> 0 <= col < width -> 0 <= c < 3 ->
  0 <= spec_rgb_offset width row col c < width * height * 3.
Proof.
  intros Hrow Hcol Hc. unfold spec_rgb_offset. nia.
Qed.

Lemma rgb_offset_mod3 (width row col c : Z) :
  0 <= c < 3 -> spec_rgb_offset width row col c mod 3 = c.
Proof.
  intros Hc. unfold spec_rgb_offset.
  rewrite Z.add_comm, Z.mod_add by lia. apply Z.mod_small. lia.
Qed.

(** ** Both paths as images *)

Lemma scalar_pixel_saturates (y u v c : Z) :
  u8_to_Z (scalar_pixel y u v c)
  = spec_saturate
      (channel_value (scalar_r y v) (scalar_g y u v) (scalar_b y u) c).
Proof. apply clamp255_saturates. Qed.

Lemma neon_pixel_saturates (y u v c : Z) :
  u8_to_Z (neon_pixel y u v c)
  = spec_saturate (channel_value (neon_r y v) (neon_g y u v) (neon_b y u) c).
Proof. apply vqmovun_lane_saturates. Qed.

Lemma path_pixel_saturates (USE_NEON : bool) (width col y u v c : Z) :
  u8_to_Z ((if USE_NEON then neon_path_pixel width col else scalar_pixel)
             y u v c)
  = spec_saturate (path_channel_value USE_NEON width col y u v c).
Proof.
  unfold path_channel_value, neon_path_pixel. destruct USE_NEON; simpl.
  - case_bool_decide as H.
    + rewrite (proj2 (Z.ltb_lt _ _) H). apply neon_pixel_saturates.
    + rewrite (proj2 (Z.ltb_ge _ _)) by lia. apply scalar_pixel_saturates.
  - apply scalar_pixel_saturates.
Qed.

Lemma dispatch_image (yPlane uPlane vPlane : gmap Z byte)
    (width height yRowStride uvRowStride uvPixelStride : Z)
    (USE_NEON : bool) (out : gmap Z byte) :
  0 <= width -> 0 <= height ->
  frame_readable yPlane uPlane vPlane width height yRowStride uvRowStride
    uvPixelStride ->
  exists out',
    convertYuv420ToRgb yPlane uPlane vPlane width height yRowStride
      uvRowStride uvPixelStride USE_NEON out = Some out' /\
    image_written yPlane uPlane vPlane width height yRowStride uvRowStride
      uvPixelStride
      (fun col => if USE_NEON then neon_path_pixel width col else scalar_pixel)
      out out'.
Proof.
  intros Hw Hh Hread. unfold convertYuv420ToRgb. destruct USE_NEON.
  - apply neon_image; assumption.
  - apply scalar_image; assumption.
Qed.

Lemma load_lookup (out : gmap Z byte) (k : Z) (b : byte) :
  out !! k = Some b -> load out k = Some (u8_to_Z b).
Proof. intros H. unfold load. rewrite H. reflexivity. Qed.

(** ** The frames on which the kernel is defined *)

Lemma for_loop_Some_body {S : Type} (n : nat) (i : Z)
    (body : Z -> S -> option S) (s s' : S) :
  for_loop n i body s = Some s' ->
  forall j, 0 <= j < Z.of_nat n -> exists t t', body (i + j) t = Some t'.
Proof.
  revert i s. induction n as [|n IH]; intros i s Hrun j Hj; [lia|].
  simpl in Hrun. destruct (body i s) as [t|] eqn:Hb; [|discriminate].
  destruct (decide (j = 0)) as [->|Hne].
  - exists s, t. rewrite Z.add_0_r. exact Hb.
  - destruct (IH (i + 1) t Hrun (j - 1) ltac:(lia)) as (t1 & t2 & Ht).
    exists t1, t2. rewrite <- Ht. f_equal. lia.
Qed.

Lemma for_range_Some_body {S : Type} (lo hi : Z)
    (body : Z -> S -> option S) (s s' : S) :
  for_range lo hi body s = Some s' ->
  forall j, lo <= j < hi -> exists t t', body j t = Some t'.
Proof.
  unfold for_range. intros Hrun j Hj.
  destruct (for_loop_Some_body _ _ _ _ _ Hrun (j - lo) ltac:(lia))
    as (t & t' & Ht).
  exists t, t'. rewrite <- Ht. f_equal. lia.
Qed.

Section Definedness.

Variables yPlane uPlane vPlane : gmap Z byte.
Variables width height yRowStride uvRowStride uvPixelStride : Z.

Lemma scalar_body_Some (row col : Z) (st st' : Z * gmap Z byte) :
  0 <= row -> 0 <= col ->
  scalar_body yPlane uPlane vPlane yRowStride uvRowStride uvPixelStride
    row col st = Some st' ->
  exists y u v,
    sampled yPlane uPlane vPlane yRowStride uvRowStride uvPixelStride
      row col y u v.
Proof.
  intros Hrow Hcol. unfold scalar_body. destruct st as [idx out].
  rewrite !Z.quot_div_nonneg by lia.
  destruct (load yPlane _) as [y|] eqn:Hy; [|discriminate].
  destruct (load uPlane _) as [u|] eqn:Hu; [|discriminate].
  destruct (load vPlane _) as [v|] eqn:Hv; [|discriminate].
  intros _. exists y, u, v. repeat split; assumption.
Qed.

Lemma neon_tail_body_Some (row col rgbRowOffset : Z)
    (out out' : gmap Z byte) :
  0 <= row -> 0 <= col ->
  neon_tail_body yPlane uPlane vPlane uvPixelStride (row * yRowStride)
    (Z.quot row 2 * uvRowStride) rgbRowOffset col out = Some out' ->
  exists y u v,
    sampled yPlane uPlane vPlane yRowStride uvRowStride uvPixelStride
      row col y u v.
Proof.
  intros Hrow Hcol. unfold neon_tail_body.
  rewrite !Z.quot_div_nonneg by lia.
  destruct (load yPlane _) as [y|] eqn:Hy; [|discriminate].
  destruct (load uPlane _) as [u|] eqn:Hu; [|discriminate].
  destruct (load vPlane _) as [v|] eqn:Hv; [|discriminate].
  intros _. exists y, u, v. repeat split; assumption.
Qed.

Lemma neon_body_Some (row q rgbRowOffset : Z) (out out' : gmap Z byte) :
  0 <= row -> 0 <= q ->
  neon_body yPlane uPlane vPlane uvPixelStride (row * yRowStride)
    (Z.quot row 2 * uvRowStride) rgbRowOffset (8 * q) out = Some out' ->
  forall j, 0 <= j < 8 ->
    exists y u v,
      sampled yPlane uPlane vPlane yRowStride uvRowStride uvPixelStride
        row (8 * q + j) y u v.
Proof.
  intros Hrow Hq. unfold neon_body.
  destruct (vld1_u8 _ _) as [y8|] eqn:Ey; [|discriminate].
  cbn [mbind option_bind].
  destruct (for_range 0 4 _ _) as [[us vs]|] eqn:Euv; [|discriminate].
  intros _ j Hj.
  assert (Hy : is_Some (yPlane !! (row * yRowStride + (8 * q + j)))).
  { unfold vld1_u8 in Ey.
    pose proof (mapM_is_Some_1 _ _ (mk_is_Some _ _ Ey)) as HF.
    rewrite Forall_seqZ in HF. specialize (HF j ltac:(lia)). simpl in HF.
    replace (row * yRowStride + (8 * q + j))
      with (row * yRowStride + 8 * q + j) by lia.
    exact HF. }
  destruct (for_range_Some_body _ _ _ _ _ Euv (j / 2)
              ltac:(Z.div_mod_to_equations; lia)) as ([us1 vs1] & t' & Hc).
  unfold load_chroma in Hc.
  rewrite quot_8q, Z.quot_div_nonneg in Hc by lia.
  rewrite <- chroma_col_8q in Hc by lia.
  destruct (uPlane !! _) as [ub|] eqn:Hu; [|discriminate].
  destruct (vPlane !! _) as [vb|] eqn:Hv; [|discriminate].
  destruct Hy as [yb Hy].
  exists (u8_to_Z yb), (u8_to_Z ub), (u8_to_Z vb).
  unfold sampled, load, spec_luma_index, spec_chroma_index.
  rewrite Hy, Hu, Hv. auto.
Qed.

Lemma neon_lanes_Some (row rgbRowOffset : Z) (fuel : nat) (q col' : Z)
    (out out' : gmap Z byte) :
  0 <= row -> 0 <= q ->
  neon_lanes yPlane uPlane vPlane width uvPixelStride fuel
    (row * yRowStride) (Z.quot row 2 * uvRowStride) rgbRowOffset (8 * q) out
  = Some (col', out') ->
  forall col, 8 * q <= col < col' ->
    exists y u v,
      sampled yPlane uPlane vPlane yRowStride uvRowStride uvPixelStride
        row col y u v.
Proof.
  intros Hrow. revert q out.
  induction fuel as [|fuel IH]; intros q out Hq; cbn [neon_lanes];
    case_bool_decide as Hcond; try discriminate.
  - intros [= <- _] col Hcol. lia.
  - destruct (neon_body _ _ _ _ _ _ _ _ _) as [out1|] eqn:Hb; [|discriminate].
    replace (8 * q + 8) with (8 * (q + 1)) by lia.
    intros Hrun col Hcol.
    destruct (decide (col < 8 * (q + 1))) as [Hlt|Hge].
    + replace col with (8 * q + (col - 8 * q)) by lia.
      apply (neon_body_Some row q rgbRowOffset out out1 Hrow Hq Hb). lia.
    + apply (IH (q + 1) out1 ltac:(lia) Hrun). lia.
  - intros [= <- _] col Hcol. lia.
Qed.

Lemma neon_row_Some (row : Z) (out out' : gmap Z byte) :
  0 <= row ->
  neon_row yPlane uPlane vPlane width yRowStride uvRowStride uvPixelStride
    row out = Some out' ->
  forall col, 0 <= col < width ->
    exists y u v,
      sampled yPlane uPlane vPlane yRowStride uvRowStride uvPixelStride
        row col y u v.
Proof.
  intros Hrow. unfold neon_row. cbv zeta.
  destruct (neon_lanes _ _ _ _ _ _ _ _ _ _ _) as [[col' out1]|] eqn:Hl;
    [|discriminate].
  cbn [mbind option_bind]. intros Ht col Hcol.
  change 0 with (8 * 0) in Hl at 1.
  destruct (decide (col < col')) as [Hlt|Hge].
  - apply (neon_lanes_Some row _ _ 0 col' out out1 Hrow ltac:(lia) Hl). lia.
  - destruct (for_range_Some_body _ _ _ _ _ Ht col ltac:(lia))
      as (t & t' & Hb).
    apply (neon_tail_body_Some row col _ t t' Hrow ltac:(lia) Hb).
Qed.

(** Either path is defined exactly on the frames whose samples are all
    addressable. *)
Lemma scalar_defined_iff (out : gmap Z byte) :
  0 <= width -> 0 <= height ->
  is_Some (convertYuv420ToRgbScalar yPlane uPlane vPlane width height
             yRowStride uvRowStride uvPixelStride out)
  <-> frame_readable yPlane uPlane vPlane width height yRowStride
        uvRowStride uvPixelStride.
Proof.
  intros Hw Hh. split.
  - intros [out' Hrun] row col Hrow Hcol.
    unfold convertYuv420ToRgbScalar in Hrun.
    destruct (for_range 0 height _ _) as [st|] eqn:E; [|discriminate].
    destruct (for_range_Some_body _ _ _ _ _ E row Hrow) as (t & t' & Hr).
    destruct (for_range_Some_body _ _ _ _ _ Hr col Hcol) as (t1 & t2 & Hc).
    destruct (scalar_body_Some row col t1 t2 ltac:(lia) ltac:(lia) Hc)
      as (y & u & v & Hs).
    exists y, u, v. auto.
  - intros Hread.
    destruct (scalar_image yPlane uPlane vPlane width height yRowStride
                uvRowStride uvPixelStride out Hw Hh Hread) as (out' & -> & _).
    eauto.
Qed.

Lemma neon_defined_iff (out : gmap Z byte) :
  0 <= width -> 0 <= height ->
  is_Some (convertYuv420ToRgbNeon yPlane uPlane vPlane width height
             yRowStride uvRowStride uvPixelStride out)
  <-> frame_readable yPlane uPlane vPlane width height yRowStride
        uvRowStride uvPixelStride.
Proof.
  intros Hw Hh. split.
  - intros [out' Hrun] row col Hrow Hcol.
    unfold convertYuv420ToRgbNeon in Hrun.
    destruct (for_range_Some_body _ _ _ _ _ Hrun row Hrow) as (t & t' & Hr).
    destruct (neon_row_Some row t t' ltac:(lia) Hr col Hcol)
      as (y & u & v & Hs).
    exists y, u, v. auto.
  - intros Hread.
    destruct (neon_image yPlane uPlane vPlane width height yRowStride
                uvRowStride uvPixelStride out Hw Hh Hread) as (out' & -> & _).
    eauto.
Qed.

End Definedness.

(** Checking a concrete frame by evaluation. *)
Lemma frame_samplesb_spec (yPlane uPlane vPlane : gmap Z byte)
    (width height yRowStride uvRowStride uvPixelStride : Z)
    (P : Z -> Z -> Z -> Prop) (Pb : Z -> Z -> Z -> bool) :
  (forall y u v, Pb y u v = true -> P y u v) ->
  frame_samplesb yPlane uPlane vPlane width height yRowStride uvRowStride
    uvPixelStride Pb = true ->
  frame_samples yPlane uPlane vPlane width height yRowStride uvRowStride
    uvPixelStride P.
Proof.
  intros HP Hb row col Hrow Hcol. unfold frame_samplesb in Hb.
  pose proof (forallb_seqZ _ _ _ Hb row ltac:(lia)) as Hr. cbv beta in Hr.
  pose proof (forallb_seqZ _ _ _ Hr col ltac:(lia)) as Hc. cbv beta in Hc.
  unfold sampled.
  destruct (load yPlane _) as [y|]; [|discriminate].
  destruct (load uPlane _) as [u|]; [|discriminate].
  destruct (load vPlane _) as [v|]; [|discriminate].
  exists y, u, v. auto.
Qed.

Lemma frame_readableb_spec (yPlane uPlane vPlane : gmap Z byte)
    (width height yRowStride uvRowStride uvPixelStride : Z) :
  frame_samplesb yPlane uPlane vPlane width height yRowStride uvRowStride
    uvPixelStride (fun _ _ _ => true) = true ->
  frame_readable yPlane uPlane vPlane width height yRowStride uvRowStride
    uvPixelStride.
Proof. apply frame_samplesb_spec. auto. Qed.

(** ** Claims *)

(** C10. Degenerate geometry: when [width <= 0] or [height <= 0] the scalar
    path, the NEON path and the dispatcher return with the output buffer
    exactly as it was, and they do so whatever the planes hold, even when
    the planes have no readable byte at all (so no plane byte is read). *)
Theorem degenerate_geometry_no_access
    (yPlane uPlane vPlane : gmap Z byte)
    (width height yRowStride uvRowStride uvPixelStride : Z)
    (USE_NEON : bool) (out : gmap Z byte) :
  width <= 0 \/ height <= 0 ->
  convertYuv420ToRgbScalar yPlane uPlane vPlane width height yRowStride
    uvRowStride uvPixelStride out = Some out /\
  convertYuv420ToRgbNeon yPlane uPlane vPlane width height yRowStride
    uvRowStride uvPixelStride out = Some out /\
  convertYuv420ToRgb yPlane uPlane vPlane width height yRowStride
    uvRowStride uvPixelStride USE_NEON out = Some out /\
  convertYuv420ToRgbScalar ∅ ∅ ∅ width height yRowStride uvRowStride
    uvPixelStride out = Some out /\
  convertYuv420ToRgbNeon ∅ ∅ ∅ width height yRowStride uvRowStride
    uvPixelStride out = Some out.
Proof.
  intros H. repeat split.
  - apply scalar_degenerate, H.
  - apply neon_degenerate, H.
  - unfold convertYuv420ToRgb. destruct USE_NEON.
    + apply neon_degenerate, H.
    + apply scalar_degenerate, H.
  - apply scalar_degenerate, H.
  - apply neon_degenerate, H.
Qed.

Lemma degenerate_geometry_witness :
  (0 <= 0 \/ 4 <= 0) /\
  convertYuv420ToRgbScalar (packed [1; 2; 3]) ∅ ∅ 0 4 8 4 1 (packed [7; 7])
    = Some (packed [7; 7]) /\
  convertYuv420ToRgbNeon (packed [1; 2; 3]) ∅ ∅ 0 4 8 4 1 (packed [7; 7])
    = Some (packed [7; 7]) /\
  convertYuv420ToRgb (packed [1; 2; 3]) ∅ ∅ 0 4 8 4 1 true (packed [7; 7])
    = Some (packed [7; 7]) /\
  convertYuv420ToRgbScalar ∅ ∅ ∅ 0 4 8 4 1 (packed [7; 7])
    = Some (packed [7; 7]) /\
  convertYuv420ToRgbNeon ∅ ∅ ∅ 0 4 8 4 1 (packed [7; 7])
    = Some (packed [7; 7]).
Proof.
  assert (H : 0 <= 0 \/ 4 <= 0) by (left; lia).
  split; [exact H|].
  exact (degenerate_geometry_no_access (packed [1; 2; 3]) ∅ ∅ 0 4 8 4 1 true
           (packed [7; 7]) H).
Defined.

(** C3. Scalar path, pixel by pixel: on a frame whose samples are all
    addressable the scalar conversion returns, and for every pixel
    [(row, col)] of the image it has read Y at [row * yRowStride + col] and
    U, V at [(row / 2) * uvRowStride + (col / 2) * uvPixelStride] (floor
    division), and the bytes at offsets [(row * width + col) * 3],
    [+ 1], [+ 2] are R, G, B: each coefficient product truncated toward
    zero, the sum saturated to [0, 255]. *)
Theorem scalar_per_pixel
    (yPlane uPlane vPlane : gmap Z byte)
    (width height yRowStride uvRowStride uvPixelStride : Z)
    (out : gmap Z byte) :
  frame_readable yPlane uPlane vPlane width height yRowStride uvRowStride
    uvPixelStride ->
  exists out',
    convertYuv420ToRgbScalar yPlane uPlane vPlane width height yRowStride
      uvRowStride uvPixelStride out = Some out' /\
    forall row col, 0 <= row < height -> 0 <= col < width ->
      exists y u v,
        load yPlane (row * yRowStride + col) = Some y /\
        load uPlane ((row / 2) * uvRowStride + (col / 2) * uvPixelStride)
          = Some u /\
        load vPlane ((row / 2) * uvRowStride + (col / 2) * uvPixelStride)
          = Some v /\
        load out' ((row * width + col) * 3) = Some (spec_R y v) /\
        load out' ((row * width + col) * 3 + 1) = Some (spec_G y u v) /\
        load out' ((row * width + col) * 3 + 2) = Some (spec_B y u).
Proof.
  intros Hread.
  destruct (decide (0 < width /\ 0 < height)) as [[Hw Hh]|Hdeg].
  - destruct (scalar_image yPlane uPlane vPlane width height yRowStride
                uvRowStride uvPixelStride out ltac:(lia) ltac:(lia) Hread)
      as (out' & Hrun & Hpix & _).
    exists out'. split; [exact Hrun|].
    intros row col Hrow Hcol.
    destruct (Hread row col Hrow Hcol) as (y & u & v & Hs & _).
    destruct (sampled_bytes _ _ _ _ _ _ _ _ _ _ _ Hs) as (By & Bu & Bv).
    destruct (scalar_channels_spec y u v Bu Bv) as (HR & HG & HB).
    pose proof (Hpix row col 0 y u v Hrow Hcol ltac:(lia) Hs) as P0.
    pose proof (Hpix row col 1 y u v Hrow Hcol ltac:(lia) Hs) as P1.
    pose proof (Hpix row col 2 y u v Hrow Hcol ltac:(lia) Hs) as P2.
    apply load_lookup in P0, P1, P2.
    rewrite scalar_pixel_saturates in P0, P1, P2.
    unfold spec_rgb_offset in P0, P1, P2. rewrite Z.add_0_r in P0.
    cbv [channel_value Z.eqb Pos.eqb] in P0, P1, P2.
    rewrite HR in P0. rewrite HG in P1. rewrite HB in P2.
    destruct Hs as (Hy & Hu & Hv).
    exists y, u, v. repeat split; assumption.
  - exists out. split; [apply scalar_degenerate; lia|].
    intros row col Hrow Hcol. lia.
Qed.

Lemma scalar_per_pixel_witness :
  frame_readable (packed [10; 20; 30; 40; 50; 60]) (packed [90; 200])
    (packed [240; 16]) 3 2 3 2 1 /\
  exists out',
    convertYuv420ToRgbScalar (packed [10; 20; 30; 40; 50; 60])
      (packed [90; 200]) (packed [240; 16]) 3 2 3 2 1 ∅ = Some out' /\
    forall row col, 0 <= row < 2 -> 0 <= col < 3 ->
      exists y u v,
        load (packed [10; 20; 30; 40; 50; 60]) (row * 3 + col) = Some y /\
        load (packed [90; 200]) ((row / 2) * 2 + (col / 2) * 1) = Some u /\
        load (packed [240; 16]) ((row / 2) * 2 + (col / 2) * 1) = Some v /\
        load out' ((row * 3 + col) * 3) = Some (spec_R y v) /\
        load out' ((row * 3 + col) * 3 + 1) = Some (spec_G y u v) /\
        load out' ((row * 3 + col) * 3 + 2) = Some (spec_B y u).
Proof.
  assert (H : frame_readable (packed [10; 20; 30; 40; 50; 60])
                (packed [90; 200]) (packed [240; 16]) 3 2 3 2 1)
    by (apply frame_readableb_spec; vm_compute; reflexivity).
  split; [exact H|].
  exact (scalar_per_pixel _ _ _ _ _ _ _ _ ∅ H).
Defined.

(** The first pixel of that frame: Y = 10, U = 90, V = 240 gives
    R = 10 + 157, G = 10 + 13 - 79 saturated to 0, B = 10 - 67 saturated
    to 0. *)
Example scalar_first_pixel :
  (convertYuv420ToRgbScalar (packed [10; 20; 30; 40; 50; 60])
     (packed [90; 200]) (packed [240; 16]) 3 2 3 2 1 ∅
     ≫= fun out' => mapM (load out') [0; 1; 2]) = Some [167; 0; 0] /\
  (spec_R 10 240, spec_G 10 90 240, spec_B 10 90) = (167, 0, 0).
Proof. vm_compute. split; reflexivity. Qed.

(** C5. Range and saturation: on a frame whose samples are all addressable
    either path returns; every byte of its output lies in [0, 255]; and the
    byte stored for a channel is the channel value the path computed,
    saturated: 0 when the value is below 0, 255 when it is above 255, the
    value itself otherwise. *)
Theorem output_saturated
    (yPlane uPlane vPlane : gmap Z byte)
    (width height yRowStride uvRowStride uvPixelStride : Z)
    (USE_NEON : bool) (out : gmap Z byte) :
  frame_readable yPlane uPlane vPlane width height yRowStride uvRowStride
    uvPixelStride ->
  exists out',
    convertYuv420ToRgb yPlane uPlane vPlane width height yRowStride
      uvRowStride uvPixelStride USE_NEON out = Some out' /\
    (forall k b, out' !! k = Some b -> 0 <= u8_to_Z b <= 255) /\
    (forall row col c, 0 <= row < height -> 0 <= col < width -> 0 <= c < 3 ->
       exists y u v,
         sampled yPlane uPlane vPlane yRowStride uvRowStride uvPixelStride
           row col y u v /\
         let x := path_channel_value USE_NEON width col y u v c in
         load out' (spec_rgb_offset width row col c)
         = Some (if x <? 0 then 0 else if 255 <? x then 255 else x)).
Proof.
  intros Hread.
  destruct (decide (0 < width /\ 0 < height)) as [[Hw Hh]|Hdeg].
  - destruct (dispatch_image yPlane uPlane vPlane width height yRowStride
                uvRowStride uvPixelStride USE_NEON out ltac:(lia) ltac:(lia)
                Hread) as (out' & Hrun & Hpix & _).
    exists out'. split; [exact Hrun|]. split.
    + intros k b _. pose proof (u8_to_Z_range b). lia.
    + intros row col c Hrow Hcol Hc.
      destruct (Hread row col Hrow Hcol) as (y & u & v & Hs & _).
      exists y, u, v. split; [exact Hs|]. cbv zeta.
      pose proof (Hpix row col c y u v Hrow Hcol Hc Hs) as P.
      apply load_lookup in P. rewrite path_pixel_saturates in P. exact P.
  - exists out. split.
    + unfold convertYuv420ToRgb.
      destruct USE_NEON; [apply neon_degenerate | apply scalar_degenerate];
        lia.
    + split; [|intros; lia].
      intros k b _. pose proof (u8_to_Z_range b). lia.
Qed.

(** C6. Geometry coverage of the NEON path: for every width and height
    (divisible by 8 or not) and every frame whose samples are addressable,
    the conversion returns and every offset of [0, width * height * 3)
    holds the byte of its pixel and channel: computed by the eight-pixel
    loop for the columns below [8 * (width / 8)], by the scalar loop for
    the remaining [width mod 8] columns.  Nothing outside the region is
    touched, so from an empty buffer exactly the region is populated. *)
Theorem neon_covers_output
    (yPlane uPlane vPlane : gmap Z byte)
    (width height yRowStride uvRowStride uvPixelStride : Z)
    (out : gmap Z byte) :
  0 <= width -> 0 <= height ->
  frame_readable yPlane uPlane vPlane width height yRowStride uvRowStride
    uvPixelStride ->
  exists out',
    convertYuv420ToRgbNeon yPlane uPlane vPlane width height yRowStride
      uvRowStride uvPixelStride out = Some out' /\
    (forall k, 0 <= k < width * height * 3 ->
       exists row col c y u v,
         0 <= row < height /\ 0 <= col < width /\ 0 <= c < 3 /\
         k = spec_rgb_offset width row col c /\
         sampled yPlane uPlane vPlane yRowStride uvRowStride uvPixelStride
           row col y u v /\
         out' !! k = Some (if bool_decide (col < 8 * (width / 8))
                           then neon_pixel y u v c
                           else scalar_pixel y u v c)) /\
    (forall k, k < 0 \/ width * height * 3 <= k -> out' !! k = out !! k) /\
    (out = ∅ ->
     forall k, is_Some (out' !! k) <-> 0 <= k < width * height * 3).
Proof.
  intros Hw Hh Hread.
  destruct (neon_image yPlane uPlane vPlane width height yRowStride
              uvRowStride uvPixelStride out Hw Hh Hread)
    as (out' & Hrun & Hpix & Hframe).
  assert (Hcover : forall k, 0 <= k < width * height * 3 ->
            exists row col c y u v,
              0 <= row < height /\ 0 <= col < width /\ 0 <= c < 3 /\
              k = spec_rgb_offset width row col c /\
              sampled yPlane uPlane vPlane yRowStride uvRowStride uvPixelStride
                row col y u v /\
              out' !! k = Some (if bool_decide (col < 8 * (width / 8))
                                then neon_pixel y u v c
                                else scalar_pixel y u v c)).
  { intros k Hk.
    destruct (rgb_offset_decompose width height k Hw Hh Hk)
      as (row & col & c & Hrow & Hcol & Hc & ->).
    destruct (Hread row col Hrow Hcol) as (y & u & v & Hs & _).
    exists row, col, c, y, u, v. repeat split; try lia; try apply Hs.
    apply (Hpix row col c y u v Hrow Hcol Hc Hs). }
  exists out'. split; [exact Hrun|]. split; [exact Hcover|].
  split; [exact Hframe|].
  intros -> k. split.
  - intros Hsome.
    destruct (decide (0 <= k < width * height * 3)) as [Hin|Hout]; [exact Hin|].
    rewrite Hframe, lookup_empty in Hsome by lia.
    destruct Hsome as [? ?]. discriminate.
  - intros Hk.
    destruct (Hcover k Hk)
      as (row & col & c & y & u & v & _ & _ & _ & _ & _ & ->).
    eauto.
Qed.

(** ** Neutral chroma *)

Lemma frame_samples_weaken (yPlane uPlane vPlane : gmap Z byte)
    (width height yRowStride uvRowStride uvPixelStride : Z)
    (P Q : Z -> Z -> Z -> Prop) :
  (forall y u v, P y u v -> Q y u v) ->
  frame_samples yPlane uPlane vPlane width height yRowStride uvRowStride
    uvPixelStride P ->
  frame_samples yPlane uPlane vPlane width height yRowStride uvRowStride
    uvPixelStride Q.
Proof.
  intros HPQ HP row col Hrow Hcol.
  destruct (HP row col Hrow Hcol) as (y & u & v & Hs & Hp). eauto 6.
Qed.

Lemma neutral_pixels (y c : Z) :
  0 <= y < 256 -> 0 <= c < 3 ->
  u8_to_Z (scalar_pixel y 128 128 c) = y /\
  u8_to_Z (neon_pixel y 128 128 c) = y.
Proof.
  intros Hy Hc.
  rewrite scalar_pixel_saturates, neon_pixel_saturates.
  destruct (neon_channels_no_wrap y 128 128 Hy) as (-> & -> & ->).
  unfold scalar_r, scalar_g, scalar_b.
  destruct (scalar_products_exact (128 - 128) ltac:(lia))
    as (-> & -> & -> & ->).
  change (lane_contrib 359 128) with 0. change (lane_contrib 88 128) with 0.
  change (lane_contrib 183 128) with 0. change (lane_contrib 454 128) with 0.
  change (spec_trunc 1402 1000 (128 - 128)) with 0.
  change (spec_trunc 344136 1000000 (128 - 128)) with 0.
  change (spec_trunc 714136 1000000 (128 - 128)) with 0.
  change (spec_trunc 1772 1000 (128 - 128)) with 0.
  unfold spec_saturate.
  split_channel c; cbv [channel_value Z.eqb Pos.eqb];
    rewrite ?Z.add_0_r, ?Z.sub_0_r;
    destruct (Z.ltb_spec y 0); destruct (Z.ltb_spec 255 y); lia.
Qed.

Lemma neutral_image (yPlane uPlane vPlane : gmap Z byte)
    (width height yRowStride uvRowStride uvPixelStride : Z)
    (USE_NEON : bool) (out : gmap Z byte) (P : Z -> Prop) :
  0 <= width -> 0 <= height ->
  frame_samples yPlane uPlane vPlane width height yRowStride uvRowStride
    uvPixelStride (fun y u v => P y /\ u = 128 /\ v = 128) ->
  exists out',
    convertYuv420ToRgb yPlane uPlane vPlane width height yRowStride
      uvRowStride uvPixelStride USE_NEON out = Some out' /\
    forall row col c, 0 <= row < height -> 0 <= col < width -> 0 <= c < 3 ->
      exists y,
        load yPlane (spec_luma_index yRowStride row col) = Some y /\ P y /\
        load out' (spec_rgb_offset width row col c) = Some y.
Proof.
  intros Hw Hh Hneutral.
  destruct (dispatch_image yPlane uPlane vPlane width height yRowStride
              uvRowStride uvPixelStride USE_NEON out Hw Hh)
    as (out' & Hrun & Hpix & _).
  { revert Hneutral. apply frame_samples_weaken. auto. }
  exists out'. split; [exact Hrun|].
  intros row col c Hrow Hcol Hc.
  destruct (Hneutral row col Hrow Hcol) as (y & u & v & Hs & Hy & -> & ->).
  destruct (sampled_bytes _ _ _ _ _ _ _ _ _ _ _ Hs) as (By & _).
  exists y. split; [apply Hs|]. split; [exact Hy|].
  pose proof (Hpix row col c y 128 128 Hrow Hcol Hc Hs) as Hp.
  apply load_lookup in Hp. rewrite Hp. f_equal.
  destruct (neutral_pixels y c By Hc) as (HS & HN).
  unfold neon_path_pixel.
  destruct USE_NEON; [case_bool_decide|]; assumption.
Qed.

(** C8. Neutral chroma: on a frame in which every sampled U and V equals
    128, both paths return, and at every pixel the three output bytes of
    both paths equal the luma sample of the pixel (so luma 128 gives
    R = G = B = 128 and luma 255 gives R = G = B = 255). *)
Theorem neutral_chroma_is_gray
    (yPlane uPlane vPlane : gmap Z byte)
    (width height yRowStride uvRowStride uvPixelStride : Z)
    (out : gmap Z byte) :
  frame_samples yPlane uPlane vPlane width height yRowStride uvRowStride
    uvPixelStride (fun _ u v => u = 128 /\ v = 128) ->
  exists outS outN,
    convertYuv420ToRgbScalar yPlane uPlane vPlane width height yRowStride
      uvRowStride uvPixelStride out = Some outS /\
    convertYuv420ToRgbNeon yPlane uPlane vPlane width height yRowStride
      uvRowStride uvPixelStride out = Some outN /\
    forall row col c, 0 <= row < height -> 0 <= col < width -> 0 <= c < 3 ->
      exists y,
        load yPlane (spec_luma_index yRowStride row col) = Some y /\
        load outS (spec_rgb_offset width row col c) = Some y /\
        load outN (spec_rgb_offset width row col c) = Some y.
Proof.
  intros Hneutral.
  destruct (decide (0 < width /\ 0 < height)) as [[Hw0 Hh0]|Hdeg];
    [|exists out, out;
      split; [apply scalar_degenerate; lia|];
      split; [apply neon_degenerate; lia|];
      intros row col c Hrow Hcol Hc; lia].
  assert (Hw : 0 <= width) by lia. assert (Hh : 0 <= height) by lia.
  assert (Hn : frame_samples yPlane uPlane vPlane width height yRowStride
                 uvRowStride uvPixelStride
                 (fun y u v => True /\ u = 128 /\ v = 128))
    by (revert Hneutral; apply frame_samples_weaken; auto).
  destruct (neutral_image _ _ _ _ _ _ _ _ false out _ Hw Hh Hn)
    as (outS & HrunS & HS).
  destruct (neutral_image _ _ _ _ _ _ _ _ true out _ Hw Hh Hn)
    as (outN & HrunN & HN).
  exists outS, outN. split; [exact HrunS|]. split; [exact HrunN|].
  intros row col c Hrow Hcol Hc.
  destruct (HS row col c Hrow Hcol Hc) as (y & Hy & _ & HyS).
  destruct (HN row col c Hrow Hcol Hc) as (y' & Hy' & _ & HyN).
  assert (y' = y) as -> by congruence.
  exists y. auto.
Qed.

(** C4 (as amended). Black point: for a 2x2 image whose four luma samples
    are 16 and whose chroma sample is U = V = 128, either path returns and
    all twelve output bytes are 16, that is, every pixel is (16, 16, 16):
    the kernel maps luma to the output without rescaling. *)
Theorem black_point_unscaled
    (yPlane uPlane vPlane : gmap Z byte)
    (yRowStride uvRowStride uvPixelStride : Z)
    (USE_NEON : bool) (out : gmap Z byte) :
  frame_samples yPlane uPlane vPlane 2 2 yRowStride uvRowStride uvPixelStride
    (fun y u v => y = 16 /\ u = 128 /\ v = 128) ->
  exists out',
    convertYuv420ToRgb yPlane uPlane vPlane 2 2 yRowStride uvRowStride
      uvPixelStride USE_NEON out = Some out' /\
    forall k, 0 <= k < 12 -> load out' k = Some 16.
Proof.
  intros Hblack.
  destruct (neutral_image yPlane uPlane vPlane 2 2 yRowStride uvRowStride
              uvPixelStride USE_NEON out (fun y => y = 16)
              ltac:(lia) ltac:(lia) Hblack) as (out' & Hrun & Hpix).
  exists out'. split; [exact Hrun|].
  intros k Hk.
  destruct (rgb_offset_decompose 2 2 k ltac:(lia) ltac:(lia) ltac:(lia))
    as (row & col & c & Hrow & Hcol & Hc & ->).
  destruct (Hpix row col c Hrow Hcol Hc) as (y & _ & -> & Hy). exact Hy.
Qed.

(** ** NEON against scalar *)

Lemma pixel_tolerance (width col y u v c : Z) :
  0 <= y < 256 -> 0 <= u < 256 -> 0 <= v < 256 -> 0 <= c < 3 ->
  (c = 0 -> in_int16 (lane_product 359 v)) ->
  (c = 2 -> in_int16 (lane_product 454 u)) ->
  Z.abs (u8_to_Z (neon_path_pixel width col y u v c)
         - u8_to_Z (scalar_pixel y u v c))
  <= (if c =? 1 then 3 else 2).
Proof.
  intros Hy Hu Hv Hc Hpv Hpu. unfold neon_path_pixel.
  case_bool_decide as Hlane.
  - rewrite neon_pixel_saturates, scalar_pixel_saturates.
    apply spec_saturate_lipschitz.
    destruct (neon_channels_no_wrap y u v Hy) as (-> & -> & ->).
    unfold scalar_r, scalar_g, scalar_b.
    destruct (scalar_products_exact (u - 128) ltac:(lia))
      as (_ & Eu2 & _ & Eu4).
    destruct (scalar_products_exact (v - 128) ltac:(lia))
      as (Ev1 & _ & Ev3 & _).
    rewrite Eu2, Eu4, Ev1, Ev3.
    destruct (lane_vs_scalar u Hu) as (_ & Du2 & _ & Du4).
    destruct (lane_vs_scalar v Hv) as (Dv1 & _ & Dv3 & _).
    split_channel c; cbv [channel_value Z.eqb Pos.eqb].
    + specialize (Hpv eq_refl). apply lane_product_359_in_range in Hpv.
      specialize (Dv1 Hpv). lia.
    + lia.
    + specialize (Hpu eq_refl). apply lane_product_454_in_range in Hpu.
      specialize (Du4 Hpu). lia.
  - rewrite Z.sub_diag. destruct (c =? 1); simpl; lia.
Qed.

(** C1 (as amended). NEON against scalar: on every geometry and every
    addressable frame both paths return, and at every pixel the G byte of
    the NEON path is within 3 of the scalar path's G byte; the R byte is
    within 2 of the scalar path's R byte when the pixel's V keeps
    359 * (V - 128) within [-32768, 32767]; the B byte is within 2 of the
    scalar path's B byte when the pixel's U keeps 454 * (U - 128) within
    [-32768, 32767]. *)
Theorem neon_scalar_tolerance
    (yPlane uPlane vPlane : gmap Z byte)
    (width height yRowStride uvRowStride uvPixelStride : Z)
    (out : gmap Z byte) :
  frame_readable yPlane uPlane vPlane width height yRowStride uvRowStride
    uvPixelStride ->
  exists outS outN,
    convertYuv420ToRgbScalar yPlane uPlane vPlane width height yRowStride
      uvRowStride uvPixelStride out = Some outS /\
    convertYuv420ToRgbNeon yPlane uPlane vPlane width height yRowStride
      uvRowStride uvPixelStride out = Some outN /\
    forall row col, 0 <= row < height -> 0 <= col < width ->
      exists y u v rS gS bS rN gN bN,
        sampled yPlane uPlane vPlane yRowStride uvRowStride uvPixelStride
          row col y u v /\
        load outS (spec_rgb_offset width row col 0) = Some rS /\
        load outS (spec_rgb_offset width row col 1) = Some gS /\
        load outS (spec_rgb_offset width row col 2) = Some bS /\
        load outN (spec_rgb_offset width row col 0) = Some rN /\
        load outN (spec_rgb_offset width row col 1) = Some gN /\
        load outN (spec_rgb_offset width row col 2) = Some bN /\
        Z.abs (gN - gS) <= 3 /\
        (in_int16 (lane_product 359 v) -> Z.abs (rN - rS) <= 2) /\
        (in_int16 (lane_product 454 u) -> Z.abs (bN - bS) <= 2).
Proof.
  intros Hread.
  destruct (decide (0 <= width /\ 0 <= height)) as [[Hw Hh]|Hneg].
  - destruct (scalar_image yPlane uPlane vPlane width height yRowStride
                uvRowStride uvPixelStride out Hw Hh Hread)
      as (outS & HrunS & HpixS & _).
    destruct (neon_image yPlane uPlane vPlane width height yRowStride
                uvRowStride uvPixelStride out Hw Hh Hread)
      as (outN & HrunN & HpixN & _).
    exists outS, outN. split; [exact HrunS|]. split; [exact HrunN|].
    intros row col Hrow Hcol.
    destruct (Hread row col Hrow Hcol) as (y & u & v & Hs & _).
    destruct (sampled_bytes _ _ _ _ _ _ _ _ _ _ _ Hs) as (By & Bu & Bv).
    pose proof (fun c Hc => load_lookup _ _ _
                  (HpixS row col c y u v Hrow Hcol Hc Hs)) as PS.
    pose proof (fun c Hc => load_lookup _ _ _
                  (HpixN row col c y u v Hrow Hcol Hc Hs)) as PN.
    exists y, u, v. eexists _, _, _, _, _, _.
    split; [exact Hs|].
    split; [exact (PS 0 ltac:(lia))|]. split; [exact (PS 1 ltac:(lia))|].
    split; [exact (PS 2 ltac:(lia))|].
    split; [exact (PN 0 ltac:(lia))|]. split; [exact (PN 1 ltac:(lia))|].
    split; [exact (PN 2 ltac:(lia))|].
    split; [|split].
    + apply (pixel_tolerance width col y u v 1); try assumption; lia.
    + intros Hpv.
      apply (pixel_tolerance width col y u v 0); try assumption; try lia.
      intros _. exact Hpv.
    + intros Hpu.
      apply (pixel_tolerance width col y u v 2); try assumption; try lia.
      intros _. exact Hpu.
  - exists out, out.
    split; [apply scalar_degenerate; lia|].
    split; [apply neon_degenerate; lia|].
    intros row col Hrow Hcol. lia.
Qed.

(** C1, counterexample to the bound of 1: an 8x1 frame with Y = 128,
    U = 128, V = 121, no lane product out of range.  The scalar path stores
    G = 132 (0.714136 * -7 truncates to -4), the NEON path stores G = 134
    (183 * -7 = -1281 shifts down to -6). *)
Lemma neon_scalar_within_1_counterexample :
  exists outS outN,
    convertYuv420ToRgbScalar (packed (replicate 8 128))
      (packed (replicate 4 128)) (packed (replicate 4 121)) 8 1 8 4 1 ∅
      = Some outS /\
    convertYuv420ToRgbNeon (packed (replicate 8 128))
      (packed (replicate 4 128)) (packed (replicate 4 121)) 8 1 8 4 1 ∅
      = Some outN /\
    load outS 1 = Some 132 /\ load outN 1 = Some 134 /\
    ~ within (fun _ => 1) (8 * 1 * 3) outS outN.
Proof.
  eexists _, _.
  split; [vm_compute; reflexivity|]. split; [vm_compute; reflexivity|].
  split; [vm_compute; reflexivity|]. split; [vm_compute; reflexivity|].
  intros H. destruct (H 1 ltac:(lia)) as (a & b & Ha & Hb & Hab).
  vm_compute in Ha, Hb. injection Ha as <-. injection Hb as <-. lia.
Qed.

(** The bounds 2 and 3 are attained inside the admitted chroma range. *)
Example tolerance_is_attained :
  u8_to_Z (neon_pixel 128 128 41 0) - u8_to_Z (scalar_pixel 128 128 41 0) = -2
  /\ u8_to_Z (neon_pixel 128 56 37 1) - u8_to_Z (scalar_pixel 128 56 37 1) = 3
  /\ u8_to_Z (neon_pixel 128 62 128 2) - u8_to_Z (scalar_pixel 128 62 128 2)
     = -2.
Proof. vm_compute. repeat split. Qed.

(** C2, evaluated where it fails.  With V = 255 the centred chroma lanes
    hold 127; the exact product 359 * 127 = 45593 lies outside the signed
    16-bit range and [vmulq_s16] keeps its low 16 bits, -19943.  On an 8x1
    frame with Y = 0, U = 128, V = 255 the scalar path stores R = 178 and
    the NEON path stores R = 0. *)
Theorem neon_product_overflows :
  let v := vreinterpretq_s16_u16 (vmovl_u8 (replicate 8 Byte.xff)) in
  let v_shifted := vsubq_s16 v v_128 in
  v_shifted = replicate 8 127 /\
  lane_product 359 255 = 45593 /\
  ~ in_int16 (lane_product 359 255) /\
  vmulq_s16 v_c1 v_shifted = replicate 8 (-19943) /\
  exists outS outN,
    convertYuv420ToRgbScalar (packed (replicate 8 0))
      (packed (replicate 4 128)) (packed (replicate 4 255)) 8 1 8 4 1 ∅
      = Some outS /\
    convertYuv420ToRgbNeon (packed (replicate 8 0))
      (packed (replicate 4 128)) (packed (replicate 4 255)) 8 1 8 4 1 ∅
      = Some outN /\
    load outS 0 = Some 178 /\ load outN 0 = Some 0.
Proof.
  cbv zeta. split; [vm_compute; reflexivity|]. split; [reflexivity|].
  split; [unfold in_int16, lane_product; lia|].
  split; [vm_compute; reflexivity|].
  eexists _, _. repeat split; vm_compute; reflexivity.
Qed.

(** The lane products that do overflow, exactly. *)
Lemma lane_product_overflow_iff (c : Z) :
  0 <= c < 256 ->
  (~ in_int16 (lane_product 359 c) <-> c < 37 \/ 219 < c) /\
  (~ in_int16 (lane_product 454 c) <-> c < 56 \/ 200 < c).
Proof.
  intros Hc. rewrite lane_product_359_in_range, lane_product_454_in_range.
  lia.
Qed.

(** ** Two frames with the same logical image *)

Section SameImage.

Variables yPlane1 uPlane1 vPlane1 yPlane2 uPlane2 vPlane2 : gmap Z byte.
Variables width height : Z.
Variables yRowStride1 uvRowStride1 yRowStride2 uvRowStride2 uvPixelStride : Z.

Hypothesis Hsame :
  same_image yPlane1 uPlane1 vPlane1 yPlane2 uPlane2 vPlane2 width height
    yRowStride1 uvRowStride1 yRowStride2 uvRowStride2 uvPixelStride.

Lemma scalar_body_same (row col : Z) (st : Z * gmap Z byte) :
  0 <= row < height -> 0 <= col < width ->
  scalar_body yPlane1 uPlane1 vPlane1 yRowStride1 uvRowStride1 uvPixelStride
    row col st
  = scalar_body yPlane2 uPlane2 vPlane2 yRowStride2 uvRowStride2 uvPixelStride
      row col st.
Proof.
  intros Hrow Hcol. destruct (Hsame row col Hrow Hcol) as (Hy & Hu & Hv).
  unfold spec_luma_index, spec_chroma_index in *.
  unfold scalar_body, load. destruct st as [idx out].
  rewrite !Z.quot_div_nonneg by lia. rewrite Hy, Hu, Hv. reflexivity.
Qed.

Lemma neon_tail_body_same (row col rgbRowOffset : Z) (out : gmap Z byte) :
  0 <= row < height -> 0 <= col < width ->
  neon_tail_body yPlane1 uPlane1 vPlane1 uvPixelStride (row * yRowStride1)
    (Z.quot row 2 * uvRowStride1) rgbRowOffset col out
  = neon_tail_body yPlane2 uPlane2 vPlane2 uvPixelStride (row * yRowStride2)
      (Z.quot row 2 * uvRowStride2) rgbRowOffset col out.
Proof.
  intros Hrow Hcol. destruct (Hsame row col Hrow Hcol) as (Hy & Hu & Hv).
  unfold spec_luma_index, spec_chroma_index in *.
  unfold neon_tail_body, load.
  rewrite !Z.quot_div_nonneg by lia. rewrite Hy, Hu, Hv. reflexivity.
Qed.

Lemma neon_body_same (row q rgbRowOffset : Z) (out : gmap Z byte) :
  0 <= row < height -> 0 <= q -> 8 * q + 8 <= width ->
  neon_body yPlane1 uPlane1 vPlane1 uvPixelStride (row * yRowStride1)
    (Z.quot row 2 * uvRowStride1) rgbRowOffset (8 * q) out
  = neon_body yPlane2 uPlane2 vPlane2 uvPixelStride (row * yRowStride2)
      (Z.quot row 2 * uvRowStride2) rgbRowOffset (8 * q) out.
Proof.
  intros Hrow Hq Hlane. unfold neon_body.
  assert (Hy8 : vld1_u8 yPlane1 (row * yRowStride1 + 8 * q)
                = vld1_u8 yPlane2 (row * yRowStride2 + 8 * q)).
  { unfold vld1_u8. apply Forall_mapM_ext, Forall_seqZ. intros j Hj.
    destruct (Hsame row (8 * q + j) Hrow ltac:(lia)) as (Hy & _).
    unfold spec_luma_index in Hy.
    replace (row * yRowStride1 + 8 * q + j)
      with (row * yRowStride1 + (8 * q + j)) by lia.
    replace (row * yRowStride2 + 8 * q + j)
      with (row * yRowStride2 + (8 * q + j)) by lia.
    exact Hy. }
  assert (Huv : for_range 0 4
                  (load_chroma uPlane1 vPlane1 uvPixelStride
                     (Z.quot row 2 * uvRowStride1) (8 * q))
                  (replicate 4 Byte.x00, replicate 4 Byte.x00)
                = for_range 0 4
                    (load_chroma uPlane2 vPlane2 uvPixelStride
                       (Z.quot row 2 * uvRowStride2) (8 * q))
                    (replicate 4 Byte.x00, replicate 4 Byte.x00)).
  { apply for_range_ext. intros i [us vs] Hi.
    destruct (Hsame row (8 * q + 2 * i) Hrow ltac:(lia)) as (_ & Hu & Hv).
    unfold spec_chroma_index in Hu, Hv.
    rewrite chroma_col_8q in Hu, Hv by lia.
    replace (2 * i / 2) with i in Hu, Hv
      by (rewrite Z.mul_comm, Z.div_mul; lia).
    unfold load_chroma.
    rewrite quot_8q, !Z.quot_div_nonneg by lia.
    rewrite Hu, Hv. reflexivity. }
  rewrite Hy8, Huv. reflexivity.
Qed.

Lemma neon_lanes_same (row rgbRowOffset : Z) (fuel : nat) (q : Z)
    (out : gmap Z byte) :
  0 <= row < height -> 0 <= q ->
  neon_lanes yPlane1 uPlane1 vPlane1 width uvPixelStride fuel
    (row * yRowStride1) (Z.quot row 2 * uvRowStride1) rgbRowOffset (8 * q) out
  = neon_lanes yPlane2 uPlane2 vPlane2 width uvPixelStride fuel
      (row * yRowStride2) (Z.quot row 2 * uvRowStride2) rgbRowOffset (8 * q)
      out.
Proof.
  intros Hrow. revert q out.
  induction fuel as [|fuel IH]; intros q out Hq; cbn [neon_lanes];
    case_bool_decide as Hcond; try reflexivity.
  rewrite neon_body_same by lia.
  destruct (neon_body _ _ _ _ _ _ _ _ _) as [out1|]; [|reflexivity].
  replace (8 * q + 8) with (8 * (q + 1)) by lia. apply IH. lia.
Qed.

Lemma neon_lanes_col (yPlane uPlane vPlane : gmap Z byte)
    (yRowOffset uvRowOffset rgbRowOffset : Z) (fuel : nat) (col col' : Z)
    (out out' : gmap Z byte) :
  neon_lanes yPlane uPlane vPlane width uvPixelStride fuel yRowOffset
    uvRowOffset rgbRowOffset col out = Some (col', out') ->
  col <= col'.
Proof.
  revert col out.
  induction fuel as [|fuel IH]; intros col out; cbn [neon_lanes];
    case_bool_decide as Hcond; try discriminate.
  - intros [= <- _]. lia.
  - destruct (neon_body _ _ _ _ _ _ _ _ _) as [out1|]; [|discriminate].
    intros H. apply IH in H. lia.
  - intros [= <- _]. lia.
Qed.

Lemma neon_row_same (row : Z) (out : gmap Z byte) :
  0 <= row < height ->
  neon_row yPlane1 uPlane1 vPlane1 width yRowStride1 uvRowStride1
    uvPixelStride row out
  = neon_row yPlane2 uPlane2 vPlane2 width yRowStride2 uvRowStride2
      uvPixelStride row out.
Proof.
  intros Hrow. unfold neon_row. cbv zeta.
  pose proof (neon_lanes_same row (row * width * 3) (Z.to_nat width) 0 out
                Hrow ltac:(lia)) as Hl.
  change (8 * 0) with 0 in Hl. rewrite Hl.
  destruct (neon_lanes yPlane2 _ _ _ _ _ _ _ _ _ _) as [[col out1]|] eqn:E;
    [|reflexivity].
  apply neon_lanes_col in E. cbn [mbind option_bind].
  apply for_range_ext. intros j t Hj.
  apply neon_tail_body_same; lia.
Qed.

Lemma scalar_same (out : gmap Z byte) :
  convertYuv420ToRgbScalar yPlane1 uPlane1 vPlane1 width height yRowStride1
    uvRowStride1 uvPixelStride out
  = convertYuv420ToRgbScalar yPlane2 uPlane2 vPlane2 width height yRowStride2
      uvRowStride2 uvPixelStride out.
Proof.
  unfold convertYuv420ToRgbScalar. f_equal.
  apply for_range_ext. intros row st Hrow.
  apply for_range_ext. intros col st' Hcol.
  apply scalar_body_same; assumption.
Qed.

Lemma neon_same (out : gmap Z byte) :
  convertYuv420ToRgbNeon yPlane1 uPlane1 vPlane1 width height yRowStride1
    uvRowStride1 uvPixelStride out
  = convertYuv420ToRgbNeon yPlane2 uPlane2 vPlane2 width height yRowStride2
      uvRowStride2 uvPixelStride out.
Proof.
  unfold convertYuv420ToRgbNeon.
  apply for_range_ext. intros row st Hrow. apply neon_row_same. exact Hrow.
Qed.

End SameImage.

Lemma same_imageb_spec
    (yPlane1 uPlane1 vPlane1 yPlane2 uPlane2 vPlane2 : gmap Z byte)
    (width height yRowStride1 uvRowStride1 yRowStride2 uvRowStride2
     uvPixelStride : Z) :
  same_imageb yPlane1 uPlane1 vPlane1 yPlane2 uPlane2 vPlane2 width height
    yRowStride1 uvRowStride1 yRowStride2 uvRowStride2 uvPixelStride = true ->
  same_image yPlane1 uPlane1 vPlane1 yPlane2 uPlane2 vPlane2 width height
    yRowStride1 uvRowStride1 yRowStride2 uvRowStride2 uvPixelStride.
Proof.
  intros Hb row col Hrow Hcol. unfold same_imageb in Hb.
  pose proof (forallb_seqZ _ _ _ Hb row ltac:(lia)) as Hr. cbv beta in Hr.
  pose proof (forallb_seqZ _ _ _ Hr col ltac:(lia)) as Hc. cbv beta in Hc.
  apply bool_decide_eq_true in Hc. exact Hc.
Qed.

(** C7. Stride independence: two calls on the same logical image (the same
    sample, or the same absence of one, at every sampled index; the same
    width, height and [uvPixelStride]) give the same result from the same
    output buffer, in the scalar path, in the NEON path and through the
    dispatcher, whatever [yRowStride] and [uvRowStride] are and whatever
    the planes hold at the offsets that are not sampled. *)
Theorem stride_independence
    (yPlane1 uPlane1 vPlane1 yPlane2 uPlane2 vPlane2 : gmap Z byte)
    (width height yRowStride1 uvRowStride1 yRowStride2 uvRowStride2
     uvPixelStride : Z)
    (USE_NEON : bool) (out : gmap Z byte) :
  same_image yPlane1 uPlane1 vPlane1 yPlane2 uPlane2 vPlane2 width height
    yRowStride1 uvRowStride1 yRowStride2 uvRowStride2 uvPixelStride ->
  convertYuv420ToRgbScalar yPlane1 uPlane1 vPlane1 width height yRowStride1
    uvRowStride1 uvPixelStride out
  = convertYuv420ToRgbScalar yPlane2 uPlane2 vPlane2 width height yRowStride2
      uvRowStride2 uvPixelStride out /\
  convertYuv420ToRgbNeon yPlane1 uPlane1 vPlane1 width height yRowStride1
    uvRowStride1 uvPixelStride out
  = convertYuv420ToRgbNeon yPlane2 uPlane2 vPlane2 width height yRowStride2
      uvRowStride2 uvPixelStride out /\
  convertYuv420ToRgb yPlane1 uPlane1 vPlane1 width height yRowStride1
    uvRowStride1 uvPixelStride USE_NEON out
  = convertYuv420ToRgb yPlane2 uPlane2 vPlane2 width height yRowStride2
      uvRowStride2 uvPixelStride USE_NEON out.
Proof.
  intros Hsame.
  pose proof (scalar_same _ _ _ _ _ _ _ _ _ _ _ _ _ Hsame out) as HS.
  pose proof (neon_same _ _ _ _ _ _ _ _ _ _ _ _ _ Hsame out) as HN.
  split; [exact HS|]. split; [exact HN|].
  unfold convertYuv420ToRgb. destruct USE_NEON; assumption.
Qed.

(** ** The JNI entry point *)

Lemma image_covers (yPlane uPlane vPlane : gmap Z byte)
    (width height yRowStride uvRowStride uvPixelStride : Z)
    (pixel : Z -> Z -> Z -> Z -> Z -> byte) (out out' : gmap Z byte) :
  0 <= width -> 0 <= height ->
  frame_readable yPlane uPlane vPlane width height yRowStride uvRowStride
    uvPixelStride ->
  image_written yPlane uPlane vPlane width height yRowStride uvRowStride
    uvPixelStride pixel out out' ->
  forall k, 0 <= k < width * height * 3 -> is_Some (out' !! k).
Proof.
  intros Hw Hh Hread (Hpix & _) k Hk.
  destruct (rgb_offset_decompose width height k Hw Hh Hk)
    as (row & col & c & Hrow & Hcol & Hc & ->).
  destruct (Hread row col Hrow Hcol) as (y & u & v & Hs & _).
  rewrite (Hpix row col c y u v Hrow Hcol Hc Hs). eauto.
Qed.

Lemma wrap32_small (z : Z) :
  -2147483648 <= z <= 2147483647 -> wrap32 z = z.
Proof. unfold wrap32. intros Hz. rewrite Z.mod_small; lia. Qed.

Lemma rgbSize_exact (width height : Z) :
  -2147483648 <= width * height * 3 <= 2147483647 ->
  wrap32 (wrap32 (width * height) * 3) = width * height * 3.
Proof.
  intros H. rewrite (wrap32_small (width * height)) by lia.
  apply wrap32_small. exact H.
Qed.

Lemma writes_within_spec (rgbOutput : gmap Z byte) (n : Z) :
  (forall k, is_Some (rgbOutput !! k) -> 0 <= k < n) ->
  writes_within rgbOutput n = true.
Proof.
  intros H. unfold writes_within. apply forallb_forall. intros k Hk.
  apply list_elem_of_In, list_elem_of_fmap in Hk.
  destruct Hk as ([k' b] & -> & Hkb). apply elem_of_map_to_list in Hkb.
  specialize (H k' (mk_is_Some _ _ Hkb)). simpl.
  apply andb_true_iff. rewrite Z.leb_le, Z.ltb_lt. exact H.
Qed.

(** A call with non-null buffers whose size fits and whose conversion
    stays inside the allocated bytes returns the cells of the buffer. *)
Lemma jni_run (USE_NEON : bool) (yPlane uPlane vPlane : gmap Z byte)
    (width height yRowStride uvRowStride uvPixelStride : Z)
    (rgbOutput : gmap Z byte) :
  0 <= width * height * 3 <= 2147483647 ->
  convertYuv420ToRgb yPlane uPlane vPlane width height yRowStride
    uvRowStride uvPixelStride USE_NEON ∅ = Some rgbOutput ->
  (forall k, is_Some (rgbOutput !! k) -> 0 <= k < width * height * 3) ->
  convertYuvToRgb USE_NEON (Some yPlane) (Some uPlane) (Some vPlane)
    width height yRowStride uvRowStride uvPixelStride
  = jni_returns
      {| jni_result :=
           Some ((fun k => rgbOutput !! k) <$> seqZ 0 (width * height * 3));
         jni_effects := [new_uint8_array (width * height * 3);
                         NewByteArray (width * height * 3);
                         SetByteArrayRegion 0 (width * height * 3);
                         delete_array];
         jni_buffer := Some rgbOutput |}.
Proof.
  intros Hsize Hrun Hdom. unfold convertYuvToRgb. cbv zeta.
  rewrite rgbSize_exact by lia.
  rewrite (proj2 (Z.ltb_ge _ _)) by lia.
  rewrite Hrun, writes_within_spec by exact Hdom. reflexivity.
Qed.

(** The conversion, started on a fresh buffer of a geometry whose size is
    not negative, writes inside the [width * height * 3] bytes only, and
    for [width, height >= 0] it writes every one of them. *)
Lemma dispatch_fresh (USE_NEON : bool) (yPlane uPlane vPlane : gmap Z byte)
    (width height yRowStride uvRowStride uvPixelStride : Z) :
  0 <= width * height * 3 ->
  frame_readable yPlane uPlane vPlane width height yRowStride uvRowStride
    uvPixelStride ->
  exists rgbOutput,
    convertYuv420ToRgb yPlane uPlane vPlane width height yRowStride
      uvRowStride uvPixelStride USE_NEON ∅ = Some rgbOutput /\
    (forall k, is_Some (rgbOutput !! k) -> 0 <= k < width * height * 3) /\
    (0 <= width -> 0 <= height ->
     forall k, 0 <= k < width * height * 3 -> is_Some (rgbOutput !! k)).
Proof.
  intros Hsize Hread.
  destruct (decide (0 <= width /\ 0 <= height)) as [[Hw Hh]|Hneg].
  - destruct (dispatch_image yPlane uPlane vPlane width height yRowStride
                uvRowStride uvPixelStride USE_NEON ∅ Hw Hh Hread)
      as (rgbOutput & Hrun & Himg).
    exists rgbOutput. split; [exact Hrun|]. split.
    + intros k Hk.
      destruct (decide (0 <= k < width * height * 3)) as [Hin|Hout];
        [exact Hin|].
      rewrite (proj2 Himg), lookup_empty in Hk by lia.
      destruct Hk as [? ?]. discriminate.
    + intros _ _.
      exact (image_covers yPlane uPlane vPlane width height yRowStride
               uvRowStride uvPixelStride _ ∅ rgbOutput Hw Hh Hread Himg).
  - exists ∅. split; [|split].
    + unfold convertYuv420ToRgb.
      destruct USE_NEON; [apply neon_degenerate | apply scalar_degenerate];
        lia.
    + intros k [b Hb]. rewrite lookup_empty in Hb. discriminate.
    + intros Hw Hh. lia.
Qed.

(** C9 (as amended). The entry point.  If any of the three buffer
    addresses is null the call returns a null array; its only effect is
    the error log: no native buffer is allocated (hence none written) and
    no plane is consulted.  If the three addresses are non-null, the size
    [width * height * 3] lies in [0, 2147483647] (it is not negative and
    fits the 32-bit [int rgbSize]) and the frame is addressable, the call
    allocates [width * height * 3] bytes, runs the conversion into them
    and returns an array of [width * height * 3] bytes, the bytes of that
    buffer; for [width, height >= 0] the conversion has written every one
    of them. *)
Theorem jni_entry_point (USE_NEON : bool)
    (yBuffer uBuffer vBuffer : option (gmap Z byte))
    (width height yRowStride uvRowStride uvPixelStride : Z) :
  (yBuffer = None \/ uBuffer = None \/ vBuffer = None ->
   convertYuvToRgb USE_NEON yBuffer uBuffer vBuffer width height yRowStride
     uvRowStride uvPixelStride
   = jni_returns {| jni_result := None;
                    jni_effects := [LOGE "Error: buffers inválidos"];
                    jni_buffer := None |}) /\
  (forall yPlane uPlane vPlane,
     yBuffer = Some yPlane -> uBuffer = Some uPlane -> vBuffer = Some vPlane ->
     0 <= width * height * 3 <= 2147483647 ->
     frame_readable yPlane uPlane vPlane width height yRowStride uvRowStride
       uvPixelStride ->
     exists rgbOutput result,
       convertYuv420ToRgb yPlane uPlane vPlane width height yRowStride
         uvRowStride uvPixelStride USE_NEON ∅ = Some rgbOutput /\
       convertYuvToRgb USE_NEON yBuffer uBuffer vBuffer width height
         yRowStride uvRowStride uvPixelStride
       = jni_returns
           {| jni_result := Some result;
              jni_effects := [new_uint8_array (width * height * 3);
                              NewByteArray (width * height * 3);
                              SetByteArrayRegion 0 (width * height * 3);
                              delete_array];
              jni_buffer := Some rgbOutput |} /\
       length result = Z.to_nat (width * height * 3) /\
       (forall k, 0 <= k < width * height * 3 ->
          result !! Z.to_nat k = Some (rgbOutput !! k)) /\
       (0 <= width -> 0 <= height ->
        forall k, 0 <= k < width * height * 3 -> is_Some (rgbOutput !! k))).
Proof.
  split.
  - intros Hnull. unfold convertYuvToRgb.
    destruct yBuffer, uBuffer, vBuffer; try reflexivity.
    destruct Hnull as [?|[?|?]]; discriminate.
  - intros yPlane uPlane vPlane -> -> -> Hsize Hread.
    destruct (dispatch_fresh USE_NEON yPlane uPlane vPlane width height
                yRowStride uvRowStride uvPixelStride ltac:(lia) Hread)
      as (rgbOutput & Hrun & Hdom & Hcov).
    exists rgbOutput,
      ((fun k => rgbOutput !! k) <$> seqZ 0 (width * height * 3)).
    split; [exact Hrun|].
    split; [apply jni_run; assumption|].
    split; [rewrite length_fmap; apply length_seqZ|].
    split; [|exact Hcov].
    intros k Hk. rewrite list_lookup_fmap, lookup_seqZ_lt by lia.
    simpl. do 2 f_equal. lia.
Qed.

(** C9, counterexample: non-null buffers, an addressable 1 x 715827883
    frame (zero strides, one-byte planes).  [width * height * 3] is
    2147483649; the 32-bit [rgbSize] is -2147483647, [new] throws and no
    array is returned. *)
Lemma jni_size_overflow_counterexample :
  frame_readable (packed [0]) (packed [0]) (packed [0]) 1 715827883 0 0 0 /\
  1 * 715827883 * 3 = 2147483649 /\
  convertYuvToRgb true (Some (packed [0])) (Some (packed [0]))
    (Some (packed [0])) 1 715827883 0 0 0
  = jni_throws [new_uint8_array (-2147483647)] /\
  jni_array (convertYuvToRgb true (Some (packed [0])) (Some (packed [0]))
               (Some (packed [0])) 1 715827883 0 0 0) = None.
Proof.
  split; [|split; [reflexivity | split; vm_compute; reflexivity]].
  intros row col Hrow Hcol. assert (col = 0) as -> by lia.
  exists 0, 0, 0. unfold sampled, spec_luma_index, spec_chroma_index.
  rewrite !Z.mul_0_r. repeat split; reflexivity.
Qed.

(** ** Instances on concrete frames *)

Lemma neon_scalar_tolerance_witness :
  frame_readable (ramp_plane 18) (ramp_plane 5) (ramp_plane 5) 9 2 9 5 1 /\
  exists outS outN,
    convertYuv420ToRgbScalar (ramp_plane 18) (ramp_plane 5) (ramp_plane 5)
      9 2 9 5 1 ∅ = Some outS /\
    convertYuv420ToRgbNeon (ramp_plane 18) (ramp_plane 5) (ramp_plane 5)
      9 2 9 5 1 ∅ = Some outN /\
    forall row col, 0 <= row < 2 -> 0 <= col < 9 ->
      exists y u v rS gS bS rN gN bN,
        sampled (ramp_plane 18) (ramp_plane 5) (ramp_plane 5) 9 5 1
          row col y u v /\
        load outS (spec_rgb_offset 9 row col 0) = Some rS /\
        load outS (spec_rgb_offset 9 row col 1) = Some gS /\
        load outS (spec_rgb_offset 9 row col 2) = Some bS /\
        load outN (spec_rgb_offset 9 row col 0) = Some rN /\
        load outN (spec_rgb_offset 9 row col 1) = Some gN /\
        load outN (spec_rgb_offset 9 row col 2) = Some bN /\
        Z.abs (gN - gS) <= 3 /\
        (in_int16 (lane_product 359 v) -> Z.abs (rN - rS) <= 2) /\
        (in_int16 (lane_product 454 u) -> Z.abs (bN - bS) <= 2).
Proof.
  assert (H : frame_readable (ramp_plane 18) (ramp_plane 5) (ramp_plane 5)
                9 2 9 5 1)
    by (apply frame_readableb_spec; vm_compute; reflexivity).
  split; [exact H|].
  exact (neon_scalar_tolerance _ _ _ _ _ _ _ _ ∅ H).
Defined.

(** A 16x1 frame with one overflowing chroma sample (V = 255 under the
    first two pixels): there G is 10 in both paths while R is 255 in the
    scalar path and 22 in the NEON path; at every other pixel the three
    channels are within 2. *)
Example tolerance_with_one_overflowing_sample :
  let yPlane := packed (replicate 16 100) in
  let uPlane := packed (replicate 8 128) in
  let vPlane := packed (255 :: replicate 7 121) in
  match convertYuv420ToRgbScalar yPlane uPlane vPlane 16 1 16 8 1 ∅,
        convertYuv420ToRgbNeon yPlane uPlane vPlane 16 1 16 8 1 ∅ with
  | Some outS, Some outN =>
      (load outS 0, load outN 0) = (Some 255, Some 22) /\
      (load outS 1, load outN 1) = (Some 10, Some 10) /\
      forallb (fun k =>
        match load outS k, load outN k with
        | Some a, Some b => Z.abs (b - a) <=? 2
        | _, _ => false
        end) (seqZ 6 42) = true
  | _, _ => False
  end.
Proof. vm_compute. repeat split. Qed.

Lemma black_point_unscaled_witness :
  frame_samples (packed [16; 16; 16; 16]) (packed [128]) (packed [128])
    2 2 2 1 1 (fun y u v => y = 16 /\ u = 128 /\ v = 128) /\
  exists out',
    convertYuv420ToRgb (packed [16; 16; 16; 16]) (packed [128]) (packed [128])
      2 2 2 1 1 true ∅ = Some out' /\
    forall k, 0 <= k < 12 -> load out' k = Some 16.
Proof.
  assert (H : frame_samples (packed [16; 16; 16; 16]) (packed [128])
                (packed [128]) 2 2 2 1 1
                (fun y u v => y = 16 /\ u = 128 /\ v = 128)).
  { apply (frame_samplesb_spec _ _ _ _ _ _ _ _ _
             (fun y u v => (y =? 16) && (u =? 128) && (v =? 128))).
    - intros y u v. rewrite !andb_true_iff, !Z.eqb_eq. tauto.
    - vm_compute. reflexivity. }
  split; [exact H|].
  exact (black_point_unscaled _ _ _ _ _ _ true ∅ H).
Defined.

(** C4, counterexample: on the tightly packed 2x2 black-point frame both
    paths store 16, not 0, in the first output byte. *)
Lemma black_point_counterexample :
  (exists out',
     convertYuv420ToRgb (packed [16; 16; 16; 16]) (packed [128])
       (packed [128]) 2 2 2 1 1 false ∅ = Some out' /\
     load out' 0 = Some 16 /\ load out' 0 <> Some 0) /\
  (exists out',
     convertYuv420ToRgb (packed [16; 16; 16; 16]) (packed [128])
       (packed [128]) 2 2 2 1 1 true ∅ = Some out' /\
     load out' 0 = Some 16 /\ load out' 0 <> Some 0).
Proof.
  split; eexists; (split; [vm_compute; reflexivity|]);
    (split; [vm_compute; reflexivity | vm_compute; discriminate]).
Qed.

Lemma output_saturated_witness :
  frame_readable (ramp_plane 18) (ramp_plane 5) (ramp_plane 5) 9 2 9 5 1 /\
  exists out',
    convertYuv420ToRgb (ramp_plane 18) (ramp_plane 5) (ramp_plane 5)
      9 2 9 5 1 true ∅ = Some out' /\
    (forall k b, out' !! k = Some b -> 0 <= u8_to_Z b <= 255) /\
    (forall row col c, 0 <= row < 2 -> 0 <= col < 9 -> 0 <= c < 3 ->
       exists y u v,
         sampled (ramp_plane 18) (ramp_plane 5) (ramp_plane 5) 9 5 1
           row col y u v /\
         let x := path_channel_value true 9 col y u v c in
         load out' (spec_rgb_offset 9 row col c)
         = Some (if x <? 0 then 0 else if 255 <? x then 255 else x)).
Proof.
  assert (H : frame_readable (ramp_plane 18) (ramp_plane 5) (ramp_plane 5)
                9 2 9 5 1)
    by (apply frame_readableb_spec; vm_compute; reflexivity).
  split; [exact H|].
  exact (output_saturated _ _ _ _ _ _ _ _ true ∅ H).
Defined.

Lemma neon_covers_output_witness :
  0 <= 9 /\ 0 <= 2 /\
  frame_readable (ramp_plane 18) (ramp_plane 5) (ramp_plane 5) 9 2 9 5 1 /\
  exists out',
    convertYuv420ToRgbNeon (ramp_plane 18) (ramp_plane 5) (ramp_plane 5)
      9 2 9 5 1 ∅ = Some out' /\
    forall k, is_Some (out' !! k) <-> 0 <= k < 9 * 2 * 3.
Proof.
  assert (H1 : 0 <= 9) by lia. assert (H2 : 0 <= 2) by lia.
  assert (H3 : frame_readable (ramp_plane 18) (ramp_plane 5) (ramp_plane 5)
                 9 2 9 5 1)
    by (apply frame_readableb_spec; vm_compute; reflexivity).
  split; [exact H1|]. split; [exact H2|]. split; [exact H3|].
  destruct (neon_covers_output _ _ _ _ _ _ _ _ ∅ H1 H2 H3)
    as (out' & Hrun & _ & _ & Hdom).
  exists out'. split; [exact Hrun|]. exact (Hdom eq_refl).
Defined.

(** The widths the specification singles out. *)
Example neon_populates_odd_widths :
  forallb (fun width => neon_populates width 3) [1; 7; 9; 17] = true.
Proof. vm_compute. reflexivity. Qed.

Lemma stride_independence_witness :
  same_image
    (packed [10; 20; 30; 40; 50; 60]) (packed [90; 200]) (packed [240; 16])
    (packed [10; 20; 30; 99; 99; 40; 50; 60; 99; 99]) (packed [90; 200; 77])
    (packed [240; 16; 77]) 3 2 3 2 5 3 1 /\
  convertYuv420ToRgbNeon
    (packed [10; 20; 30; 40; 50; 60]) (packed [90; 200]) (packed [240; 16])
    3 2 3 2 1 ∅
  = convertYuv420ToRgbNeon
      (packed [10; 20; 30; 99; 99; 40; 50; 60; 99; 99]) (packed [90; 200; 77])
      (packed [240; 16; 77]) 3 2 5 3 1 ∅.
Proof.
  assert (H : same_image
    (packed [10; 20; 30; 40; 50; 60]) (packed [90; 200]) (packed [240; 16])
    (packed [10; 20; 30; 99; 99; 40; 50; 60; 99; 99]) (packed [90; 200; 77])
    (packed [240; 16; 77]) 3 2 3 2 5 3 1)
    by (apply same_imageb_spec; vm_compute; reflexivity).
  split; [exact H|].
  exact (proj1 (proj2 (stride_independence _ _ _ _ _ _ _ _ _ _ _ _ _
                         true ∅ H))).
Defined.

Lemma neutral_chroma_is_gray_witness :
  frame_samples (ramp_plane 18) (packed (replicate 5 128))
    (packed (replicate 5 128)) 9 2 9 5 1 (fun _ u v => u = 128 /\ v = 128) /\
  exists outS outN,
    convertYuv420ToRgbScalar (ramp_plane 18) (packed (replicate 5 128))
      (packed (replicate 5 128)) 9 2 9 5 1 ∅ = Some outS /\
    convertYuv420ToRgbNeon (ramp_plane 18) (packed (replicate 5 128))
      (packed (replicate 5 128)) 9 2 9 5 1 ∅ = Some outN /\
    forall row col c, 0 <= row < 2 -> 0 <= col < 9 -> 0 <= c < 3 ->
      exists y,
        load (ramp_plane 18) (spec_luma_index 9 row col) = Some y /\
        load outS (spec_rgb_offset 9 row col c) = Some y /\
        load outN (spec_rgb_offset 9 row col c) = Some y.
Proof.
  assert (H3 : frame_samples (ramp_plane 18) (packed (replicate 5 128))
                 (packed (replicate 5 128)) 9 2 9 5 1
                 (fun _ u v => u = 128 /\ v = 128)).
  { apply (frame_samplesb_spec _ _ _ _ _ _ _ _ _
             (fun _ u v => (u =? 128) && (v =? 128))).
    - intros y u v. rewrite andb_true_iff, !Z.eqb_eq. tauto.
    - vm_compute. reflexivity. }
  split; [exact H3|].
  exact (neutral_chroma_is_gray _ _ _ _ _ _ _ _ ∅ H3).
Defined.

(** Solid gray and pure white, 8x2, through both paths. *)
Example gray_and_white :
  let gray := packed (replicate 16 128) in
  let white := packed (replicate 16 255) in
  let neutral := packed (replicate 4 128) in
  forallb (fun USE_NEON =>
    match convertYuv420ToRgb gray neutral neutral 8 2 8 4 1 USE_NEON ∅,
          convertYuv420ToRgb white neutral neutral 8 2 8 4 1 USE_NEON ∅ with
    | Some g, Some w =>
        forallb (fun k => bool_decide (load g k = Some 128)
                          && bool_decide (load w k = Some 255))
          (seqZ 0 48)
    | _, _ => false
    end) [false; true] = true.
Proof. vm_compute. reflexivity. Qed.

Lemma jni_entry_point_witness :
  ((@None (gmap Z byte) = None \/
    Some (packed [128]) = None \/ Some (packed [128]) = None) /\
   convertYuvToRgb true None (Some (packed [128])) (Some (packed [128]))
     2 2 2 1 1
   = jni_returns {| jni_result := None;
                    jni_effects := [LOGE "Error: buffers inválidos"];
                    jni_buffer := None |}) /\
  (0 <= 2 * 2 * 3 <= 2147483647 /\
   frame_readable (packed [16; 16; 16; 16]) (packed [128]) (packed [128])
     2 2 2 1 1 /\
   exists rgbOutput result,
     convertYuv420ToRgb (packed [16; 16; 16; 16]) (packed [128])
       (packed [128]) 2 2 2 1 1 true ∅ = Some rgbOutput /\
     convertYuvToRgb true (Some (packed [16; 16; 16; 16]))
       (Some (packed [128])) (Some (packed [128])) 2 2 2 1 1
     = jni_returns
         {| jni_result := Some result;
            jni_effects := [new_uint8_array (2 * 2 * 3);
                            NewByteArray (2 * 2 * 3);
                            SetByteArrayRegion 0 (2 * 2 * 3);
                            delete_array];
            jni_buffer := Some rgbOutput |} /\
     length result = Z.to_nat (2 * 2 * 3) /\
     (forall k, 0 <= k < 2 * 2 * 3 ->
        result !! Z.to_nat k = Some (rgbOutput !! k)) /\
     (0 <= 2 -> 0 <= 2 ->
      forall k, 0 <= k < 2 * 2 * 3 -> is_Some (rgbOutput !! k))).
Proof.
  assert (H : @None (gmap Z byte) = None \/
              Some (packed [128]) = None \/ Some (packed [128]) = None)
    by (left; reflexivity).
  assert (H1 : 0 <= 2 * 2 * 3 <= 2147483647) by lia.
  assert (H2 : frame_readable (packed [16; 16; 16; 16]) (packed [128])
                 (packed [128]) 2 2 2 1 1)
    by (apply frame_readableb_spec; vm_compute; reflexivity).
  split.
  - split; [exact H|].
    exact (proj1 (jni_entry_point true None (Some (packed [128]))
                    (Some (packed [128])) 2 2 2 1 1) H).
  - split; [exact H1|]. split; [exact H2|].
    exact (proj2 (jni_entry_point true (Some (packed [16; 16; 16; 16]))
                    (Some (packed [128])) (Some (packed [128])) 2 2 2 1 1)
             _ _ _ eq_refl eq_refl eq_refl H1 H2).
Defined.

(** The entry point on the 2x2 black-point frame. *)
Example jni_converts_black_point :
  jni_array
    (convertYuvToRgb true (Some (packed [16; 16; 16; 16]))
       (Some (packed [128])) (Some (packed [128])) 2 2 2 1 1)
  = Some (replicate 12 (Some (u8_of_Z 16))).
Proof. vm_compute. reflexivity. Qed.

(* ================================================================== *)
(** * Further properties of the kernel and of the entry point *)
(* ================================================================== *)

(** ** Shared facts *)

Lemma image_region_lookup (yPlane uPlane vPlane : gmap Z byte)
    (width height yRowStride uvRowStride uvPixelStride : Z)
    (pixel : Z -> Z -> Z -> Z -> Z -> byte) (out out' : gmap Z byte) :
  0 <= width -> 0 <= height ->
  frame_readable yPlane uPlane vPlane width height yRowStride uvRowStride
    uvPixelStride ->
  image_written yPlane uPlane vPlane width height yRowStride uvRowStride
    uvPixelStride pixel out out' ->
  forall k, 0 <= k < width * height * 3 ->
    exists row col c y u v,
      0 <= row < height /\ 0 <= col < width /\ 0 <= c < 3 /\
      k = spec_rgb_offset width row col c /\
      sampled yPlane uPlane vPlane yRowStride uvRowStride uvPixelStride
        row col y u v /\
      out' !! k = Some (pixel col y u v c).
Proof.
  intros Hw Hh Hread (Hpix & _) k Hk.
  destruct (rgb_offset_decompose width height k Hw Hh Hk)
    as (row & col & c & Hrow & Hcol & Hc & ->).
  destruct (Hread row col Hrow Hcol) as (y & u & v & Hs & _).
  exists row, col, c, y, u, v. repeat split; try lia; try apply Hs.
  apply (Hpix row col c y u v Hrow Hcol Hc Hs).
Qed.

(** On a readable frame the dispatcher either writes the image (proper
    geometry) or returns the buffer as it was (a negative dimension). *)
Lemma dispatch_cases (yPlane uPlane vPlane : gmap Z byte)
    (width height yRowStride uvRowStride uvPixelStride : Z)
    (USE_NEON : bool) (out : gmap Z byte) :
  frame_readable yPlane uPlane vPlane width height yRowStride uvRowStride
    uvPixelStride ->
  (0 <= width /\ 0 <= height /\
   exists out',
     convertYuv420ToRgb yPlane uPlane vPlane width height yRowStride
       uvRowStride uvPixelStride USE_NEON out = Some out' /\
     image_written yPlane uPlane vPlane width height yRowStride uvRowStride
       uvPixelStride
       (fun col => if USE_NEON then neon_path_pixel width col
                   else scalar_pixel) out out') \/
  ((width < 0 \/ height < 0) /\
   convertYuv420ToRgb yPlane uPlane vPlane width height yRowStride
     uvRowStride uvPixelStride USE_NEON out = Some out).
Proof.
  intros Hread.
  destruct (decide (0 <= width /\ 0 <= height)) as [[Hw Hh]|Hneg].
  - left. split; [exact Hw|]. split; [exact Hh|].
    apply dispatch_image; assumption.
  - right. split; [lia|]. unfold convertYuv420ToRgb.
    destruct USE_NEON; [apply neon_degenerate | apply scalar_degenerate]; lia.
Qed.

Lemma dispatch_defined_readable (yPlane uPlane vPlane : gmap Z byte)
    (width height yRowStride uvRowStride uvPixelStride : Z)
    (USE_NEON : bool) (out : gmap Z byte) :
  is_Some (convertYuv420ToRgb yPlane uPlane vPlane width height yRowStride
             uvRowStride uvPixelStride USE_NEON out) ->
  frame_readable yPlane uPlane vPlane width height yRowStride uvRowStride
    uvPixelStride.
Proof.
  intros Hdef.
  destruct (decide (0 <= width /\ 0 <= height)) as [[Hw Hh]|Hneg].
  - unfold convertYuv420ToRgb in Hdef. destruct USE_NEON.
    + apply (neon_defined_iff _ _ _ _ _ _ _ _ out Hw Hh). exact Hdef.
    + apply (scalar_defined_iff _ _ _ _ _ _ _ _ out Hw Hh). exact Hdef.
  - intros row col Hrow Hcol. lia.
Qed.

(** ** Where the kernel is defined *)

(** X1. The dispatcher (hence either path) is defined exactly on the
    frames in which every pixel has its three samples: the eight-byte
    loads and four-sample chroma loop of the NEON path touch no byte that
    the scalar path does not read, and neither path skips one. *)
Theorem kernel_defined_iff_readable
    (yPlane uPlane vPlane : gmap Z byte)
    (width height yRowStride uvRowStride uvPixelStride : Z)
    (USE_NEON : bool) (out : gmap Z byte) :
  is_Some (convertYuv420ToRgb yPlane uPlane vPlane width height yRowStride
             uvRowStride uvPixelStride USE_NEON out)
  <-> frame_readable yPlane uPlane vPlane width height yRowStride
        uvRowStride uvPixelStride.
Proof.
  split; [apply dispatch_defined_readable|].
  intros Hread.
  destruct (dispatch_cases yPlane uPlane vPlane width height yRowStride
              uvRowStride uvPixelStride USE_NEON out Hread)
    as [(_ & _ & out' & -> & _) | (_ & ->)]; eauto.
Qed.

Lemma plane_coversb_spec (p : gmap Z byte) (n : Z) :
  plane_coversb p n = true -> plane_covers p n.
Proof.
  intros Hb i Hi. unfold plane_coversb in Hb.
  pose proof (forallb_seqZ _ _ _ Hb i ltac:(lia)) as H. cbv beta in H.
  apply bool_decide_eq_true in H. exact H.
Qed.

Lemma sized_planes_readable (yPlane uPlane vPlane : gmap Z byte)
    (width height yRowStride uvRowStride uvPixelStride : Z) :
  0 <= yRowStride -> 0 <= uvRowStride -> 0 <= uvPixelStride ->
  plane_covers yPlane ((height - 1) * yRowStride + width) ->
  plane_covers uPlane ((height - 1) / 2 * uvRowStride
                       + (width - 1) / 2 * uvPixelStride + 1) ->
  plane_covers vPlane ((height - 1) / 2 * uvRowStride
                       + (width - 1) / 2 * uvPixelStride + 1) ->
  frame_readable yPlane uPlane vPlane width height yRowStride uvRowStride
    uvPixelStride.
Proof.
  intros Hys Huvs Huvp HY HU HV row col Hrow Hcol.
  assert (Hr2 : 0 <= row / 2 <= (height - 1) / 2)
    by (split; [apply Z.div_pos; lia | apply Z.div_le_mono; lia]).
  assert (Hc2 : 0 <= col / 2 <= (width - 1) / 2)
    by (split; [apply Z.div_pos; lia | apply Z.div_le_mono; lia]).
  assert (By : 0 <= row * yRowStride + col
               < (height - 1) * yRowStride + width) by nia.
  assert (Buv : 0 <= row / 2 * uvRowStride + col / 2 * uvPixelStride
                < (height - 1) / 2 * uvRowStride
                  + (width - 1) / 2 * uvPixelStride + 1).
  { generalize dependent (row / 2). generalize dependent (col / 2).
    generalize ((height - 1) / 2). generalize ((width - 1) / 2).
    intros. nia. }
  destruct (HY _ By) as [yb Hy]. destruct (HU _ Buv) as [ub Hu].
  destruct (HV _ Buv) as [vb Hv].
  exists (u8_to_Z yb), (u8_to_Z ub), (u8_to_Z vb).
  unfold sampled, load, spec_luma_index, spec_chroma_index.
  rewrite Hy, Hu, Hv. auto.
Qed.

(** X2. Buffer sizes that make a call safe: with non-negative strides, a
    luma plane of [(height - 1) * yRowStride + width] bytes and chroma
    planes of [((height - 1) / 2) * uvRowStride +
    ((width - 1) / 2) * uvPixelStride + 1] bytes are enough for either path
    to run without reading outside a plane. *)
Theorem sized_planes_suffice
    (yPlane uPlane vPlane : gmap Z byte)
    (width height yRowStride uvRowStride uvPixelStride : Z)
    (USE_NEON : bool) (out : gmap Z byte) :
  0 <= yRowStride -> 0 <= uvRowStride -> 0 <= uvPixelStride ->
  plane_covers yPlane ((height - 1) * yRowStride + width) ->
  plane_covers uPlane ((height - 1) / 2 * uvRowStride
                       + (width - 1) / 2 * uvPixelStride + 1) ->
  plane_covers vPlane ((height - 1) / 2 * uvRowStride
                       + (width - 1) / 2 * uvPixelStride + 1) ->
  is_Some (convertYuv420ToRgb yPlane uPlane vPlane width height yRowStride
             uvRowStride uvPixelStride USE_NEON out).
Proof.
  intros Hys Huvs Huvp HY HU HV.
  pose proof (sized_planes_readable _ _ _ _ _ _ _ _ Hys Huvs Huvp HY HU HV)
    as Hread.
  destruct (dispatch_cases yPlane uPlane vPlane width height yRowStride
              uvRowStride uvPixelStride USE_NEON out Hread)
    as [(_ & _ & out' & -> & _) | (_ & ->)]; eauto.
Qed.

(** X3. Those sizes are the least ones: a call on a non-empty image that
    is defined has read the last luma byte, at offset
    [(height - 1) * yRowStride + width - 1], and the last sample of both
    chroma planes. *)
Theorem last_samples_are_read
    (yPlane uPlane vPlane : gmap Z byte)
    (width height yRowStride uvRowStride uvPixelStride : Z)
    (USE_NEON : bool) (out : gmap Z byte) :
  0 < width -> 0 < height ->
  is_Some (convertYuv420ToRgb yPlane uPlane vPlane width height yRowStride
             uvRowStride uvPixelStride USE_NEON out) ->
  is_Some (yPlane !! ((height - 1) * yRowStride + width - 1)) /\
  is_Some (uPlane !! ((height - 1) / 2 * uvRowStride
                      + (width - 1) / 2 * uvPixelStride)) /\
  is_Some (vPlane !! ((height - 1) / 2 * uvRowStride
                      + (width - 1) / 2 * uvPixelStride)).
Proof.
  intros Hw Hh Hdef. apply dispatch_defined_readable in Hdef.
  destruct (Hdef (height - 1) (width - 1) ltac:(lia) ltac:(lia))
    as (y & u & v & (Hy & Hu & Hv) & _).
  unfold load, spec_luma_index, spec_chroma_index in Hy, Hu, Hv.
  replace ((height - 1) * yRowStride + width - 1)
    with ((height - 1) * yRowStride + (width - 1)) by lia.
  destruct (yPlane !! _); [|discriminate].
  destruct (uPlane !! _); [|discriminate].
  destruct (vPlane !! _); [|discriminate]. eauto.
Qed.

(** ** What a call does to the output buffer *)

(** X4. Bounds of the writes: on a frame whose samples are addressable
    either path returns and every offset outside [0, width * height * 3)
    holds what it held before the call (with a negative dimension, every
    offset at all). *)
Theorem no_write_outside_region
    (yPlane uPlane vPlane : gmap Z byte)
    (width height yRowStride uvRowStride uvPixelStride : Z)
    (USE_NEON : bool) (out : gmap Z byte) :
  frame_readable yPlane uPlane vPlane width height yRowStride uvRowStride
    uvPixelStride ->
  exists out',
    convertYuv420ToRgb yPlane uPlane vPlane width height yRowStride
      uvRowStride uvPixelStride USE_NEON out = Some out' /\
    (forall k, k < 0 \/ width * height * 3 <= k -> out' !! k = out !! k) /\
    (width < 0 \/ height < 0 -> out' = out).
Proof.
  intros Hread.
  destruct (dispatch_cases yPlane uPlane vPlane width height yRowStride
              uvRowStride uvPixelStride USE_NEON out Hread)
    as [(Hw & Hh & out' & Hrun & _ & Hframe) | (Hneg & Hrun)].
  - exists out'. split; [exact Hrun|]. split; [exact Hframe|]. lia.
  - exists out. split; [exact Hrun|]. split; reflexivity.
Qed.

(** X5. Pixel locality, and the output buffer is write-only: take two
    calls of the same build on images of the same width and height; the
    planes, strides and initial output buffers may all differ.  Wherever
    the two frames have the same three samples at a pixel, the two results
    hold the same three bytes for that pixel. *)
Theorem pixel_locality
    (yPlane1 uPlane1 vPlane1 yPlane2 uPlane2 vPlane2 : gmap Z byte)
    (width height : Z)
    (yRowStride1 uvRowStride1 uvPixelStride1 : Z)
    (yRowStride2 uvRowStride2 uvPixelStride2 : Z)
    (USE_NEON : bool) (out1 out2 : gmap Z byte) :
  frame_readable yPlane1 uPlane1 vPlane1 width height yRowStride1
    uvRowStride1 uvPixelStride1 ->
  frame_readable yPlane2 uPlane2 vPlane2 width height yRowStride2
    uvRowStride2 uvPixelStride2 ->
  exists out1' out2',
    convertYuv420ToRgb yPlane1 uPlane1 vPlane1 width height yRowStride1
      uvRowStride1 uvPixelStride1 USE_NEON out1 = Some out1' /\
    convertYuv420ToRgb yPlane2 uPlane2 vPlane2 width height yRowStride2
      uvRowStride2 uvPixelStride2 USE_NEON out2 = Some out2' /\
    forall row col y u v, 0 <= row < height -> 0 <= col < width ->
      sampled yPlane1 uPlane1 vPlane1 yRowStride1 uvRowStride1 uvPixelStride1
        row col y u v ->
      sampled yPlane2 uPlane2 vPlane2 yRowStride2 uvRowStride2 uvPixelStride2
        row col y u v ->
      forall c, 0 <= c < 3 ->
        is_Some (out1' !! spec_rgb_offset width row col c) /\
        out1' !! spec_rgb_offset width row col c
        = out2' !! spec_rgb_offset width row col c.
Proof.
  intros Hread1 Hread2.
  destruct (dispatch_cases yPlane1 uPlane1 vPlane1 width height yRowStride1
              uvRowStride1 uvPixelStride1 USE_NEON out1 Hread1)
    as [(Hw & Hh & out1' & Hrun1 & Hpix1 & _) | (Hneg & Hrun1)].
  - destruct (dispatch_image yPlane2 uPlane2 vPlane2 width height yRowStride2
                uvRowStride2 uvPixelStride2 USE_NEON out2 Hw Hh Hread2)
      as (out2' & Hrun2 & Hpix2 & _).
    exists out1', out2'. split; [exact Hrun1|]. split; [exact Hrun2|].
    intros row col y u v Hrow Hcol Hs1 Hs2 c Hc.
    rewrite (Hpix1 row col c y u v Hrow Hcol Hc Hs1).
    rewrite (Hpix2 row col c y u v Hrow Hcol Hc Hs2). eauto.
  - destruct (dispatch_cases yPlane2 uPlane2 vPlane2 width height yRowStride2
                uvRowStride2 uvPixelStride2 USE_NEON out2 Hread2)
      as [(Hw & Hh & _) | (_ & Hrun2)]; [lia|].
    exists out1, out2. split; [exact Hrun1|]. split; [exact Hrun2|].
    intros row col y u v Hrow Hcol. lia.
Qed.

(** X6. Idempotence: converting again into the buffer a call produced
    leaves that buffer as it is. *)
Theorem conversion_idempotent
    (yPlane uPlane vPlane : gmap Z byte)
    (width height yRowStride uvRowStride uvPixelStride : Z)
    (USE_NEON : bool) (out : gmap Z byte) :
  frame_readable yPlane uPlane vPlane width height yRowStride uvRowStride
    uvPixelStride ->
  exists out',
    convertYuv420ToRgb yPlane uPlane vPlane width height yRowStride
      uvRowStride uvPixelStride USE_NEON out = Some out' /\
    convertYuv420ToRgb yPlane uPlane vPlane width height yRowStride
      uvRowStride uvPixelStride USE_NEON out' = Some out'.
Proof.
  intros Hread.
  destruct (dispatch_cases yPlane uPlane vPlane width height yRowStride
              uvRowStride uvPixelStride USE_NEON out Hread)
    as [(Hw & Hh & out1 & Hrun1 & Himg1) | (Hneg & Hrun)].
  - destruct (dispatch_image yPlane uPlane vPlane width height yRowStride
                uvRowStride uvPixelStride USE_NEON out1 Hw Hh Hread)
      as (out2 & Hrun2 & Himg2).
    exists out1. split; [exact Hrun1|]. rewrite Hrun2. f_equal.
    apply map_eq. intros k.
    destruct (decide (0 <= k < width * height * 3)) as [Hin|Hout].
    + destruct (image_region_lookup _ _ _ _ _ _ _ _ _ _ _ Hw Hh Hread Himg2
                  k Hin)
        as (row & col & c & y & u & v & Hrow & Hcol & Hc & -> & Hs & ->).
      symmetry. apply (proj1 Himg1 row col c y u v Hrow Hcol Hc Hs).
    + apply (proj2 Himg2). lia.
  - exists out. split; [exact Hrun|].
    unfold convertYuv420ToRgb.
    destruct USE_NEON; [apply neon_degenerate | apply scalar_degenerate]; lia.
Qed.

(** X7. Chroma subsampling: two pixels of the same 2x2 block
    ([row / 2] and [col / 2] equal) that hold the same luma byte come out
    as the same three bytes, in either path. *)
Theorem chroma_block_shared
    (yPlane uPlane vPlane : gmap Z byte)
    (width height yRowStride uvRowStride uvPixelStride : Z)
    (USE_NEON : bool) (out : gmap Z byte) :
  frame_readable yPlane uPlane vPlane width height yRowStride uvRowStride
    uvPixelStride ->
  exists out',
    convertYuv420ToRgb yPlane uPlane vPlane width height yRowStride
      uvRowStride uvPixelStride USE_NEON out = Some out' /\
    forall row col row' col',
      0 <= row < height -> 0 <= col < width ->
      0 <= row' < height -> 0 <= col' < width ->
      row / 2 = row' / 2 -> col / 2 = col' / 2 ->
      yPlane !! spec_luma_index yRowStride row col
        = yPlane !! spec_luma_index yRowStride row' col' ->
      forall c, 0 <= c < 3 ->
        is_Some (out' !! spec_rgb_offset width row col c) /\
        out' !! spec_rgb_offset width row col c
        = out' !! spec_rgb_offset width row' col' c.
Proof.
  intros Hread.
  destruct (dispatch_cases yPlane uPlane vPlane width height yRowStride
              uvRowStride uvPixelStride USE_NEON out Hread)
    as [(Hw & Hh & out' & Hrun & Hpix & _) | (Hneg & Hrun)].
  - exists out'. split; [exact Hrun|].
    intros row col row' col' Hrow Hcol Hrow' Hcol' Hr2 Hc2 Hy c Hc.
    destruct (Hread row col Hrow Hcol) as (y & u & v & Hs & _).
    assert (Hs' : sampled yPlane uPlane vPlane yRowStride uvRowStride
                    uvPixelStride row' col' y u v).
    { destruct Hs as (Ly & Lu & Lv). unfold sampled, load in *.
      unfold spec_chroma_index in *. rewrite <- Hy, <- Hr2, <- Hc2. auto. }
    rewrite (Hpix row col c y u v Hrow Hcol Hc Hs).
    rewrite (Hpix row' col' c y u v Hrow' Hcol' Hc Hs').
    split; [eauto|].
    destruct USE_NEON; [|reflexivity]. unfold neon_path_pixel.
    assert (Hside : col < 8 * (width / 8) <-> col' < 8 * (width / 8))
      by (Z.div_mod_to_equations; lia).
    do 2 case_bool_decide; tauto || reflexivity.
  - exists out. split; [exact Hrun|]. intros row col row' col' Hrow Hcol. lia.
Qed.

(** ** The NEON path against the scalar path, exactly *)

(** X8. Narrow images: for [width < 8] the eight-pixel loop never runs and
    the NEON path is the scalar path, result for result (also where
    neither is defined). *)
Theorem neon_is_scalar_below_8
    (yPlane uPlane vPlane : gmap Z byte)
    (width height yRowStride uvRowStride uvPixelStride : Z)
    (out : gmap Z byte) :
  width < 8 ->
  convertYuv420ToRgbNeon yPlane uPlane vPlane width height yRowStride
    uvRowStride uvPixelStride out
  = convertYuv420ToRgbScalar yPlane uPlane vPlane width height yRowStride
      uvRowStride uvPixelStride out.
Proof.
  intros Hw8.
  destruct (decide (0 <= width /\ 0 <= height)) as [[Hw Hh]|Hneg];
    [|rewrite neon_degenerate, scalar_degenerate by lia; reflexivity].
  destruct (convertYuv420ToRgbScalar _ _ _ _ _ _ _ _ _) as [outS|] eqn:ES.
  - assert (Hread : frame_readable yPlane uPlane vPlane width height
                      yRowStride uvRowStride uvPixelStride)
      by (apply (scalar_defined_iff _ _ _ _ _ _ _ _ out Hw Hh); eauto).
    destruct (scalar_image yPlane uPlane vPlane width height yRowStride
                uvRowStride uvPixelStride out Hw Hh Hread)
      as (outS' & HrunS & HimgS).
    assert (outS' = outS) as -> by congruence.
    destruct (neon_image yPlane uPlane vPlane width height yRowStride
                uvRowStride uvPixelStride out Hw Hh Hread)
      as (outN & -> & HimgN).
    f_equal. apply map_eq. intros k.
    destruct (decide (0 <= k < width * height * 3)) as [Hin|Hout].
    + destruct (image_region_lookup _ _ _ _ _ _ _ _ _ _ _ Hw Hh Hread HimgN
                  k Hin)
        as (row & col & c & y & u & v & Hrow & Hcol & Hc & -> & Hs & ->).
      rewrite (proj1 HimgS row col c y u v Hrow Hcol Hc Hs).
      unfold neon_path_pixel.
      rewrite bool_decide_eq_false_2 by (Z.div_mod_to_equations; lia).
      reflexivity.
    + rewrite (proj2 HimgN), (proj2 HimgS) by lia. reflexivity.
  - destruct (convertYuv420ToRgbNeon _ _ _ _ _ _ _ _ _) as [outN|] eqn:EN;
      [|reflexivity].
    assert (Hread : frame_readable yPlane uPlane vPlane width height
                      yRowStride uvRowStride uvPixelStride)
      by (apply (neon_defined_iff _ _ _ _ _ _ _ _ out Hw Hh); eauto).
    apply (scalar_defined_iff _ _ _ _ _ _ _ _ out Hw Hh) in Hread.
    rewrite ES in Hread. destruct Hread as [? ?]. discriminate.
Qed.

(** X9. Trailing columns: in every row the columns from
    [8 * (width / 8)] on, which the NEON path leaves to its scalar loop,
    hold exactly the bytes the scalar path stores there. *)
Theorem neon_tail_matches_scalar
    (yPlane uPlane vPlane : gmap Z byte)
    (width height yRowStride uvRowStride uvPixelStride : Z)
    (out : gmap Z byte) :
  frame_readable yPlane uPlane vPlane width height yRowStride uvRowStride
    uvPixelStride ->
  exists outS outN,
    convertYuv420ToRgbScalar yPlane uPlane vPlane width height yRowStride
      uvRowStride uvPixelStride out = Some outS /\
    convertYuv420ToRgbNeon yPlane uPlane vPlane width height yRowStride
      uvRowStride uvPixelStride out = Some outN /\
    forall row col c,
      0 <= row < height -> 0 <= col < width -> 8 * (width / 8) <= col ->
      0 <= c < 3 ->
      is_Some (outS !! spec_rgb_offset width row col c) /\
      outN !! spec_rgb_offset width row col c
      = outS !! spec_rgb_offset width row col c.
Proof.
  intros Hread.
  destruct (decide (0 <= width /\ 0 <= height)) as [[Hw Hh]|Hneg].
  - destruct (scalar_image yPlane uPlane vPlane width height yRowStride
                uvRowStride uvPixelStride out Hw Hh Hread)
      as (outS & HrunS & HpixS & _).
    destruct (neon_image yPlane uPlane vPlane width height yRowStride
                uvRowStride uvPixelStride out Hw Hh Hread)
      as (outN & HrunN & HpixN & _).
    exists outS, outN. split; [exact HrunS|]. split; [exact HrunN|].
    intros row col c Hrow Hcol0 Hcol Hc.
    destruct (Hread row col Hrow Hcol0) as (y & u & v & Hs & _).
    rewrite (HpixS row col c y u v Hrow Hcol0 Hc Hs).
    rewrite (HpixN row col c y u v Hrow Hcol0 Hc Hs).
    split; [eauto|]. unfold neon_path_pixel.
    rewrite bool_decide_eq_false_2 by lia. reflexivity.
  - exists out, out.
    split; [apply scalar_degenerate; lia|].
    split; [apply neon_degenerate; lia|].
    intros row col c Hrow Hcol. lia.
Qed.

(** ** What the lanes compute *)

Lemma lane_contrib_table :
  forallb (fun k =>
    forallb (fun c => lane_contrib k c =? q8_wrapped k c) (seqZ 0 256))
    [359; 88; 183; 454] = true.
Proof. vm_compute. reflexivity. Qed.

Lemma lane_contrib_q8 (c : Z) :
  0 <= c < 256 ->
  lane_contrib 359 c = q8_wrapped 359 c /\
  lane_contrib 88 c = q8 88 c /\
  lane_contrib 183 c = q8 183 c /\
  lane_contrib 454 c = q8_wrapped 454 c.
Proof.
  intros Hc. pose proof lane_contrib_table as T.
  cbn [forallb] in T. rewrite !andb_true_iff in T.
  destruct T as (T1 & T2 & T3 & T4 & _).
  pose proof (forallb_seqZ _ _ _ T1 c ltac:(lia)) as H1.
  pose proof (forallb_seqZ _ _ _ T2 c ltac:(lia)) as H2.
  pose proof (forallb_seqZ _ _ _ T3 c ltac:(lia)) as H3.
  pose proof (forallb_seqZ _ _ _ T4 c ltac:(lia)) as H4.
  cbv beta in H1, H2, H3, H4. rewrite Z.eqb_eq in H1, H2, H3, H4.
  assert (Hno : forall k, (k = 88 \/ k = 183) -> q8_wrapped k c = q8 k c).
  { intros k Hk. unfold q8_wrapped.
    rewrite (proj2 (Z.ltb_ge _ _)) by lia.
    rewrite (proj2 (Z.ltb_ge _ _)) by lia. lia. }
  rewrite Hno in H2 by auto. rewrite Hno in H3 by auto. auto.
Qed.

Lemma q8_wrapped_in_range (k c : Z) :
  in_int16 (lane_product k c) -> q8_wrapped k c = q8 k c.
Proof.
  unfold in_int16, lane_product, q8_wrapped. intros H.
  rewrite (proj2 (Z.ltb_ge _ _)) by lia.
  rewrite (proj2 (Z.ltb_ge _ _)) by lia. lia.
Qed.

(** X10. The eight-pixel loop, pixel by pixel, on every input: for a
    column below [8 * (width / 8)] the NEON path stores
    G = sat (Y - q8 88 U - q8 183 V), the Q8 formula, always; and
    R = sat (Y + q8 359 V), B = sat (Y + q8 454 U) with the contribution
    shifted by 256 downward when the 16-bit product overflowed upward
    and by 256 upward when it overflowed downward; without overflow
    they are the Q8 formula too. *)
Theorem neon_per_pixel
    (yPlane uPlane vPlane : gmap Z byte)
    (width height yRowStride uvRowStride uvPixelStride : Z)
    (out : gmap Z byte) :
  frame_readable yPlane uPlane vPlane width height yRowStride uvRowStride
    uvPixelStride ->
  exists out',
    convertYuv420ToRgbNeon yPlane uPlane vPlane width height yRowStride
      uvRowStride uvPixelStride out = Some out' /\
    forall row col,
      0 <= row < height -> 0 <= col < width -> col < 8 * (width / 8) ->
      exists y u v,
        sampled yPlane uPlane vPlane yRowStride uvRowStride uvPixelStride
          row col y u v /\
        load out' (spec_rgb_offset width row col 0)
          = Some (spec_saturate (y + q8_wrapped 359 v)) /\
        load out' (spec_rgb_offset width row col 1)
          = Some (spec_saturate (y - q8 88 u - q8 183 v)) /\
        load out' (spec_rgb_offset width row col 2)
          = Some (spec_saturate (y + q8_wrapped 454 u)) /\
        (in_int16 (lane_product 359 v) -> q8_wrapped 359 v = q8 359 v) /\
        (in_int16 (lane_product 454 u) -> q8_wrapped 454 u = q8 454 u).
Proof.
  intros Hread.
  destruct (decide (0 <= width /\ 0 <= height)) as [[Hw Hh]|Hneg].
  - destruct (neon_image yPlane uPlane vPlane width height yRowStride
                uvRowStride uvPixelStride out Hw Hh Hread)
      as (out' & Hrun & Hpix & _).
    exists out'. split; [exact Hrun|].
    intros row col Hrow Hcol Hlane.
    destruct (Hread row col Hrow Hcol) as (y & u & v & Hs & _).
    destruct (sampled_bytes _ _ _ _ _ _ _ _ _ _ _ Hs) as (By & Bu & Bv).
    exists y, u, v. split; [exact Hs|].
    pose proof (Hpix row col 0 y u v Hrow Hcol ltac:(lia) Hs) as P0.
    pose proof (Hpix row col 1 y u v Hrow Hcol ltac:(lia) Hs) as P1.
    pose proof (Hpix row col 2 y u v Hrow Hcol ltac:(lia) Hs) as P2.
    unfold neon_path_pixel in P0, P1, P2.
    rewrite bool_decide_eq_true_2 in P0, P1, P2 by exact Hlane.
    apply load_lookup in P0, P1, P2.
    rewrite neon_pixel_saturates in P0, P1, P2.
    cbv [channel_value Z.eqb Pos.eqb] in P0, P1, P2.
    destruct (neon_channels_no_wrap y u v By) as (ER & EG & EB).
    destruct (lane_contrib_q8 u Bu) as (_ & U88 & _ & U454).
    destruct (lane_contrib_q8 v Bv) as (V359 & _ & V183 & _).
    rewrite ER, V359 in P0. rewrite EG, U88, V183 in P1.
    rewrite EB, U454 in P2.
    repeat split; try assumption; apply q8_wrapped_in_range.
  - exists out. split; [apply neon_degenerate; lia|].
    intros row col Hrow Hcol. lia.
Qed.

Lemma lane_half_range_table :
  forallb (fun c =>
    let k := c - 128 in
    (negb (c <=? 219)
      || ((spec_trunc 1402 1000 k <=? lane_contrib 359 c)
          && (lane_contrib 359 c <=? spec_trunc 1402 1000 k + 1)))
    && (spec_trunc 344136 1000000 k - 1 <=? lane_contrib 88 c)
    && (lane_contrib 88 c <=? spec_trunc 344136 1000000 k)
    && (spec_trunc 714136 1000000 k <=? lane_contrib 183 c)
    && (lane_contrib 183 c <=? spec_trunc 714136 1000000 k + 1)
    && (negb (c <=? 200)
      || ((spec_trunc 1772 1000 k <=? lane_contrib 454 c)
          && (lane_contrib 454 c <=? spec_trunc 1772 1000 k + 1))))
    (seqZ 128 128) = true.
Proof. vm_compute. reflexivity. Qed.

Lemma pixel_tolerance_half_range (width col y u v c : Z) :
  0 <= y < 256 -> 128 <= u <= 200 -> 128 <= v <= 219 -> 0 <= c < 3 ->
  Z.abs (u8_to_Z (neon_path_pixel width col y u v c)
         - u8_to_Z (scalar_pixel y u v c)) <= 1.
Proof.
  intros Hy Hu Hv Hc. unfold neon_path_pixel.
  case_bool_decide as Hlane; [|rewrite Z.sub_diag; simpl; lia].
  rewrite neon_pixel_saturates, scalar_pixel_saturates.
  apply spec_saturate_lipschitz.
  destruct (neon_channels_no_wrap y u v Hy) as (-> & -> & ->).
  unfold scalar_r, scalar_g, scalar_b.
  destruct (scalar_products_exact (u - 128) ltac:(lia)) as (_ & Eu2 & _ & Eu4).
  destruct (scalar_products_exact (v - 128) ltac:(lia)) as (Ev1 & _ & Ev3 & _).
  rewrite Eu2, Eu4, Ev1, Ev3.
  pose proof (forallb_seqZ _ _ _ lane_half_range_table u ltac:(lia)) as Tu.
  pose proof (forallb_seqZ _ _ _ lane_half_range_table v ltac:(lia)) as Tv.
  cbv beta zeta in Tu, Tv.
  rewrite !andb_true_iff, !orb_true_iff, !negb_true_iff, !andb_true_iff,
    !Z.leb_le, !Z.leb_gt in Tu, Tv.
  split_channel c; cbv [channel_value Z.eqb Pos.eqb]; lia.
Qed.

(** X11. Where the bound of 1 does hold: on frames whose sampled chroma
    is not below neutral and does not overflow the lanes
    (128 <= U <= 200 and 128 <= V <= 219) every output byte of the NEON
    path is within 1 of the scalar path's byte. *)
Theorem neon_scalar_within_1_upper_chroma
    (yPlane uPlane vPlane : gmap Z byte)
    (width height yRowStride uvRowStride uvPixelStride : Z)
    (out : gmap Z byte) :
  0 <= width -> 0 <= height ->
  frame_samples yPlane uPlane vPlane width height yRowStride uvRowStride
    uvPixelStride
    (fun _ u v => 128 <= u <= 200 /\ 128 <= v <= 219) ->
  exists outS outN,
    convertYuv420ToRgbScalar yPlane uPlane vPlane width height yRowStride
      uvRowStride uvPixelStride out = Some outS /\
    convertYuv420ToRgbNeon yPlane uPlane vPlane width height yRowStride
      uvRowStride uvPixelStride out = Some outN /\
    within (fun _ => 1) (width * height * 3) outS outN.
Proof.
  intros Hw Hh Hframe.
  assert (Hread : frame_readable yPlane uPlane vPlane width height yRowStride
                    uvRowStride uvPixelStride)
    by (revert Hframe; apply frame_samples_weaken; auto).
  destruct (scalar_image yPlane uPlane vPlane width height yRowStride
              uvRowStride uvPixelStride out Hw Hh Hread)
    as (outS & HrunS & HpixS & _).
  destruct (neon_image yPlane uPlane vPlane width height yRowStride
              uvRowStride uvPixelStride out Hw Hh Hread)
    as (outN & HrunN & HpixN & _).
  exists outS, outN. split; [exact HrunS|]. split; [exact HrunN|].
  intros k Hk.
  destruct (rgb_offset_decompose width height k Hw Hh Hk)
    as (row & col & c & Hrow & Hcol & Hc & ->).
  destruct (Hframe row col Hrow Hcol) as (y & u & v & Hs & Hu & Hv).
  destruct (sampled_bytes _ _ _ _ _ _ _ _ _ _ _ Hs) as (By & _).
  pose proof (HpixS row col c y u v Hrow Hcol Hc Hs) as PS.
  pose proof (HpixN row col c y u v Hrow Hcol Hc Hs) as PN.
  apply load_lookup in PS, PN.
  eexists _, _. split; [exact PS|]. split; [exact PN|].
  apply pixel_tolerance_half_range; assumption.
Qed.

(** ** The clamp *)

(** X12. [clamp255] and the saturating narrow of the NEON path are the
    same function on every lane value; [clamp255] gives back every byte
    unchanged and is monotone. *)
Theorem clamp255_is_the_lane_saturation :
  (forall lanes : list Z, vqmovun_s16 lanes = clamp255 <$> lanes) /\
  (forall b : byte, clamp255 (u8_to_Z b) = b) /\
  (forall x y : Z, x <= y -> u8_to_Z (clamp255 x) <= u8_to_Z (clamp255 y)).
Proof.
  split; [|split].
  - intros lanes. unfold vqmovun_s16. apply list_fmap_ext.
    intros _ x _. unfold clamp255. rewrite Z.gtb_ltb.
    destruct (Z.ltb_spec x 0); [f_equal; lia|].
    destruct (Z.ltb_spec 255 x); f_equal; lia.
  - intros b. pose proof (u8_to_Z_range b) as Hb. unfold clamp255.
    rewrite Z.gtb_ltb.
    rewrite (proj2 (Z.ltb_ge _ _)) by lia.
    rewrite (proj2 (Z.ltb_ge _ _)) by lia. apply u8_of_to_Z.
  - intros x y Hxy. rewrite !clamp255_saturates. unfold spec_saturate.
    destruct (Z.ltb_spec x 0); destruct (Z.ltb_spec 255 x);
      destruct (Z.ltb_spec y 0); destruct (Z.ltb_spec 255 y); lia.
Qed.

(** X13. Luma monotonicity: of two pixels with the same chroma samples
    that are converted by the same loop, the one with the larger luma
    byte gets, channel by channel, a byte at least as large. *)
Theorem luma_monotone
    (yPlane uPlane vPlane : gmap Z byte)
    (width height yRowStride uvRowStride uvPixelStride : Z)
    (USE_NEON : bool) (out : gmap Z byte) :
  frame_readable yPlane uPlane vPlane width height yRowStride uvRowStride
    uvPixelStride ->
  exists out',
    convertYuv420ToRgb yPlane uPlane vPlane width height yRowStride
      uvRowStride uvPixelStride USE_NEON out = Some out' /\
    forall row1 col1 row2 col2 y1 y2 u v,
      0 <= row1 < height -> 0 <= col1 < width ->
      0 <= row2 < height -> 0 <= col2 < width ->
      sampled yPlane uPlane vPlane yRowStride uvRowStride uvPixelStride
        row1 col1 y1 u v ->
      sampled yPlane uPlane vPlane yRowStride uvRowStride uvPixelStride
        row2 col2 y2 u v ->
      (col1 < 8 * (width / 8) <-> col2 < 8 * (width / 8)) ->
      y1 <= y2 ->
      forall c, 0 <= c < 3 ->
        exists a b,
          load out' (spec_rgb_offset width row1 col1 c) = Some a /\
          load out' (spec_rgb_offset width row2 col2 c) = Some b /\
          a <= b.
Proof.
  intros Hread.
  destruct (dispatch_cases yPlane uPlane vPlane width height yRowStride
              uvRowStride uvPixelStride USE_NEON out Hread)
    as [(Hw & Hh & out' & Hrun & Hpix & _) | (Hneg & Hrun)].
  - exists out'. split; [exact Hrun|].
    intros row1 col1 row2 col2 y1 y2 u v Hrow1 Hcol1 Hrow2 Hcol2 Hs1 Hs2
      Hside Hy c Hc.
    destruct (sampled_bytes _ _ _ _ _ _ _ _ _ _ _ Hs1) as (By1 & _).
    destruct (sampled_bytes _ _ _ _ _ _ _ _ _ _ _ Hs2) as (By2 & _).
    pose proof (Hpix row1 col1 c y1 u v Hrow1 Hcol1 Hc Hs1) as P1.
    pose proof (Hpix row2 col2 c y2 u v Hrow2 Hcol2 Hc Hs2) as P2.
    apply load_lookup in P1, P2.
    eexists _, _. split; [exact P1|]. split; [exact P2|].
    rewrite !path_pixel_saturates. unfold path_channel_value.
    assert (Hb : (col1 <? 8 * (width / 8)) = (col2 <? 8 * (width / 8))).
    { destruct (Z.ltb_spec col1 (8 * (width / 8)));
        destruct (Z.ltb_spec col2 (8 * (width / 8))); lia || reflexivity. }
    rewrite Hb.
    assert (Hmono : forall x x', x <= x' ->
              spec_saturate x <= spec_saturate x').
    { intros x x' Hx. unfold spec_saturate.
      destruct (Z.ltb_spec x 0); destruct (Z.ltb_spec 255 x);
        destruct (Z.ltb_spec x' 0); destruct (Z.ltb_spec 255 x'); lia. }
    apply Hmono.
    destruct (neon_channels_no_wrap y1 u v By1) as (-> & -> & ->).
    destruct (neon_channels_no_wrap y2 u v By2) as (-> & -> & ->).
    unfold scalar_r, scalar_g, scalar_b.
    destruct (USE_NEON && _); split_channel c;
      cbv [channel_value Z.eqb Pos.eqb]; lia.
  - exists out. split; [exact Hrun|].
    intros row1 col1 row2 col2 y1 y2 u v Hrow1 Hcol1. lia.
Qed.

(** ** More on the JNI entry point *)

(** X14. Empty image: with non-null buffers and [width = 0] or
    [height = 0] the entry point returns an empty, non-null array; it
    allocates and releases a zero-length buffer and consults no plane
    byte (the planes may be empty). *)
Theorem jni_empty_image (USE_NEON : bool)
    (yPlane uPlane vPlane : gmap Z byte)
    (width height yRowStride uvRowStride uvPixelStride : Z) :
  width = 0 \/ height = 0 ->
  convertYuvToRgb USE_NEON (Some yPlane) (Some uPlane) (Some vPlane)
    width height yRowStride uvRowStride uvPixelStride
  = jni_returns {| jni_result := Some [];
                   jni_effects := [new_uint8_array 0; NewByteArray 0;
                                   SetByteArrayRegion 0 0; delete_array];
                   jni_buffer := Some ∅ |}.
Proof.
  intros Hzero.
  assert (Hrun : convertYuv420ToRgb yPlane uPlane vPlane width height
                   yRowStride uvRowStride uvPixelStride USE_NEON ∅
                 = Some ∅).
  { unfold convertYuv420ToRgb.
    destruct USE_NEON; [apply neon_degenerate | apply scalar_degenerate]; lia. }
  rewrite (jni_run USE_NEON yPlane uPlane vPlane width height yRowStride
             uvRowStride uvPixelStride ∅ ltac:(nia) Hrun).
  - replace (width * height * 3) with 0 by nia. reflexivity.
  - intros k [b Hb]. rewrite lookup_empty in Hb. discriminate.
Qed.

(** X15. The entry point does not validate the geometry.  With
    [width < 0] and [height < 0] (and a size that fits [int]) the size
    [width * height * 3] is positive: the call allocates that many bytes,
    the conversion writes none of them, and the call returns normally an
    array of [width * height * 3] bytes none of which was written,
    whatever the planes hold.  With exactly one negative dimension (and a
    size that fits [int]) the size passed to [new] is negative and [new]
    throws before any conversion. *)
Theorem jni_negative_geometry (USE_NEON : bool)
    (yPlane uPlane vPlane : gmap Z byte)
    (width height yRowStride uvRowStride uvPixelStride : Z) :
  (width < 0 -> height < 0 -> width * height * 3 <= 2147483647 ->
   0 < width * height * 3 /\
   convertYuvToRgb USE_NEON (Some yPlane) (Some uPlane) (Some vPlane)
     width height yRowStride uvRowStride uvPixelStride
   = jni_returns
       {| jni_result :=
            Some (replicate (Z.to_nat (width * height * 3)) None);
          jni_effects := [new_uint8_array (width * height * 3);
                          NewByteArray (width * height * 3);
                          SetByteArrayRegion 0 (width * height * 3);
                          delete_array];
          jni_buffer := Some ∅ |}) /\
  (width * height < 0 -> -2147483648 <= width * height * 3 ->
   convertYuvToRgb USE_NEON (Some yPlane) (Some uPlane) (Some vPlane)
     width height yRowStride uvRowStride uvPixelStride
   = jni_throws [new_uint8_array (width * height * 3)]).
Proof.
  split.
  - intros Hw Hh Hfit.
    assert (Hsize : 0 < width * height * 3) by nia.
    split; [exact Hsize|].
    assert (Hrun : convertYuv420ToRgb yPlane uPlane vPlane width height
                     yRowStride uvRowStride uvPixelStride USE_NEON ∅
                   = Some ∅).
    { unfold convertYuv420ToRgb.
      destruct USE_NEON; [apply neon_degenerate | apply scalar_degenerate];
        lia. }
    rewrite (jni_run USE_NEON yPlane uPlane vPlane width height yRowStride
               uvRowStride uvPixelStride ∅ ltac:(lia) Hrun).
    + do 3 f_equal. rewrite <- (length_seqZ 0 (width * height * 3)).
      apply const_fmap. intros i k _. apply lookup_empty.
    + intros k [b Hb]. rewrite lookup_empty in Hb. discriminate.
  - intros Hneg Hfit. unfold convertYuvToRgb. cbv zeta.
    rewrite rgbSize_exact by lia.
    rewrite (proj2 (Z.ltb_lt _ _)) by lia. reflexivity.
Qed.

(** X16. Stride independence at the entry point: two calls on the same
    logical image return the same outcome (array, effects and released
    buffer), whatever the row strides and the padding bytes are. *)
Theorem jni_stride_independence (USE_NEON : bool)
    (yPlane1 uPlane1 vPlane1 yPlane2 uPlane2 vPlane2 : gmap Z byte)
    (width height yRowStride1 uvRowStride1 yRowStride2 uvRowStride2
     uvPixelStride : Z) :
  same_image yPlane1 uPlane1 vPlane1 yPlane2 uPlane2 vPlane2 width height
    yRowStride1 uvRowStride1 yRowStride2 uvRowStride2 uvPixelStride ->
  convertYuvToRgb USE_NEON (Some yPlane1) (Some uPlane1) (Some vPlane1)
    width height yRowStride1 uvRowStride1 uvPixelStride
  = convertYuvToRgb USE_NEON (Some yPlane2) (Some uPlane2) (Some vPlane2)
      width height yRowStride2 uvRowStride2 uvPixelStride.
Proof.
  intros Hsame. unfold convertYuvToRgb, convertYuv420ToRgb. cbv zeta.
  destruct USE_NEON.
  - rewrite (neon_same _ _ _ _ _ _ _ _ _ _ _ _ _ Hsame ∅). reflexivity.
  - rewrite (scalar_same _ _ _ _ _ _ _ _ _ _ _ _ _ Hsame ∅). reflexivity.
Qed.

(** X17. End to end in the scalar build: on a geometry with
    [width, height >= 0] whose size fits the 32-bit [int rgbSize] and an
    addressable frame, the returned array has [width * height * 3] bytes
    and holds, at indices [(row * width + col) * 3], [+ 1], [+ 2], the
    R, G, B values of pixel [(row, col)]: each decimal coefficient product
    truncated toward zero, the sum saturated to [0, 255]. *)
Theorem jni_scalar_array
    (yPlane uPlane vPlane : gmap Z byte)
    (width height yRowStride uvRowStride uvPixelStride : Z) :
  0 <= width -> 0 <= height -> width * height * 3 <= 2147483647 ->
  frame_readable yPlane uPlane vPlane width height yRowStride uvRowStride
    uvPixelStride ->
  exists outcome result,
    convertYuvToRgb false (Some yPlane) (Some uPlane) (Some vPlane)
      width height yRowStride uvRowStride uvPixelStride
      = jni_returns outcome /\
    jni_result outcome = Some result /\
    length result = Z.to_nat (width * height * 3) /\
    forall row col, 0 <= row < height -> 0 <= col < width ->
      exists y u v,
        sampled yPlane uPlane vPlane yRowStride uvRowStride uvPixelStride
          row col y u v /\
        option_map u8_to_Z <$> result !! Z.to_nat ((row * width + col) * 3)
          = Some (Some (spec_R y v)) /\
        option_map u8_to_Z <$> result !! Z.to_nat ((row * width + col) * 3 + 1)
          = Some (Some (spec_G y u v)) /\
        option_map u8_to_Z <$> result !! Z.to_nat ((row * width + col) * 3 + 2)
          = Some (Some (spec_B y u)).
Proof.
  intros Hw Hh Hsize Hread.
  destruct (dispatch_image yPlane uPlane vPlane width height yRowStride
              uvRowStride uvPixelStride false ∅ Hw Hh Hread)
    as (rgbOutput & Hrun & Himg).
  eexists _, _. split.
  { apply jni_run; [nia | exact Hrun |].
    intros k Hk.
    destruct (decide (0 <= k < width * height * 3)) as [Hin|Hout];
      [exact Hin|].
    rewrite (proj2 Himg), lookup_empty in Hk by lia.
    destruct Hk as [? ?]. discriminate. }
  split; [reflexivity|].
  split; [rewrite length_fmap; apply length_seqZ|].
  intros row col Hrow Hcol.
  destruct (Hread row col Hrow Hcol) as (y & u & v & Hs & _).
  destruct (sampled_bytes _ _ _ _ _ _ _ _ _ _ _ Hs) as (By & Bu & Bv).
  destruct (scalar_channels_spec y u v Bu Bv) as (HR & HG & HB).
  exists y, u, v. split; [exact Hs|].
  assert (Hat : forall c, 0 <= c < 3 ->
            option_map u8_to_Z <$>
              ((fun k => rgbOutput !! k) <$> seqZ 0 (width * height * 3))
              !! Z.to_nat ((row * width + col) * 3 + c)
            = Some (Some (spec_saturate
                            (channel_value (scalar_r y v) (scalar_g y u v)
                               (scalar_b y u) c)))).
  { intros c Hc.
    pose proof (rgb_offset_in_region width height row col c Hrow Hcol Hc)
      as Hin. unfold spec_rgb_offset in Hin.
    rewrite list_lookup_fmap, lookup_seqZ_lt by lia.
    rewrite Z2Nat.id, Z.add_0_l by lia.
    pose proof (proj1 Himg row col c y u v Hrow Hcol Hc Hs) as P.
    unfold spec_rgb_offset in P. simpl. rewrite P. simpl.
    rewrite scalar_pixel_saturates. reflexivity. }
  pose proof (Hat 0 ltac:(lia)) as A0. pose proof (Hat 1 ltac:(lia)) as A1.
  pose proof (Hat 2 ltac:(lia)) as A2.
  rewrite Z.add_0_r in A0.
  cbv [channel_value Z.eqb Pos.eqb] in A0, A1, A2.
  rewrite HR in A0. rewrite HG in A1. rewrite HB in A2. auto.
Qed.

(** ** Instances of the further properties on concrete frames *)

Lemma sized_planes_suffice_witness :
  0 <= 10 /\ 0 <= 5 /\ 0 <= 1 /\
  plane_covers (ramp_plane 19) ((2 - 1) * 10 + 9) /\
  plane_covers (ramp_plane 5) ((2 - 1) / 2 * 5 + (9 - 1) / 2 * 1 + 1) /\
  plane_covers (ramp_plane 5) ((2 - 1) / 2 * 5 + (9 - 1) / 2 * 1 + 1) /\
  is_Some (convertYuv420ToRgb (ramp_plane 19) (ramp_plane 5) (ramp_plane 5)
             9 2 10 5 1 true ∅).
Proof.
  assert (H1 : 0 <= 10) by lia. assert (H2 : 0 <= 5) by lia.
  assert (H3 : 0 <= 1) by lia.
  assert (HY : plane_covers (ramp_plane 19) ((2 - 1) * 10 + 9))
    by (apply plane_coversb_spec; vm_compute; reflexivity).
  assert (HU : plane_covers (ramp_plane 5)
                 ((2 - 1) / 2 * 5 + (9 - 1) / 2 * 1 + 1))
    by (apply plane_coversb_spec; vm_compute; reflexivity).
  repeat (split; [assumption|]).
  exact (sized_planes_suffice _ _ _ 9 2 10 5 1 true ∅ H1 H2 H3 HY HU HU).
Defined.

Lemma last_samples_are_read_witness :
  0 < 9 /\ 0 < 2 /\
  is_Some (convertYuv420ToRgb (ramp_plane 19) (ramp_plane 5) (ramp_plane 5)
             9 2 10 5 1 true ∅) /\
  is_Some (ramp_plane 19 !! ((2 - 1) * 10 + 9 - 1)) /\
  is_Some (ramp_plane 5 !! ((2 - 1) / 2 * 5 + (9 - 1) / 2 * 1)) /\
  is_Some (ramp_plane 5 !! ((2 - 1) / 2 * 5 + (9 - 1) / 2 * 1)).
Proof.
  assert (H1 : 0 < 9) by lia. assert (H2 : 0 < 2) by lia.
  assert (H3 : is_Some (convertYuv420ToRgb (ramp_plane 19) (ramp_plane 5)
                          (ramp_plane 5) 9 2 10 5 1 true ∅))
    by (eexists; vm_compute; reflexivity).
  split; [exact H1|]. split; [exact H2|]. split; [exact H3|].
  exact (last_samples_are_read _ _ _ 9 2 10 5 1 true ∅ H1 H2 H3).
Defined.

Lemma ramp_frame_readable :
  frame_readable (ramp_plane 18) (ramp_plane 5) (ramp_plane 5) 9 2 9 5 1.
Proof. apply frame_readableb_spec. vm_compute. reflexivity. Qed.

Lemma no_write_outside_region_witness :
  frame_readable (ramp_plane 18) (ramp_plane 5) (ramp_plane 5) 9 2 9 5 1 /\
  exists out',
    convertYuv420ToRgb (ramp_plane 18) (ramp_plane 5) (ramp_plane 5)
      9 2 9 5 1 true (packed [1; 2; 3]) = Some out' /\
    (forall k, k < 0 \/ 9 * 2 * 3 <= k -> out' !! k = packed [1; 2; 3] !! k) /\
    (9 < 0 \/ 2 < 0 -> out' = packed [1; 2; 3]).
Proof.
  split; [exact ramp_frame_readable|].
  exact (no_write_outside_region _ _ _ _ _ _ _ _ true (packed [1; 2; 3])
           ramp_frame_readable).
Defined.

Lemma pixel_locality_witness :
  frame_readable (ramp_plane 18) (ramp_plane 5) (ramp_plane 5) 9 2 9 5 1 /\
  frame_readable (ramp_plane 19) (ramp_plane 5) (ramp_plane 5) 9 2 10 5 1 /\
  exists out1' out2',
    convertYuv420ToRgb (ramp_plane 18) (ramp_plane 5) (ramp_plane 5)
      9 2 9 5 1 true ∅ = Some out1' /\
    convertYuv420ToRgb (ramp_plane 19) (ramp_plane 5) (ramp_plane 5)
      9 2 10 5 1 true (packed [1; 2; 3]) = Some out2' /\
    out1' !! spec_rgb_offset 9 0 4 1 = out2' !! spec_rgb_offset 9 0 4 1.
Proof.
  assert (H2 : frame_readable (ramp_plane 19) (ramp_plane 5) (ramp_plane 5)
                 9 2 10 5 1)
    by (apply frame_readableb_spec; vm_compute; reflexivity).
  split; [exact ramp_frame_readable|]. split; [exact H2|].
  destruct (pixel_locality _ _ _ _ _ _ 9 2 9 5 1 10 5 1 true ∅
              (packed [1; 2; 3]) ramp_frame_readable H2)
    as (o1 & o2 & R1 & R2 & Hloc).
  exists o1, o2. split; [exact R1|]. split; [exact R2|].
  apply (Hloc 0 4 159 85 85); try lia;
    repeat split; vm_compute; reflexivity.
Defined.

Lemma conversion_idempotent_witness :
  frame_readable (ramp_plane 18) (ramp_plane 5) (ramp_plane 5) 9 2 9 5 1 /\
  exists out',
    convertYuv420ToRgb (ramp_plane 18) (ramp_plane 5) (ramp_plane 5)
      9 2 9 5 1 true ∅ = Some out' /\
    convertYuv420ToRgb (ramp_plane 18) (ramp_plane 5) (ramp_plane 5)
      9 2 9 5 1 true out' = Some out'.
Proof.
  split; [exact ramp_frame_readable|].
  exact (conversion_idempotent _ _ _ _ _ _ _ _ true ∅ ramp_frame_readable).
Defined.

Lemma chroma_block_shared_witness :
  frame_readable (packed (replicate 18 77)) (ramp_plane 5) (ramp_plane 5)
    9 2 9 5 1 /\
  exists out',
    convertYuv420ToRgb (packed (replicate 18 77)) (ramp_plane 5)
      (ramp_plane 5) 9 2 9 5 1 true ∅ = Some out' /\
    out' !! spec_rgb_offset 9 0 2 0 = out' !! spec_rgb_offset 9 1 3 0.
Proof.
  assert (H : frame_readable (packed (replicate 18 77)) (ramp_plane 5)
                (ramp_plane 5) 9 2 9 5 1)
    by (apply frame_readableb_spec; vm_compute; reflexivity).
  split; [exact H|].
  destruct (chroma_block_shared _ _ _ _ _ _ _ _ true ∅ H)
    as (out' & Hrun & Hblock).
  exists out'. split; [exact Hrun|].
  apply (Hblock 0 2 1 3); try lia; reflexivity.
Defined.

Lemma neon_is_scalar_below_8_witness :
  7 < 8 /\
  convertYuv420ToRgbNeon (ramp_plane 14) (ramp_plane 4) (ramp_plane 4)
    7 2 7 4 1 ∅
  = convertYuv420ToRgbScalar (ramp_plane 14) (ramp_plane 4) (ramp_plane 4)
      7 2 7 4 1 ∅.
Proof.
  assert (H : 7 < 8) by lia. split; [exact H|].
  exact (neon_is_scalar_below_8 _ _ _ 7 2 7 4 1 ∅ H).
Defined.

Lemma neon_tail_matches_scalar_witness :
  frame_readable (ramp_plane 18) (ramp_plane 5) (ramp_plane 5) 9 2 9 5 1 /\
  exists outS outN,
    convertYuv420ToRgbScalar (ramp_plane 18) (ramp_plane 5) (ramp_plane 5)
      9 2 9 5 1 ∅ = Some outS /\
    convertYuv420ToRgbNeon (ramp_plane 18) (ramp_plane 5) (ramp_plane 5)
      9 2 9 5 1 ∅ = Some outN /\
    outN !! spec_rgb_offset 9 1 8 2 = outS !! spec_rgb_offset 9 1 8 2.
Proof.
  split; [exact ramp_frame_readable|].
  destruct (neon_tail_matches_scalar _ _ _ _ _ _ _ _ ∅ ramp_frame_readable)
    as (outS & outN & RS & RN & Htail).
  exists outS, outN. split; [exact RS|]. split; [exact RN|].
  apply (Htail 1 8 2); try lia. vm_compute. discriminate.
Defined.

Lemma neon_per_pixel_witness :
  frame_readable (ramp_plane 18) (ramp_plane 5) (ramp_plane 5) 9 2 9 5 1 /\
  exists out',
    convertYuv420ToRgbNeon (ramp_plane 18) (ramp_plane 5) (ramp_plane 5)
      9 2 9 5 1 ∅ = Some out'.
Proof.
  split; [exact ramp_frame_readable|].
  destruct (neon_per_pixel _ _ _ _ _ _ _ _ ∅ ramp_frame_readable)
    as (out' & Hrun & _).
  exists out'. exact Hrun.
Defined.

(** The eight-pixel loop on an overflowing lane: Y = 200, U = 128,
    V = 255.  The Q8 value of the red contribution is 178; the lane holds
    178 - 256 = -78 and the stored bytes are (122, 110, 200). *)
Example neon_overflowing_pixel :
  q8 359 255 = 178 /\ q8_wrapped 359 255 = -78 /\
  (convertYuv420ToRgbNeon (packed (replicate 8 200))
     (packed (replicate 4 128)) (packed (replicate 4 255)) 8 1 8 4 1 ∅
     ≫= fun out' => mapM (load out') [0; 1; 2]) = Some [122; 110; 200].
Proof. vm_compute. repeat split. Qed.

Lemma neon_scalar_within_1_upper_chroma_witness :
  0 <= 9 /\ 0 <= 2 /\
  frame_samples (ramp_plane 18) (packed [128; 140; 200; 190; 150])
    (packed [219; 210; 128; 130; 170]) 9 2 9 5 1
    (fun _ u v => 128 <= u <= 200 /\ 128 <= v <= 219) /\
  exists outS outN,
    convertYuv420ToRgbScalar (ramp_plane 18)
      (packed [128; 140; 200; 190; 150]) (packed [219; 210; 128; 130; 170])
      9 2 9 5 1 ∅ = Some outS /\
    convertYuv420ToRgbNeon (ramp_plane 18)
      (packed [128; 140; 200; 190; 150]) (packed [219; 210; 128; 130; 170])
      9 2 9 5 1 ∅ = Some outN /\
    within (fun _ => 1) (9 * 2 * 3) outS outN.
Proof.
  assert (H1 : 0 <= 9) by lia. assert (H2 : 0 <= 2) by lia.
  assert (H3 : frame_samples (ramp_plane 18)
                 (packed [128; 140; 200; 190; 150])
                 (packed [219; 210; 128; 130; 170]) 9 2 9 5 1
                 (fun _ u v => 128 <= u <= 200 /\ 128 <= v <= 219)).
  { apply (frame_samplesb_spec _ _ _ _ _ _ _ _ _
             (fun _ u v => (128 <=? u) && (u <=? 200)
                           && (128 <=? v) && (v <=? 219))).
    - intros y u v. rewrite !andb_true_iff, !Z.leb_le. lia.
    - vm_compute. reflexivity. }
  split; [exact H1|]. split; [exact H2|]. split; [exact H3|].
  exact (neon_scalar_within_1_upper_chroma _ _ _ _ _ _ _ _ ∅ H1 H2 H3).
Defined.

Lemma clamp255_is_the_lane_saturation_witness :
  -5 <= 300 /\ u8_to_Z (clamp255 (-5)) <= u8_to_Z (clamp255 300).
Proof.
  assert (H : -5 <= 300) by lia. split; [exact H|].
  exact (proj2 (proj2 clamp255_is_the_lane_saturation) (-5) 300 H).
Defined.

Lemma luma_monotone_witness :
  frame_readable (ramp_plane 18) (packed (replicate 5 90))
    (packed (replicate 5 200)) 9 2 9 5 1 /\
  exists out',
    convertYuv420ToRgb (ramp_plane 18) (packed (replicate 5 90))
      (packed (replicate 5 200)) 9 2 9 5 1 true ∅ = Some out' /\
    exists a b,
      load out' (spec_rgb_offset 9 0 0 1) = Some a /\
      load out' (spec_rgb_offset 9 0 1 1) = Some b /\ a <= b.
Proof.
  assert (H : frame_readable (ramp_plane 18) (packed (replicate 5 90))
                (packed (replicate 5 200)) 9 2 9 5 1)
    by (apply frame_readableb_spec; vm_compute; reflexivity).
  split; [exact H|].
  destruct (luma_monotone _ _ _ _ _ _ _ _ true ∅ H) as (out' & Hrun & Hmono).
  exists out'. split; [exact Hrun|].
  apply (Hmono 0 0 0 1 11 48 90 200); try lia;
    repeat split; vm_compute; reflexivity.
Defined.

Lemma jni_empty_image_witness :
  (0 = 0 \/ 4 = 0) /\
  convertYuvToRgb true (Some ∅) (Some ∅) (Some ∅) 0 4 8 4 1
  = jni_returns {| jni_result := Some [];
                   jni_effects := [new_uint8_array 0; NewByteArray 0;
                                   SetByteArrayRegion 0 0; delete_array];
                   jni_buffer := Some ∅ |}.
Proof.
  assert (H : 0 = 0 \/ 4 = 0) by (left; reflexivity).
  split; [exact H|].
  exact (jni_empty_image true ∅ ∅ ∅ 0 4 8 4 1 H).
Defined.

Lemma jni_negative_geometry_witness :
  (-2 < 0 /\ -3 < 0 /\ -2 * -3 * 3 <= 2147483647 /\
   0 < -2 * -3 * 3 /\
   convertYuvToRgb true (Some (ramp_plane 18)) (Some (ramp_plane 5))
     (Some (ramp_plane 5)) (-2) (-3) 9 5 1
   = jni_returns
       {| jni_result := Some (replicate (Z.to_nat (-2 * -3 * 3)) None);
          jni_effects := [new_uint8_array (-2 * -3 * 3);
                          NewByteArray (-2 * -3 * 3);
                          SetByteArrayRegion 0 (-2 * -3 * 3);
                          delete_array];
          jni_buffer := Some ∅ |}) /\
  (2 * -3 < 0 /\ -2147483648 <= 2 * -3 * 3 /\
   convertYuvToRgb true (Some (ramp_plane 18)) (Some (ramp_plane 5))
     (Some (ramp_plane 5)) 2 (-3) 9 5 1
   = jni_throws [new_uint8_array (2 * -3 * 3)]).
Proof.
  assert (H1 : -2 < 0) by lia. assert (H2 : -3 < 0) by lia.
  assert (H3 : -2 * -3 * 3 <= 2147483647) by lia.
  assert (H4 : 2 * -3 < 0) by lia.
  assert (H5 : -2147483648 <= 2 * -3 * 3) by lia.
  split.
  - split; [exact H1|]. split; [exact H2|]. split; [exact H3|].
    exact (proj1 (jni_negative_geometry true (ramp_plane 18)
                    (ramp_plane 5) (ramp_plane 5) (-2) (-3) 9 5 1)
             H1 H2 H3).
  - split; [exact H4|]. split; [exact H5|].
    exact (proj2 (jni_negative_geometry true (ramp_plane 18)
                    (ramp_plane 5) (ramp_plane 5) 2 (-3) 9 5 1) H4 H5).
Defined.

(** The array returned for the -2 x -3 geometry: 18 cells, none written. *)
Example jni_negative_geometry_array :
  jni_array
    (convertYuvToRgb true (Some (ramp_plane 18)) (Some (ramp_plane 5))
       (Some (ramp_plane 5)) (-2) (-3) 9 5 1)
  = Some (replicate 18 None).
Proof. vm_compute. reflexivity. Qed.

Lemma jni_stride_independence_witness :
  same_image
    (packed [10; 20; 30; 40; 50; 60]) (packed [90; 200]) (packed [240; 16])
    (packed [10; 20; 30; 99; 99; 40; 50; 60; 99; 99]) (packed [90; 200; 77])
    (packed [240; 16; 77]) 3 2 3 2 5 3 1 /\
  convertYuvToRgb false
    (Some (packed [10; 20; 30; 40; 50; 60])) (Some (packed [90; 200]))
    (Some (packed [240; 16])) 3 2 3 2 1
  = convertYuvToRgb false
      (Some (packed [10; 20; 30; 99; 99; 40; 50; 60; 99; 99]))
      (Some (packed [90; 200; 77])) (Some (packed [240; 16; 77])) 3 2 5 3 1.
Proof.
  assert (H : same_image
    (packed [10; 20; 30; 40; 50; 60]) (packed [90; 200]) (packed [240; 16])
    (packed [10; 20; 30; 99; 99; 40; 50; 60; 99; 99]) (packed [90; 200; 77])
    (packed [240; 16; 77]) 3 2 3 2 5 3 1)
    by (apply same_imageb_spec; vm_compute; reflexivity).
  split; [exact H|].
  exact (jni_stride_independence false _ _ _ _ _ _ _ _ _ _ _ _ _ H).
Defined.

Lemma jni_scalar_array_witness :
  0 <= 3 /\ 0 <= 2 /\ 3 * 2 * 3 <= 2147483647 /\
  frame_readable (packed [10; 20; 30; 40; 50; 60]) (packed [90; 200])
    (packed [240; 16]) 3 2 3 2 1 /\
  exists outcome result,
    convertYuvToRgb false (Some (packed [10; 20; 30; 40; 50; 60]))
      (Some (packed [90; 200])) (Some (packed [240; 16])) 3 2 3 2 1
      = jni_returns outcome /\
    jni_result outcome = Some result /\
    length result = Z.to_nat (3 * 2 * 3) /\
    forall row col, 0 <= row < 2 -> 0 <= col < 3 ->
      exists y u v,
        sampled (packed [10; 20; 30; 40; 50; 60]) (packed [90; 200])
          (packed [240; 16]) 3 2 1 row col y u v /\
        option_map u8_to_Z <$> result !! Z.to_nat ((row * 3 + col) * 3)
          = Some (Some (spec_R y v)) /\
        option_map u8_to_Z <$> result !! Z.to_nat ((row * 3 + col) * 3 + 1)
          = Some (Some (spec_G y u v)) /\
        option_map u8_to_Z <$> result !! Z.to_nat ((row * 3 + col) * 3 + 2)
          = Some (Some (spec_B y u)).
Proof.
  assert (H1 : 0 <= 3) by lia. assert (H2 : 0 <= 2) by lia.
  assert (H3 : 3 * 2 * 3 <= 2147483647) by lia.
  assert (H4 : frame_readable (packed [10; 20; 30; 40; 50; 60])
                 (packed [90; 200]) (packed [240; 16]) 3 2 3 2 1)
    by (apply frame_readableb_spec; vm_compute; reflexivity).
  split; [exact H1|]. split; [exact H2|]. split; [exact H3|].
  split; [exact H4|].
  exact (jni_scalar_array (packed [10; 20; 30; 40; 50; 60])
           (packed [90; 200]) (packed [240; 16]) 3 2 3 2 1 H1 H2 H3 H4).
Defined.

(** The array the scalar build returns for that frame. *)
Example jni_scalar_array_values :
  jni_array
    (convertYuvToRgb false (Some (packed [10; 20; 30; 40; 50; 60]))
       (Some (packed [90; 200])) (Some (packed [240; 16])) 3 2 3 2 1)
  = Some ((fun z => Some (u8_of_Z z)) <$>
            [167; 0; 0; 177; 0; 0; 0; 85; 157;
             197; 0; 0; 207; 0; 0; 0; 115; 187]).
Proof. vm_compute. reflexivity. Qed.
